(** * redrip: configuration resolution and diff classification

    A shallow embedding of the Go packages [internal/redash] (config parser,
    profile resolver), [internal/diff] (comparison of one local file with one
    remote query), [internal/file] and of the bulk loop of the [diff all]
    command, followed by the properties of these functions.

    Go strings are byte strings: they are modelled by [string], whose
    characters are the 256 byte values.  Go [int] is the 64-bit signed
    integer; it is modelled by [Z] with the wrap-around written out. *)

From Stdlib Require Import ZArith NArith Ascii String List Bool Lia.
From stdpp Require Import base option list strings gmap.

Local Open Scope string_scope.
Local Open Scope list_scope.

(** ** Go library functions used by the program *)

(** Package [strings], on byte strings. *)
Module GoStrings.

(** Byte code of a character. *)
Definition code (c : ascii) : N := N_of_ascii c.

(** [asciiSpace] of package strings: '\t', '\n', '\v', '\f', '\r', ' '. *)
Definition isSpace1 (c : ascii) : bool :=
  ((9 <=? code c) && (code c <=? 13) || (code c =? 32))%N.

(** The two-byte UTF-8 encodings of the runes of [unicode.IsSpace]:
    U+0085 (C2 85) and U+00A0 (C2 A0). *)
Definition isSpace2 (c d : ascii) : bool :=
  ((code c =? 194) && ((code d =? 133) || (code d =? 160)))%N.

(** The three-byte encodings: U+1680 (E1 9A 80), U+2000..U+200A
    (E2 80 80..8A), U+2028, U+2029, U+202F (E2 80 A8, A9, AF),
    U+205F (E2 81 9F), U+3000 (E3 80 80). *)
Definition isSpace3 (c d e : ascii) : bool :=
  ((code c =? 225) && (code d =? 154) && (code e =? 128)
   || (code c =? 226) && (code d =? 128)
      && ((128 <=? code e) && (code e <=? 138)
          || (code e =? 168) || (code e =? 169) || (code e =? 175))
   || (code c =? 226) && (code d =? 129) && (code e =? 159)
   || (code c =? 227) && (code d =? 128) && (code e =? 128))%N.

(** [strings.TrimLeftFunc s unicode.IsSpace] on the bytes of [s]: the
    leading runes that are white space are dropped.  A rune decoded from
    the front of a string is white space exactly when the string starts
    with one of the encodings above (an invalid byte decodes to U+FFFD,
    which is no space). *)
Fixpoint trimLeft (s : list ascii) : list ascii :=
  match s with
  | [] => []
  | c :: r =>
      if isSpace1 c then trimLeft r
      else match r with
           | [] => s
           | d :: r2 =>
               if isSpace2 c d then trimLeft r2
               else match r2 with
                    | [] => s
                    | e :: r3 => if isSpace3 c d e then trimLeft r3 else s
                    end
           end
  end.

(** [strings.TrimRightFunc s unicode.IsSpace], on the reversed bytes: the
    last rune is white space exactly when the string ends with one of the
    encodings. *)
Fixpoint trimLeftRev (s : list ascii) : list ascii :=
  match s with
  | [] => []
  | c :: r =>
      if isSpace1 c then trimLeftRev r
      else match r with
           | [] => s
           | d :: r2 =>
               if isSpace2 d c then trimLeftRev r2
               else match r2 with
                    | [] => s
                    | e :: r3 => if isSpace3 e d c then trimLeftRev r3 else s
                    end
           end
  end.

Definition trimRight (s : list ascii) : list ascii :=
  rev (trimLeftRev (rev s)).

(** [strings.TrimSpace]: leading white space is removed first, then
    trailing white space of what is left. *)
Definition TrimSpace (s : string) : string :=
  string_of_list_ascii (trimRight (trimLeft (list_ascii_of_string s))).

(** [strings.HasPrefix s prefix]. *)
Definition HasPrefix (s pre : string) : bool := String.prefix pre s.

(** [strings.HasSuffix s suffix]. *)
Definition HasSuffix (s suf : string) : bool :=
  (String.length suf <=? String.length s)%nat
  && String.eqb (substring (String.length s - String.length suf)
                           (String.length suf) s) suf.

(** [strings.TrimSuffix s suffix]. *)
Definition TrimSuffix (s suf : string) : string :=
  if HasSuffix s suf
  then substring 0 (String.length s - String.length suf) s
  else s.

(** [s\[i:\]]. *)
Definition drop (i : nat) (s : string) : string :=
  substring i (String.length s - i) s.

(** [strings.Cut s sep] for a one-byte separator: the text before and
    after the first occurrence of [sep]. *)
Fixpoint Cut (s : string) (sep : ascii) : option (string * string) :=
  match s with
  | EmptyString => None
  | String c r =>
      if Ascii.eqb c sep then Some (EmptyString, r)
      else match Cut r sep with
           | Some (a, b) => Some (String c a, b)
           | None => None
           end
  end.

(** [strings.SplitN s sep 2] for a one-byte separator: at most two
    pieces, split at the first occurrence of [sep]. *)
Definition SplitN2 (s : string) (sep : ascii) : list string :=
  match Cut s sep with
  | Some (a, b) => [a; b]
  | None => [s]
  end.

(** [strings.Join elems sep]. *)
Fixpoint Join (elems : list string) (sep : string) : string :=
  match elems with
  | [] => ""
  | [a] => a
  | a :: rest => a +:+ sep +:+ Join rest sep
  end.

(** [strings.Contains s substr]. *)
Fixpoint Contains (s sub : string) : bool :=
  String.prefix sub s
  || match s with
     | EmptyString => false
     | String _ r => Contains r sub
     end.

End GoStrings.

Import GoStrings.

(** Package [strconv]. *)
Module strconv.

(** Bounds of the 64-bit Go [int]. *)
Definition minInt : Z := - 2 ^ 63.
Definition maxInt : Z := 2 ^ 63 - 1.

Definition digit (c : ascii) : option Z :=
  if ((48 <=? code c) && (code c <=? 57))%N
  then Some (Z.of_N (code c) - 48)%Z else None.

Fixpoint digits (s : string) (acc : Z) : option Z :=
  match s with
  | EmptyString => Some acc
  | String c r =>
      match digit c with
      | Some d => digits r (acc * 10 + d)%Z
      | None => None
      end
  end.

(** [strconv.Atoi]: an optional sign, then one or more decimal digits,
    and a value that fits the 64-bit [int].  [None] stands for the
    non-nil error (syntax or range). *)
Definition Atoi (s : string) : option Z :=
  let '(neg, body) :=
    match s with
    | String "-" r => (true, r)
    | String "+" r => (false, r)
    | _ => (false, s)
    end in
  match body with
  | EmptyString => None
  | _ =>
      match digits body 0 with
      | Some n =>
          let v := if neg then (- n)%Z else n in
          if ((minInt <=? v) && (v <=? maxInt))%Z then Some v else None
      | None => None
      end
  end.

End strconv.

(** ** The operating system, seen from the program *)

(** A Go [error], represented by its text [err.Error()]. *)
Definition error : Type := string.

(** A Go result pair [(v, err)] whose value is used only when [err] is nil. *)
Inductive result (A : Type) : Type :=
  | Ok (a : A)
  | Err (e : error).
Arguments Ok {A} a.
Arguments Err {A} e.

(** What [os.Stat] answers: file information (of which the program reads
    [IsDir] only), a does-not-exist error, or another error. *)
Inductive StatResult : Type :=
  | StatOk (isDir : bool)
  | StatNotExist (e : error)
  | StatFail (e : error).

(** [os.DirEntry]: the name and the directory bit of a directory entry. *)
Record DirEntry : Type := { entryName : string; entryIsDir : bool }.

(** One structured log record of [log/slog]. *)
Inductive Level : Type := LevelDebug | LevelInfo | LevelWarn | LevelError.

Inductive LogValue : Type :=
  | VStr (s : string)
  | VInt (z : Z)
  | VBool (b : bool).

Record LogRecord : Type :=
  { logLevel : Level; logMsg : string; logArgs : list (string * LogValue) }.

(** The system calls and the path functions the program uses, over a type
    [W] of states of the world (file system and environment).  [os_Open]
    gives the bytes the opened file delivers and the error, if any, that ends
    its reads in place of the end of file; [os_Close] gives the error, if
    any, of closing the file opened at a path.  [slog_Text] is the line
    the text handler of [log/slog] writes for a record: its time, its
    level, its message and its attributes. *)
Class OS (W : Type) : Type := {
  os_Stat : W -> string -> StatResult;
  os_ReadFile : W -> string -> result string;
  os_Open : W -> string -> result (string * option error);
  os_Close : W -> string -> option error;
  os_MkdirAll : W -> string -> W * option error;
  os_WriteFile : W -> string -> string -> W * option error;
  os_Getenv : W -> string -> string;
  os_UserHomeDir : W -> result string;
  filepath_Join : list string -> string;
  filepath_Dir : string -> string;
  slog_Text : W -> LogRecord -> string
}.

(** The text-diff library (diffmatchpatch): [DiffPrettyText (DiffMain a b)]. *)
Class DiffMatchPatch : Type := { dmp_DiffPrettyText : string -> string -> string }.

(** The state a command runs in: the world; the records handed to the
    logger so far (oldest first), whatever their level; what has been
    written to the standard output so far, by [fmt] and by the handler of
    the logger; the package variable [redash.CurrentProfile]; and the level
    of the handler of the package variable [logger.Logger], as
    [logger.Initialize] has set it before the command runs. *)
Record State (W : Type) : Type := {
  world : W;
  logs : list LogRecord;
  stdout : list string;
  CurrentProfile : string;
  LoggerLevel : Level
}.
Arguments world {W} _.
Arguments logs {W} _.
Arguments stdout {W} _.
Arguments CurrentProfile {W} _.
Arguments LoggerLevel {W} _.

(** Computations that read and change the state. *)
Definition M (W A : Type) : Type := State W -> A * State W.

Definition ret {W A} (a : A) : M W A := fun st => (a, st).

Definition bind {W A B} (m : M W A) (k : A -> M W B) : M W B :=
  fun st => let '(a, st') := m st in k a st'.

Notation "x <- m ;; k" := (bind m (fun x => k))
  (at level 100, m at next level, right associativity).
Notation "m ;;; k" := (bind m (fun _ => k))
  (at level 100, right associativity).

Definition gets {W A} (f : State W -> A) : M W A := fun st => (f st, st).

Definition setWorld {W} (w : W) : M W unit :=
  fun st => (tt, {| world := w; logs := logs st; stdout := stdout st;
                    CurrentProfile := CurrentProfile st;
                    LoggerLevel := LoggerLevel st |}).

Definition setCurrentProfile {W} (p : string) : M W unit :=
  fun st => (tt, {| world := world st; logs := logs st; stdout := stdout st;
                    CurrentProfile := p; LoggerLevel := LoggerLevel st |}).

(** A loop [for _, x := range xs { acc = body x acc }]. *)
Fixpoint forEach {W A S} (body : A -> S -> M W S) (xs : list A) (acc : S) : M W S :=
  match xs with
  | [] => ret acc
  | x :: rest => acc' <- body x acc ;; forEach body rest acc'
  end.

(** Package [fmt]. *)
Module fmt.
(** [fmt.Printf] and [fmt.Println]: the text is appended to the output. *)
Definition Print {W} (text : string) : M W unit :=
  fun st => (tt, {| world := world st; logs := logs st;
                    stdout := stdout st ++ [text];
                    CurrentProfile := CurrentProfile st;
                    LoggerLevel := LoggerLevel st |}).
End fmt.

(** Package [internal/logger]: the logger writes to the standard output,
    through a text handler of [log/slog], the records whose level is at
    least the level of the handler. *)
Module logger.

(** The order of the levels of [log/slog]: Debug, Info, Warn, Error. *)
Definition rank (lvl : Level) : Z :=
  match lvl with
  | LevelDebug => -4
  | LevelInfo => 0
  | LevelWarn => 4
  | LevelError => 8
  end.

(** [Handler.Enabled]: the handler of level [handler] writes the records
    of level [lvl]. *)
Definition Enabled (handler lvl : Level) : bool := (rank handler <=? rank lvl)%Z.

(** [Initialize]: a new handler of the level on the standard output. *)
Definition Initialize {W} (level : Level) : M W unit :=
  fun st => (tt, {| world := world st; logs := logs st; stdout := stdout st;
                    CurrentProfile := CurrentProfile st; LoggerLevel := level |}).

(** What the handler writes for a record: its line when the handler is
    enabled for the level of the record, and nothing otherwise. *)
Definition Handle {W} `{!OS W} (st : State W) (record : LogRecord) : list string :=
  if Enabled (LoggerLevel st) (logLevel record)
  then [slog_Text (world st) record]
  else [].

(** A call of the logger: the record is added to those handed to the
    logger, and the handler writes it to the standard output. *)
Definition emit {W} `{!OS W} (lvl : Level) (msg : string)
    (args : list (string * LogValue)) : M W unit :=
  fun st =>
    (tt, {| world := world st;
            logs := logs st ++ [{| logLevel := lvl; logMsg := msg; logArgs := args |}];
            stdout := stdout st
                      ++ Handle st {| logLevel := lvl; logMsg := msg; logArgs := args |};
            CurrentProfile := CurrentProfile st;
            LoggerLevel := LoggerLevel st |}).
Definition Debug {W} `{!OS W} := @emit W _ LevelDebug.
Definition Info {W} `{!OS W} := @emit W _ LevelInfo.
Definition Warn {W} `{!OS W} := @emit W _ LevelWarn.
Definition Error {W} `{!OS W} := @emit W _ LevelError.
End logger.

(** Package [bufio]: the Scanner over the lines of a file. *)
Module bufio.

(** [bufio.MaxScanTokenSize]: the size of the largest buffer of a Scanner. *)
Definition MaxScanTokenSize : N := 65536.

Definition ErrTooLong : error := "bufio.Scanner: token too long".

Definition newline : ascii := ascii_of_N 10.
Definition carriageReturn : ascii := ascii_of_N 13.

(** The stretches of bytes between newlines; nothing follows a final
    newline. *)
Fixpoint rawLines (data : string) : list string :=
  match data with
  | EmptyString => []
  | String c r =>
      if Ascii.eqb c newline then EmptyString :: rawLines r
      else match rawLines r with
           | [] => [String c EmptyString]
           | l :: ls => String c l :: ls
           end
  end.

(** [dropCR]: one trailing carriage return is removed. *)
Fixpoint dropCR (data : string) : string :=
  match data with
  | EmptyString => EmptyString
  | String c r =>
      match r with
      | EmptyString => if Ascii.eqb c carriageReturn then EmptyString else data
      | _ => String c (dropCR r)
      end
  end.

Definition len (s : string) : N := N.of_nat (String.length s).

(** The tokens [Scan] delivers with [ScanLines] and the default buffer: a
    line has to fit the buffer together with its newline or with room to
    see the end of the file, so the scan stops with [ErrTooLong] at the
    first line of [MaxScanTokenSize] bytes or more. *)
Fixpoint tokens (ls : list string) : list string * option error :=
  match ls with
  | [] => ([], None)
  | l :: rest =>
      if (MaxScanTokenSize <=? len l)%N then ([], Some ErrTooLong)
      else let '(ts, e) := tokens rest in (dropCR l :: ts, e)
  end.

(** All the lines [scanner.Scan()]/[scanner.Text()] give for a file that
    delivers [data], and then [scanner.Err()]; a read error [readErr]
    ends the data in place of the end of file. *)
Definition Scan (data : string) (readErr : option error)
  : list string * option error :=
  let '(ts, e) := tokens (rawLines data) in
  (ts, match e with Some x => Some x | None => readErr end).

End bufio.

(** Package [internal/file]. *)
Module file.
Section WithOS.
Context {W : Type} `{!OS W}.

(** [EnsureDirectory]: the directory is created when [os.Stat] says it
    does not exist. *)
Definition EnsureDirectory (dirPath : string) : M W (option error) :=
  w <- gets world ;;
  match os_Stat w dirPath with
  | StatNotExist _ =>
      let '(w', e) := os_MkdirAll w dirPath in
      setWorld w' ;;; ret e
  | _ => ret None
  end.

Definition WriteFile (path data : string) : M W (option error) :=
  let dir := filepath_Dir path in
  e <- EnsureDirectory dir ;;
  match e with
  | Some err =>
      ret (Some ("failed to create directory " +:+ dir +:+ ": " +:+ err))
  | None =>
      w <- gets world ;;
      let '(w', e') := os_WriteFile w path data in
      setWorld w' ;;; ret e'
  end.

Definition Exists (w : W) (path : string) : bool :=
  match os_Stat w path with
  | StatOk _ => true
  | _ => false
  end.

Definition IsDirectory (w : W) (path : string) : bool :=
  match os_Stat w path with
  | StatOk isDir => isDir
  | _ => false
  end.

Definition IsFile (w : W) (path : string) : bool :=
  match os_Stat w path with
  | StatOk isDir => negb isDir
  | _ => false
  end.
End WithOS.
End file.

(** Package [internal/redash]: configuration and profiles. *)
Module redash.

(** [DefaultConfigContent]: the text a new config file is created with. *)
Definition DefaultConfigContent : string := "# Default profile (used when no profile is specified)
[default]
# Redash API URL (required)
redash_url = 
# Redash API Key (required)
api_key = 
# Directory to save SQL files (optional, defaults to current directory)
sql_dir = 

# Example staging profile
# [profile stg]
# redash_url = https://redash-staging.example.com/api
# api_key = your_staging_api_key
# sql_dir = /path/to/staging/sql/dir

# Example production profile
# [profile prd]
# redash_url = https://redash-production.example.com/api
# api_key = your_production_api_key
# sql_dir = /path/to/production/sql/dir
".

(** [ProfileConfig]: the configuration of one profile. *)
Record ProfileConfig : Type :=
  { RedashURL : string; APIKey : string; SQLDir : string }.

(** The zero value [ProfileConfig{}]. *)
Definition zeroProfile : ProfileConfig :=
  {| RedashURL := ""; APIKey := ""; SQLDir := "" |}.

(** [Config]: the profiles by name. *)
Record Config : Type := { Profiles : gmap string ProfileConfig }.

(** [Query]: a remote query; [QueryText] is the field [Query] of the
    source, which cannot bear the name of its record here. *)
Record Query : Type := { ID : Z; Name : string; QueryText : string }.

(** [Client]: the fields of a client that come from the configuration. *)
Record Client : Type := { baseURL : string; apiKey : string; profile : string }.

(** [if _, exists := config.Profiles\[name\]; !exists
    { config.Profiles\[name\] = ProfileConfig{} }]. *)
Definition ensureProfile (name : string) (profiles : gmap string ProfileConfig)
  : gmap string ProfileConfig :=
  match profiles !! name with
  | Some _ => profiles
  | None => <[name := zeroProfile]> profiles
  end.

Section WithOS.
Context {W : Type} `{!OS W}.

Definition EnsureConfigFile (configPath : string) : M W (option error) :=
  logger.Debug "Ensuring config file exists" [("path", VStr configPath)] ;;;
  w <- gets world ;;
  if negb (file.Exists w configPath) then
    logger.Info "Config file does not exist, creating it" [("path", VStr configPath)] ;;;
    e <- file.WriteFile configPath DefaultConfigContent ;;
    match e with
    | Some err =>
        logger.Error "Failed to create config file"
          [("path", VStr configPath); ("error", VStr err)] ;;;
        ret (Some ("failed to create config file: " +:+ err))
    | None =>
        logger.Info "Created default config file" [("path", VStr configPath)] ;;;
        logger.Warn "Please edit the config file to set your Redash URL and API Key"
          [("path", VStr configPath)] ;;;
        fmt.Print ("Created default config file at " +:+ configPath
                   +:+ String bufio.newline
                         "Please edit it to set your Redash URL and API Key"
                   +:+ String bufio.newline "") ;;;
        ret None
    end
  else ret None.

(** The body of the scanning loop of [LoadConfig], on the map
    [config.Profiles] and the variable [currentProfile]. *)
Definition loadLine (line : string) (st : gmap string ProfileConfig * string)
  : M W (gmap string ProfileConfig * string) :=
  let '(profiles, currentProfile) := st in
  if HasPrefix (TrimSpace line) "#" || String.eqb (TrimSpace line) "" then
    ret st
  else if HasPrefix line "[" && HasSuffix line "]" then
    let profileName := TrimSpace (substring 1 (String.length line - 2) line) in
    let enter (currentProfile : string) :=
      ret (ensureProfile currentProfile profiles, currentProfile) in
    if HasPrefix profileName "profile " then
      enter (TrimSpace (drop 8 profileName))
    else if negb (String.eqb profileName "default") then
      logger.Warn "Invalid profile section"
        [("section", VStr line);
         ("hint", VStr "Profile sections should be [default] or [profile name]")] ;;;
      ret st
    else enter profileName
  else
    match SplitN2 line "=" with
    | [k; v] =>
        let key := TrimSpace k in
        let value := TrimSpace v in
        let profileConfig := default zeroProfile (profiles !! currentProfile) in
        profileConfig <-
          (if String.eqb key "redash_url" then
             logger.Debug "Config loaded"
               [("profile", VStr currentProfile); ("key", VStr "redash_url");
                ("value", VStr value)] ;;;
             ret {| RedashURL := value; APIKey := APIKey profileConfig;
                    SQLDir := SQLDir profileConfig |}
           else if String.eqb key "api_key" then
             logger.Debug "Config loaded"
               [("profile", VStr currentProfile); ("key", VStr "api_key");
                ("value", VStr "[REDACTED]")] ;;;
             ret {| RedashURL := RedashURL profileConfig; APIKey := value;
                    SQLDir := SQLDir profileConfig |}
           else if String.eqb key "sql_dir" then
             logger.Debug "Config loaded"
               [("profile", VStr currentProfile); ("key", VStr "sql_dir");
                ("value", VStr value)] ;;;
             ret {| RedashURL := RedashURL profileConfig;
                    APIKey := APIKey profileConfig; SQLDir := value |}
           else ret profileConfig) ;;
        ret (<[currentProfile := profileConfig]> profiles, currentProfile)
    | _ => ret st
    end.

(** [LoadConfig]; the deferred function runs when the function returns
    after the file has been opened. *)
Definition LoadConfig (configPath : string) : M W (result Config) :=
  logger.Debug "Loading configuration" [("path", VStr configPath)] ;;;
  e <- EnsureConfigFile configPath ;;
  match e with
  | Some err => ret (Err err)
  | None =>
      w <- gets world ;;
      match os_Open w configPath with
      | Err err =>
          logger.Error "Failed to open config file"
            [("path", VStr configPath); ("error", VStr err)] ;;;
          ret (Err err)
      | Ok (data, readErr) =>
          let '(lines, scanErr) := bufio.Scan data readErr in
          st <- forEach loadLine lines (∅, "default") ;;
          returned <-
            match scanErr with
            | Some err =>
                logger.Error "Error scanning config file" [("error", VStr err)] ;;;
                ret (Err err)
            | None =>
                logger.Info "Configuration loaded successfully" [] ;;;
                ret (Ok {| Profiles := ensureProfile "default" (fst st) |})
            end ;;
          w <- gets world ;;
          match os_Close w configPath with
          | Some err =>
              logger.Error "Failed to close config file"
                [("path", VStr configPath); ("error", VStr err)]
          | None => ret tt
          end ;;;
          ret returned
      end
  end.

(** [GetProfileConfig]: the configuration of the profile to use. *)
Definition GetProfileConfig (config : Config) (profileName : string)
  : M W ProfileConfig :=
  profileName <-
    (if String.eqb profileName "" then
       w <- gets world ;;
       let profileName := os_Getenv w "REDRIP_PROFILE" in
       (if negb (String.eqb profileName "") then
          logger.Debug "Using profile from environment variable"
            [("profile", VStr profileName)]
        else ret tt) ;;;
       ret profileName
     else ret profileName) ;;
  let profileName :=
    if String.eqb profileName "" then "default" else profileName in
  r <- match Profiles config !! profileName with
       | Some profileConfig => ret (profileConfig, profileName)
       | None =>
           logger.Warn "Profile does not exist, using default"
             [("requested_profile", VStr profileName)] ;;;
           ret (default zeroProfile (Profiles config !! "default"), "default")
       end ;;
  let '(profileConfig, profileName) := r in
  setCurrentProfile profileName ;;;
  logger.Debug "Using profile" [("profile", VStr profileName)] ;;;
  ret profileConfig.

(** [ValidateProfileConfig]: [None] is the nil error. *)
Definition ValidateProfileConfig (profileConfig : ProfileConfig)
  : M W (option error) :=
  if String.eqb (RedashURL profileConfig) ""
     || String.eqb (APIKey profileConfig) "" then
    logger.Error "Required configuration values missing"
      [("redash_url_set", VBool (negb (String.eqb (RedashURL profileConfig) "")));
       ("api_key_set", VBool (negb (String.eqb (APIKey profileConfig) "")))] ;;;
    let missingFields : list string := [] in
    let missingFields :=
      if String.eqb (RedashURL profileConfig) ""
      then (missingFields ++ ["redash_url"])%list else missingFields in
    let missingFields :=
      if String.eqb (APIKey profileConfig) ""
      then (missingFields ++ ["api_key"])%list else missingFields in
    let missingMsg :=
      "Missing required configuration: " +:+ Join missingFields ", " in
    logger.Warn missingMsg [] ;;;
    cur <- gets CurrentProfile ;;
    logger.Warn
      "Please edit your config file to set these values for the current profile"
      [("profile", VStr cur)] ;;;
    ret (Some ("required configuration values not found: "
               +:+ Join missingFields ", "))
  else ret None.

(** [GetProfileSQLDir]: the directory of the SQL files of a profile. *)
Definition GetProfileSQLDir (profileName : string) : M W (result string) :=
  logger.Debug "Getting SQL directory from config" [("profile", VStr profileName)] ;;;
  w <- gets world ;;
  match os_UserHomeDir w with
  | Err err =>
      logger.Error "Failed to get home directory" [("error", VStr err)] ;;;
      ret (Err ("failed to get home directory: " +:+ err))
  | Ok homeDir =>
      let configPath := filepath_Join [homeDir; ".redrip"; "config.conf"] in
      r <- LoadConfig configPath ;;
      match r with
      | Err err =>
          if Contains err "required configuration values not found" then
            logger.Info "Using current directory due to missing config values" [] ;;;
            ret (Ok ".")
          else
            logger.Error "Failed to load configuration" [("error", VStr err)] ;;;
            ret (Err ("failed to load configuration: " +:+ err))
      | Ok config =>
          profileConfig <- GetProfileConfig config profileName ;;
          cur <- gets CurrentProfile ;;
          if String.eqb (SQLDir profileConfig) "" then
            logger.Info "SQL directory not set, using current directory"
              [("profile", VStr cur)] ;;;
            ret (Ok ".")
          else
            w <- gets world ;;
            if negb (file.Exists w (SQLDir profileConfig))
               || negb (file.IsDirectory w (SQLDir profileConfig)) then
              logger.Warn "SQL directory does not exist, using current directory"
                [("profile", VStr cur);
                 ("configured_dir", VStr (SQLDir profileConfig))] ;;;
              ret (Ok ".")
            else
              logger.Debug "Using configured SQL directory"
                [("profile", VStr cur); ("path", VStr (SQLDir profileConfig))] ;;;
              ret (Ok (SQLDir profileConfig))
      end
  end.

(** [GetSQLDir], kept for backward compatibility. *)
Definition GetSQLDir : M W (result string) := GetProfileSQLDir "".

(** [NewClientWithProfile]: the client of a profile. *)
Definition NewClientWithProfile (profileName : string) : M W (result Client) :=
  logger.Debug "Creating new Redash client" [("profile", VStr profileName)] ;;;
  w <- gets world ;;
  match os_UserHomeDir w with
  | Err err =>
      logger.Error "Failed to get home directory" [("error", VStr err)] ;;;
      ret (Err ("failed to get home directory: " +:+ err))
  | Ok homeDir =>
      let configPath := filepath_Join [homeDir; ".redrip"; "config.conf"] in
      r <- LoadConfig configPath ;;
      match r with
      | Err err =>
          if Contains err "required configuration values not found" then
            ret (Err ("cannot create Redash client: " +:+ err))
          else
            logger.Error "Failed to load configuration" [("error", VStr err)] ;;;
            ret (Err ("failed to load configuration: " +:+ err))
      | Ok config =>
          profileConfig <- GetProfileConfig config profileName ;;
          e <- ValidateProfileConfig profileConfig ;;
          cur <- gets CurrentProfile ;;
          match e with
          | Some err =>
              ret (Err ("cannot create Redash client for profile '" +:+ cur
                        +:+ "': " +:+ err))
          | None =>
              logger.Info "Redash client created"
                [("profile", VStr cur); ("url", VStr (RedashURL profileConfig))] ;;;
              ret (Ok {| baseURL := RedashURL profileConfig;
                         apiKey := APIKey profileConfig; profile := cur |})
          end
      end
  end.
End WithOS.
End redash.

(** Package [internal/diff]. *)
Module diff.

(** [Result]: the result of one comparison. *)
Record Result : Type := {
  QueryID : Z;
  QueryName : string;
  Status : string;
  ErrorMessage : string;
  LocalPath : string;
  Differences : string
}.

(** [Summary]: the summary of a bulk comparison; [Differences_] is the
    counter [Differences] of the source, a name [Result] has taken here. *)
Record Summary : Type := {
  Profile : string;
  SQLDirectory : string;
  Matches : Z;
  Differences_ : Z;
  MissingInRedash : Z;
  Results : list Result
}.

Definition setStatus (r : Result) (status : string) : Result :=
  {| QueryID := QueryID r; QueryName := QueryName r; Status := status;
     ErrorMessage := ErrorMessage r; LocalPath := LocalPath r;
     Differences := Differences r |}.

Definition setQueryName (r : Result) (name : string) : Result :=
  {| QueryID := QueryID r; QueryName := name; Status := Status r;
     ErrorMessage := ErrorMessage r; LocalPath := LocalPath r;
     Differences := Differences r |}.

Definition setErrorMessage (r : Result) (msg : string) : Result :=
  {| QueryID := QueryID r; QueryName := QueryName r; Status := Status r;
     ErrorMessage := msg; LocalPath := LocalPath r;
     Differences := Differences r |}.

Definition setDifferences (r : Result) (d : string) : Result :=
  {| QueryID := QueryID r; QueryName := QueryName r; Status := Status r;
     ErrorMessage := ErrorMessage r; LocalPath := LocalPath r;
     Differences := d |}.

Section WithOS.
Context {W : Type} `{!OS W} `{!DiffMatchPatch}.

(** [CompareQueryWithLocal]: the result and the error of the comparison
    of the file at [localPath] with the remote query, [None] being the
    nil pointer.  The function only reads the world. *)
Definition CompareQueryWithLocal (w : W) (queryID : Z)
    (redashQuery : option redash.Query) (localPath : string)
  : Result * option error :=
  let result := {| QueryID := queryID; QueryName := ""; Status := "";
                   ErrorMessage := ""; LocalPath := localPath;
                   Differences := "" |} in
  if negb (file.Exists w localPath) || negb (file.IsFile w localPath) then
    (result, Some ("local SQL file does not exist: " +:+ localPath))
  else
    let result :=
      match redashQuery with
      | Some q => setQueryName result (redash.Name q)
      | None => result
      end in
    match os_ReadFile w localPath with
    | Err err => (result, Some ("failed to read local file: " +:+ err))
    | Ok localContent =>
        match redashQuery with
        | None => (setStatus result "MISSING_IN_REDASH", None)
        | Some q =>
            let localSQL := TrimSpace localContent in
            let redashSQL := TrimSpace (redash.QueryText q) in
            if String.eqb localSQL redashSQL then
              (setStatus result "MATCH", None)
            else
              (setDifferences (setStatus result "DIFFERENT")
                 (dmp_DiffPrettyText localSQL redashSQL), None)
        end
    end.
End WithOS.
End diff.

(** Package [internal/commands]: the command [diff all]. *)
Module commands.

(** Arithmetic of the 64-bit Go [int]: the result wraps around. *)
Definition wrapInt (z : Z) : Z := ((z + 2 ^ 63) mod 2 ^ 64 - 2 ^ 63)%Z.

(** [n++] on an [int]. *)
Definition incr (n : Z) : Z := wrapInt (n + 1).

(** [queryMap\[q.ID\] = q] for each listed query, in order. *)
Definition buildQueryMap (queries : list redash.Query) : gmap Z redash.Query :=
  foldl (fun queryMap q => <[redash.ID q := q]> queryMap) ∅ queries.

Definition addMatch (s : diff.Summary) : diff.Summary :=
  {| diff.Profile := diff.Profile s; diff.SQLDirectory := diff.SQLDirectory s;
     diff.Matches := incr (diff.Matches s);
     diff.Differences_ := diff.Differences_ s;
     diff.MissingInRedash := diff.MissingInRedash s;
     diff.Results := diff.Results s |}.

Definition addDifference (s : diff.Summary) : diff.Summary :=
  {| diff.Profile := diff.Profile s; diff.SQLDirectory := diff.SQLDirectory s;
     diff.Matches := diff.Matches s;
     diff.Differences_ := incr (diff.Differences_ s);
     diff.MissingInRedash := diff.MissingInRedash s;
     diff.Results := diff.Results s |}.

Definition addMissing (s : diff.Summary) : diff.Summary :=
  {| diff.Profile := diff.Profile s; diff.SQLDirectory := diff.SQLDirectory s;
     diff.Matches := diff.Matches s;
     diff.Differences_ := diff.Differences_ s;
     diff.MissingInRedash := incr (diff.MissingInRedash s);
     diff.Results := diff.Results s |}.

Definition appendResult (s : diff.Summary) (r : diff.Result) : diff.Summary :=
  {| diff.Profile := diff.Profile s; diff.SQLDirectory := diff.SQLDirectory s;
     diff.Matches := diff.Matches s;
     diff.Differences_ := diff.Differences_ s;
     diff.MissingInRedash := diff.MissingInRedash s;
     diff.Results := diff.Results s ++ [r] |}.

Section WithOS.
Context {W : Type} `{!OS W} `{!DiffMatchPatch}.

(** The body of the loop of [diffAllCmd] over the directory entries. *)
Definition diffAllEntry (sqlDir : string) (queryMap : gmap Z redash.Query)
    (entry : DirEntry) (summary : diff.Summary) : M W diff.Summary :=
  if entryIsDir entry || negb (HasSuffix (entryName entry) ".sql") then
    ret summary
  else
    let idStr := TrimSuffix (entryName entry) ".sql" in
    match strconv.Atoi idStr with
    | None =>
        logger.Debug "Skipping file with non-numeric ID"
          [("file", VStr (entryName entry))] ;;;
        ret summary
    | Some id =>
        let localPath := filepath_Join [sqlDir; entryName entry] in
        let queryPtr := queryMap !! id in
        w <- gets world ;;
        let '(result, err) := diff.CompareQueryWithLocal w id queryPtr localPath in
        result <-
          match err with
          | Some e =>
              logger.Error "Error comparing query" [("id", VInt id); ("error", VStr e)] ;;;
              ret (diff.setErrorMessage (diff.setStatus result "ERROR") e)
          | None => ret result
          end ;;
        summary <-
          (if String.eqb (diff.Status result) "MATCH" then
             logger.Debug "No differences found"
               [("id", VInt id); ("name", VStr (diff.QueryName result))] ;;;
             ret (addMatch summary)
           else if String.eqb (diff.Status result) "DIFFERENT" then
             logger.Info "Differences found"
               [("id", VInt id); ("name", VStr (diff.QueryName result))] ;;;
             ret (addDifference summary)
           else if String.eqb (diff.Status result) "MISSING_IN_REDASH" then
             logger.Warn "Local query does not exist in Redash"
               [("id", VInt id); ("file", VStr (entryName entry))] ;;;
             ret (addMissing summary)
           else ret summary) ;;
        ret (appendResult summary result)
    end.

(** [diffAllCmd], from the point where the SQL directory [sqlDir] is
    resolved, the remote [queries] are listed and the [entries] of the
    directory are read: the map of the queries by ID, the empty summary,
    the loop over the entries; the summary returned is the one the
    command prints as JSON. *)
Definition diffAllCmd (sqlDir : string) (queries : list redash.Query)
    (entries : list DirEntry) : M W diff.Summary :=
  let queryMap := buildQueryMap queries in
  cur <- gets CurrentProfile ;;
  let summary := {| diff.Profile := cur; diff.SQLDirectory := sqlDir;
                    diff.Matches := 0; diff.Differences_ := 0;
                    diff.MissingInRedash := 0; diff.Results := [] |} in
  forEach (diffAllEntry sqlDir queryMap) entries summary.
End WithOS.
End commands.

(** ** A world in memory

    A small instance of the interface, to run the program on concrete
    inputs: files and directories by path, environment variables, and the
    home directory. *)

Module MemOS.

Inductive Node : Type :=
  | Dir
  | File (content : string)
  | Unreadable (e : error).

Record World : Type := {
  files : gmap string Node;
  env : gmap string string;
  home : result string
}.

Definition rev_string (s : string) : string :=
  string_of_list_ascii (rev (list_ascii_of_string s)).

(** The directory part of a path: what precedes its last slash. *)
Definition Dir_ (path : string) : string :=
  match Cut (rev_string path) "/" with
  | Some (_, d) => if String.eqb d "" then "/" else rev_string d
  | None => "."
  end.

(** The non-empty elements joined by slashes. *)
Definition Join_ (elems : list string) : string :=
  Join (filter (fun e => e <> "") elems) "/".

(** The line of a record, without its time and its attributes. *)
Definition Text_ (r : LogRecord) : string :=
  "level=" +:+ match logLevel r with
               | LevelDebug => "DEBUG"
               | LevelInfo => "INFO"
               | LevelWarn => "WARN"
               | LevelError => "ERROR"
               end +:+ " msg=" +:+ logMsg r.

Definition withFiles (w : World) (fs : gmap string Node) : World :=
  {| files := fs; env := env w; home := home w |}.

#[global] Instance memOS : OS World := {|
  os_Stat w path :=
    match files w !! path with
    | Some Dir => StatOk true
    | Some _ => StatOk false
    | None => StatNotExist ("stat " +:+ path +:+ ": no such file or directory")
    end;
  os_ReadFile w path :=
    match files w !! path with
    | Some (File content) => Ok content
    | Some Dir => Err ("read " +:+ path +:+ ": is a directory")
    | Some (Unreadable e) => Err e
    | None => Err ("open " +:+ path +:+ ": no such file or directory")
    end;
  os_Open w path :=
    match files w !! path with
    | Some (File content) => Ok (content, None)
    | Some Dir => Ok ("", Some ("read " +:+ path +:+ ": is a directory"))
    | Some (Unreadable e) => Err e
    | None => Err ("open " +:+ path +:+ ": no such file or directory")
    end;
  os_Close w path := None;
  os_MkdirAll w path := (withFiles w (<[path := Dir]> (files w)), None);
  os_WriteFile w path data := (withFiles w (<[path := File data]> (files w)), None);
  os_Getenv w key := default "" (env w !! key);
  os_UserHomeDir w := home w;
  filepath_Join := Join_;
  filepath_Dir := Dir_;
  slog_Text w r := Text_ r
|}.

#[global] Instance memDiff : DiffMatchPatch :=
  {| dmp_DiffPrettyText a b := "-" +:+ a +:+ "+" +:+ b |}.

(** The state at the start of a command, the logger at the level [Warn]
    that the root command gives it when no flag asks for another. *)
Definition start (w : World) : State World :=
  {| world := w; logs := []; stdout := []; CurrentProfile := "";
     LoggerLevel := LevelWarn |}.

Definition world0 : World :=
  {| files := ∅; env := ∅; home := Ok "/home/u" |}.

End MemOS.

(** * Vocabulary of the properties *)

(** ** White space *)

(** A byte string made of encoded white-space runes only. *)
Fixpoint onlySpaces (s : list ascii) : bool :=
  match s with
  | [] => true
  | c :: r =>
      if isSpace1 c then onlySpaces r
      else match r with
           | [] => false
           | d :: r2 =>
               if isSpace2 c d then onlySpaces r2
               else match r2 with
                    | [] => false
                    | e :: r3 => isSpace3 c d e && onlySpaces r3
                    end
           end
  end.

Definition isWhiteSpace (s : string) : bool :=
  onlySpaces (list_ascii_of_string s).

(** A byte that starts the encoding of a white-space rune. *)
Definition startsSpace (c : ascii) : bool :=
  isSpace1 c
  || (code c =? 194)%N || (code c =? 225)%N || (code c =? 226)%N || (code c =? 227)%N.

Section Vocabulary.

Context {W : Type} `{!OS W}.

(** The result [CompareQueryWithLocal] starts from. *)
Definition freshResult (queryID : Z) (localPath : string) : diff.Result :=
  {| diff.QueryID := queryID; diff.QueryName := ""; diff.Status := "";
     diff.ErrorMessage := ""; diff.LocalPath := localPath;
     diff.Differences := "" |}.

(** The local path denotes an existing regular file whose content can be read. *)
Definition readableFile (w : W) (localPath : string) : bool :=
  file.Exists w localPath && file.IsFile w localPath
  && match os_ReadFile w localPath with Ok _ => true | Err _ => false end.

End Vocabulary.

(** The scenario of the padded remote text: local [5.sql] holds
    [SELECT 1], the remote query 5 holds the same text between spaces. *)
Definition world5 : MemOS.World :=
  MemOS.withFiles MemOS.world0 (<["5.sql" := MemOS.File "SELECT 1"]> ∅).

Definition query5 : redash.Query :=
  {| redash.ID := 5; redash.Name := "five"; redash.QueryText := " SELECT 1 " |}.

(** ** Profiles *)

(** The profile name to use, by precedence: the requested name when it is
    not empty, else the value of the environment variable when it is not
    empty, else [default]. *)
Definition activeProfileName (requested envValue : string) : string :=
  if String.eqb requested "" then
    if String.eqb envValue "" then "default" else envValue
  else requested.

(** The record of the warning [GetProfileConfig] logs when it falls back. *)
Definition fallbackWarning (name : string) : LogRecord :=
  {| logLevel := LevelWarn; logMsg := "Profile does not exist, using default";
     logArgs := [("requested_profile", VStr name)] |}.

#[global] Instance Level_eq_dec : EqDecision Level.
Proof. solve_decision. Defined.

(** The records of level [Warn] of a log. *)
Definition warnings (l : list LogRecord) : list LogRecord :=
  filter (fun r => logLevel r = LevelWarn) l.

(** A configuration with the profiles [default] and [stg], and a world
    whose environment asks for the profile [prd]. *)
Definition configStg : redash.Config :=
  {| redash.Profiles :=
       <["stg" := {| redash.RedashURL := "https://stg/api"; redash.APIKey := "S";
                     redash.SQLDir := "/sql/stg" |}]>
       (<["default" := {| redash.RedashURL := "https://x/api"; redash.APIKey := "K";
                          redash.SQLDir := "" |}]> ∅) |}.

Definition worldPrd : MemOS.World :=
  {| MemOS.files := ∅; MemOS.env := <["REDRIP_PROFILE" := "prd"]> ∅;
     MemOS.home := Ok "/home/u" |}.

(** ** Lines of a config file *)

(** The shapes of a line, as [LoadConfig] tells them apart. *)
Inductive LineKind : Type :=
  | CommentOrBlank
  | SectionHeader (name : string)
  | InvalidHeader
  | Setting (key value : string)
  | NoEquals.

(** A comment or a blank line. *)
Definition isComment (line : string) : bool :=
  HasPrefix (TrimSpace line) "#" || String.eqb (TrimSpace line) "".

(** A line between brackets, and the trimmed text between them. *)
Definition isBracketed (line : string) : bool :=
  HasPrefix line "[" && HasSuffix line "]".

Definition headerName (line : string) : string :=
  TrimSpace (substring 1 (String.length line - 2) line).

Definition lineKind (line : string) : LineKind :=
  if isComment line then CommentOrBlank
  else if isBracketed line then
    if HasPrefix (headerName line) "profile "
    then SectionHeader (TrimSpace (drop 8 (headerName line)))
    else if String.eqb (headerName line) "default" then SectionHeader "default"
    else InvalidHeader
  else
    match Cut line "=" with
    | Some (k, v) => Setting (TrimSpace k) (TrimSpace v)
    | None => NoEquals
    end.

(** The field a key names, set to a value; another key sets nothing. *)
Definition setField (key value : string) (pc : redash.ProfileConfig)
  : redash.ProfileConfig :=
  if String.eqb key "redash_url" then
    {| redash.RedashURL := value; redash.APIKey := redash.APIKey pc;
       redash.SQLDir := redash.SQLDir pc |}
  else if String.eqb key "api_key" then
    {| redash.RedashURL := redash.RedashURL pc; redash.APIKey := value;
       redash.SQLDir := redash.SQLDir pc |}
  else if String.eqb key "sql_dir" then
    {| redash.RedashURL := redash.RedashURL pc; redash.APIKey := redash.APIKey pc;
       redash.SQLDir := value |}
  else pc.

Definition knownKey (key : string) : bool :=
  String.eqb key "redash_url" || String.eqb key "api_key" || String.eqb key "sql_dir".

(** What a line of each shape does to the profiles and the current section. *)
Definition applyLine (k : LineKind) (st : gmap string redash.ProfileConfig * string)
  : gmap string redash.ProfileConfig * string :=
  match k with
  | CommentOrBlank | InvalidHeader | NoEquals => st
  | SectionHeader name => (redash.ensureProfile name (fst st), name)
  | Setting key value =>
      (<[snd st := setField key value
                     (default redash.zeroProfile (fst st !! snd st))]> (fst st),
       snd st)
  end.

(** The profiles and the section after a run of lines. *)
Definition runLines (lines : list string) (st : gmap string redash.ProfileConfig * string)
  : gmap string redash.ProfileConfig * string :=
  foldl (fun st line => applyLine (lineKind line) st) st lines.

(** The lines that leave the profiles as they are: comments, blank lines,
    invalid headers, lines without [=], and settings of an unknown key. *)
Definition ignoredKind (k : LineKind) : bool :=
  match k with
  | CommentOrBlank | InvalidHeader | NoEquals => true
  | Setting key _ => negb (knownKey key)
  | SectionHeader _ => false
  end.

(** The current section is [default] or a profile that exists. *)
Definition sectionOpen (st : gmap string redash.ProfileConfig * string) : Prop :=
  snd st = "default" \/ is_Some (fst st !! snd st).

(** The record of the warning logged for an invalid section header. *)
Definition invalidHeaderWarning (line : string) : LogRecord :=
  {| logLevel := LevelWarn; logMsg := "Invalid profile section";
     logArgs := [("section", VStr line);
                 ("hint", VStr "Profile sections should be [default] or [profile name]")] |}.

(** The profiles [LoadConfig] returns for the lines of a file. *)
Definition parsedProfiles (lines : list string) : gmap string redash.ProfileConfig :=
  redash.ensureProfile "default" (fst (runLines lines (∅, "default"))).

(** A line the scanner can deliver: shorter than the largest buffer. *)
Definition fitsBuffer (line : string) : bool :=
  (bufio.len line <? bufio.MaxScanTokenSize)%N.

(** A character does not occur in a string. *)
Fixpoint lacks (c : ascii) (s : string) : bool :=
  match s with
  | EmptyString => true
  | String x r => negb (Ascii.eqb x c) && lacks c r
  end.

(** Some line opens the section [default] or sets a key in it, [cur] being
    the section the lines start in. *)
Fixpoint touchesDefault (cur : string) (lines : list string) : bool :=
  match lines with
  | [] => false
  | l :: rest =>
      match lineKind l with
      | SectionHeader name => String.eqb name "default" || touchesDefault name rest
      | Setting _ _ => String.eqb cur "default" || touchesDefault cur rest
      | _ => touchesDefault cur rest
      end
  end.

(** A config file with the one section [stg], in a world where it is the
    file of the user. *)
Definition stgFile : string :=
  "# staging only
[profile stg]
redash_url = https://stg/api
api_key = S
".

Definition worldStg : MemOS.World :=
  MemOS.withFiles MemOS.world0 (<["/home/u/.redrip/config.conf" := MemOS.File stgFile]> ∅).

(** A config file made of one line of 65536 letters, in a world where it is
    the file of the user. *)
Definition longLine : string :=
  string_of_list_ascii (repeat "a"%char (N.to_nat bufio.MaxScanTokenSize)).

Definition worldLong : MemOS.World :=
  MemOS.withFiles MemOS.world0 (<["/home/u/.redrip/config.conf" := MemOS.File longLine]> ∅).

(** ** The SQL directory *)

(** The directory of a resolved profile: the configured one when it is not
    empty and exists as a directory, else the current directory. *)
Definition resolvedDirectory {W : Type} `{!OS W} (w : W) (pc : redash.ProfileConfig)
  : string :=
  if String.eqb (redash.SQLDir pc) "" then "."
  else if file.Exists w (redash.SQLDir pc) && file.IsDirectory w (redash.SQLDir pc)
       then redash.SQLDir pc
       else ".".

(** The one record [GetProfileSQLDir] logs once the profile is resolved:
    at level Info when no directory is set, a warning when the directory
    set does not exist, at level Debug when it is used. *)
Definition directoryRecord {W : Type} `{!OS W} (w : W) (cur : string)
    (pc : redash.ProfileConfig) : LogRecord :=
  if String.eqb (redash.SQLDir pc) "" then
    {| logLevel := LevelInfo;
       logMsg := "SQL directory not set, using current directory";
       logArgs := [("profile", VStr cur)] |}
  else if file.Exists w (redash.SQLDir pc) && file.IsDirectory w (redash.SQLDir pc) then
    {| logLevel := LevelDebug; logMsg := "Using configured SQL directory";
       logArgs := [("profile", VStr cur); ("path", VStr (redash.SQLDir pc))] |}
  else
    {| logLevel := LevelWarn;
       logMsg := "SQL directory does not exist, using current directory";
       logArgs := [("profile", VStr cur);
                   ("configured_dir", VStr (redash.SQLDir pc))] |}.

(** A world with a config file whose default profile names the directory
    [/sql], which exists, and whose profile [old] names one that does not. *)
Definition sqlFile : string :=
  "[default]
redash_url = https://x/api
api_key = K
sql_dir = /sql
[profile old]
sql_dir = /gone
".

Definition worldSql : MemOS.World :=
  MemOS.withFiles MemOS.world0
    (<["/home/u/.redrip/config.conf" := MemOS.File sqlFile]>
       (<["/sql" := MemOS.Dir]> ∅)).

Definition sqlStart (profileName : string) : State MemOS.World :=
  snd (logger.Debug "Getting SQL directory from config"
         [("profile", VStr profileName)] (MemOS.start worldSql)).

Definition sqlConfig (profileName : string) : redash.Config :=
  match fst (redash.LoadConfig "/home/u/.redrip/config.conf" (sqlStart profileName)) with
  | Ok config => config
  | Err _ => {| redash.Profiles := ∅ |}
  end.

Definition sqlLoaded (profileName : string) : State MemOS.World :=
  snd (redash.LoadConfig "/home/u/.redrip/config.conf" (sqlStart profileName)).

(** ** The bulk diff *)

(** The query ID a directory entry stands for: the entry is no directory
    and its name is an integer followed by [.sql]. *)
Definition queryFileID (entry : DirEntry) : option Z :=
  if entryIsDir entry || negb (HasSuffix (entryName entry) ".sql") then None
  else strconv.Atoi (TrimSuffix (entryName entry) ".sql").

(** The number of results of a status. *)
Definition countStatus (status : string) (results : list diff.Result) : Z :=
  Z.of_nat (length (filter (fun r => diff.Status r = status) results)).

(** The counter a result counts for. *)
Definition tally (r : diff.Result) (summary : diff.Summary) : diff.Summary :=
  if String.eqb (diff.Status r) "MATCH" then commands.addMatch summary
  else if String.eqb (diff.Status r) "DIFFERENT" then commands.addDifference summary
  else if String.eqb (diff.Status r) "MISSING_IN_REDASH" then commands.addMissing summary
  else summary.

Section BulkVocabulary.

Context {W : Type} `{!OS W} `{!DiffMatchPatch}.

(** The local path of an entry. *)
Definition entryPath (sqlDir : string) (entry : DirEntry) : string :=
  filepath_Join [sqlDir; entryName entry].

(** The result the bulk diff appends for an entry that stands for the
    query [id]: the result of the comparison, turned into an ERROR result
    when the comparison returns an error. *)
Definition entryResult (w : W) (sqlDir : string) (queryMap : gmap Z redash.Query)
    (entry : DirEntry) (id : Z) : diff.Result :=
  let '(result, err) :=
    diff.CompareQueryWithLocal w id (queryMap !! id) (entryPath sqlDir entry) in
  match err with
  | Some e => diff.setErrorMessage (diff.setStatus result "ERROR") e
  | None => result
  end.

(** The results of a directory listing, in its order. *)
Definition entryResults (w : W) (sqlDir : string) (queryMap : gmap Z redash.Query)
    (entries : list DirEntry) : list diff.Result :=
  omap (fun entry =>
          match queryFileID entry with
          | Some id => Some (entryResult w sqlDir queryMap entry id)
          | None => None
          end) entries.

(** What one entry does to the summary. *)
Definition entryStep (w : W) (sqlDir : string) (queryMap : gmap Z redash.Query)
    (summary : diff.Summary) (entry : DirEntry) : diff.Summary :=
  match queryFileID entry with
  | Some id =>
      let r := entryResult w sqlDir queryMap entry id in
      commands.appendResult (tally r summary) r
  | None => summary
  end.

End BulkVocabulary.

(** The counters of a summary count the results of their status. *)
Definition countersAgree (summary : diff.Summary) : Prop :=
  diff.Matches summary = countStatus "MATCH" (diff.Results summary)
  /\ diff.Differences_ summary = countStatus "DIFFERENT" (diff.Results summary)
  /\ diff.MissingInRedash summary
     = countStatus "MISSING_IN_REDASH" (diff.Results summary).

(** The summary the bulk diff starts from. *)
Definition emptySummary (profileName sqlDir : string) : diff.Summary :=
  {| diff.Profile := profileName; diff.SQLDirectory := sqlDir;
     diff.Matches := 0; diff.Differences_ := 0; diff.MissingInRedash := 0;
     diff.Results := [] |}.

(** The directory of the scenario: [3.sql] and [abc.sql], and the listing
    with [7.sql], whose file is gone, before [5.sql]. *)
Definition worldDir : MemOS.World :=
  MemOS.withFiles MemOS.world0
    (<["sql/3.sql" := MemOS.File "SELECT 3"]>
       (<["sql/abc.sql" := MemOS.File "SELECT 0"]>
          (<["sql/5.sql" := MemOS.File "SELECT 1"]> ∅))).

Definition entry (name : string) : DirEntry :=
  {| entryName := name; entryIsDir := false |}.

(** The four statuses of a result. *)
Definition statuses : list string :=
  ["MATCH"; "DIFFERENT"; "MISSING_IN_REDASH"; "ERROR"].

(** The entries of a listing that stand for a query. *)
Definition queryFiles (entries : list DirEntry) : list DirEntry :=
  filter (fun e => is_Some (queryFileID e)) entries.

Definition listingDir : list DirEntry :=
  [entry "3.sql"; entry "abc.sql"; entry "7.sql"; entry "5.sql";
   {| entryName := "9.sql"; entryIsDir := true |}].

Definition queriesDir : list redash.Query :=
  [{| redash.ID := 3; redash.Name := "three"; redash.QueryText := "SELECT 3
" |};
   {| redash.ID := 5; redash.Name := "five"; redash.QueryText := "SELECT 5" |}].

(** The number of occurrences of a character in a string. *)
Fixpoint occurrences (c : ascii) (s : string) : nat :=
  match s with
  | EmptyString => 0
  | String x r => (if Ascii.eqb x c then 1 else 0) + occurrences c r
  end.

(** ** Tactics *)

(** Boolean tests on byte codes, turned into arithmetic. *)
Ltac bool_to_prop :=
  repeat match goal with
    | H : _ && _ = true |- _ => apply andb_true_iff in H; destruct H
    | H : _ || _ = true |- _ => apply orb_true_iff in H; destruct H
    | H : (_ =? _)%N = true |- _ => apply N.eqb_eq in H
    | H : (_ <=? _)%N = true |- _ => apply N.leb_le in H
    end.

Ltac bool_false :=
  apply not_true_is_false; intro;
  repeat match goal with
    | H : isSpace1 _ = _ |- _ => unfold isSpace1 in H
    | H : isSpace2 _ _ = _ |- _ => unfold isSpace2 in H
    | H : isSpace3 _ _ _ = _ |- _ => unfold isSpace3 in H
    | H : startsSpace _ = _ |- _ => unfold startsSpace, isSpace1 in H
    end;
  bool_to_prop; lia.

(** The operations of the state monad, unfolded. *)
Ltac munfold :=
  unfold bind, ret, gets, setWorld, setCurrentProfile,
    logger.Debug, logger.Info, logger.Warn, logger.Error, logger.emit, fmt.Print.

(** * More of the program *)

(** ** Printing integers *)

(** The verb [%d] of [fmt] for an [int]: the decimal digits, after a minus
    sign for a negative value. Twenty digits are enough for the 64 bits. *)
Module gofmt.

Definition digitChar (d : Z) : ascii := ascii_of_N (Z.to_N (48 + d)).

Fixpoint utoa (fuel : nat) (n : Z) (acc : string) : string :=
  match fuel with
  | O => acc
  | S fuel' =>
      let acc' := String (digitChar (n mod 10)) acc in
      if (n <? 10)%Z then acc' else utoa fuel' (n / 10) acc'
  end.

Definition Sprintd (n : Z) : string :=
  if (n <? 0)%Z then String "-" (utoa 20 (- n) "") else utoa 20 n "".

(** [fmt.Println]: the text and a newline. *)
Definition Println {W} (text : string) : M W unit :=
  fmt.Print (text +:+ String bufio.newline "").

End gofmt.

(** ** Errors of the API *)

(** Package [internal/redash], the file of the error helpers. [None] is the
    nil error. *)
Module redash_errors.

Definition IsHTMLResponseError (err : option error) : bool :=
  match err with
  | None => false
  | Some e => Contains e "HTML instead of JSON"
  end.

Definition PrintCommonErrorSuggestions {W} (err : option error) : M W unit :=
  if IsHTMLResponseError err then
    fmt.Print ("エラー: " +:+ default "<nil>" err
               +:+ String bufio.newline (String bufio.newline "")) ;;;
    gofmt.Println "考えられる解決策:" ;;;
    gofmt.Println "1. APIキーが正しいか確認してください。" ;;;
    gofmt.Println "2. RedashのURLが正しいか確認してください（末尾にスラッシュがあるか、APIパスが含まれていないか）。" ;;;
    gofmt.Println "3. RedashのURLにアクセス可能か確認してください。" ;;;
    gofmt.Println "4. 設定ファイル（~/.redrip/config.conf）の内容を確認してください。"
  else ret tt.

End redash_errors.

(** Package [internal/diff]: [HandleCommonAPIErrors]. *)
Module diff_errors.

Definition HandleCommonAPIErrors {W} (err : option error) : M W unit :=
  redash_errors.PrintCommonErrorSuggestions err.

End diff_errors.

(** ** The command [config list] *)

Module cmd_config.

(** [isMissingRequiredFields]: the error is about missing required fields. *)
Definition isMissingRequiredFields (err : option error) : bool :=
  match err with
  | None => false
  | Some e => Contains e "required configuration values not found"
  end.

Section WithOS.
Context {W : Type} `{!OS W}.

(** [showProfileConfig]: the settings of a profile, printed with the API key
    hidden. *)
Definition showProfileConfig (config : redash.Config) (profileName : string)
  : M W unit :=
  match redash.Profiles config !! profileName with
  | Some profileConfig =>
      let redashURLStatus :=
        if negb (String.eqb (redash.RedashURL profileConfig) "")
        then redash.RedashURL profileConfig else "[NOT SET]" in
      let apiKeyStatus :=
        if negb (String.eqb (redash.APIKey profileConfig) "")
        then "[REDACTED]" else "[NOT SET]" in
      w <- gets world ;;
      let sqlDir := redash.SQLDir profileConfig in
      let sqlDir :=
        if String.eqb sqlDir "" then "[NOT SET - using current directory]"
        else if negb (file.Exists w sqlDir)
             then sqlDir +:+ " [DIRECTORY DOES NOT EXIST - will use current directory]"
             else sqlDir in
      fmt.Print ("  redash_url = " +:+ redashURLStatus +:+ String bufio.newline "") ;;;
      fmt.Print ("  api_key = " +:+ apiKeyStatus +:+ String bufio.newline "") ;;;
      fmt.Print ("  sql_dir = " +:+ sqlDir +:+ String bufio.newline "")
  | None =>
      fmt.Print ("Profile '" +:+ profileName +:+ "' does not exist"
                 +:+ String bufio.newline "")
  end.

(** The loop of [configListCmd] over the profiles other than the active one. *)
Definition showOther (config : redash.Config) (activeProfile profileName : string)
    (_ : unit) : M W unit :=
  if String.eqb profileName activeProfile then ret tt
  else
    fmt.Print ("[" +:+ profileName +:+ "]" +:+ String bufio.newline "") ;;;
    showProfileConfig config profileName ;;;
    gofmt.Println "".

(** [configListCmd]: [profile] is the flag of that name, and [order] the
    order in which the program meets the keys of the profile map when it
    ranges over it (the language leaves it open). *)
Definition configListCmd (profile : string) (order : list string)
  : M W (option error) :=
  logger.Info "Starting config list command" [("profile", VStr profile)] ;;;
  w <- gets world ;;
  match os_UserHomeDir w with
  | Err err =>
      logger.Error "Failed to get home directory" [("error", VStr err)] ;;;
      ret (Some ("failed to get home directory: " +:+ err))
  | Ok homeDir =>
      let configPath := filepath_Join [homeDir; ".redrip"; "config.conf"] in
      logger.Debug "Using config path" [("path", VStr configPath)] ;;;
      if negb (file.Exists w configPath) then
        logger.Warn "Config file does not exist" [("path", VStr configPath)] ;;;
        gofmt.Println "Config file does not exist. Creating default config file..." ;;;
        e <- redash.EnsureConfigFile configPath ;;
        match e with
        | Some err =>
            logger.Error "Failed to create config file"
              [("path", VStr configPath); ("error", VStr err)] ;;;
            ret (Some ("failed to create config file: " +:+ err))
        | None =>
            fmt.Print ("Default config file created at " +:+ configPath
                       +:+ String bufio.newline "") ;;;
            gofmt.Println "Please edit it to set your Redash URL and API Key" ;;;
            ret None
        end
      else
        r <- redash.LoadConfig configPath ;;
        match r with
        | Err err =>
            logger.Error "Failed to load config" [("error", VStr err)] ;;;
            ret (Some ("failed to load config: " +:+ err))
        | Ok config =>
            w <- gets world ;;
            let activeProfile := profile in
            let activeProfile :=
              if String.eqb activeProfile "" then
                let activeProfile := os_Getenv w "REDRIP_PROFILE" in
                if String.eqb activeProfile "" then "default" else activeProfile
              else activeProfile in
            let activeProfile :=
              match redash.Profiles config !! activeProfile with
              | Some _ => activeProfile
              | None => "default"
              end in
            fmt.Print ("Configuration file: " +:+ configPath
                       +:+ String bufio.newline (String bufio.newline "")) ;;;
            (if negb (String.eqb profile "") then
               showProfileConfig config profile
             else
               let envProfile := os_Getenv w "REDRIP_PROFILE" in
               (if negb (String.eqb activeProfile "") then
                  fmt.Print ("Active profile: " +:+ activeProfile) ;;;
                  (if negb (String.eqb envProfile "") && String.eqb envProfile activeProfile
                   then fmt.Print " (from REDRIP_PROFILE environment variable)"
                   else ret tt) ;;;
                  gofmt.Println "" ;;;
                  showProfileConfig config activeProfile ;;;
                  gofmt.Println ""
                else ret tt) ;;;
               gofmt.Println "Available profiles:" ;;;
               gofmt.Println "------------------" ;;;
               forEach (showOther config activeProfile) order tt) ;;;
            ret None
        end
  end.

End WithOS.
End cmd_config.


(** ** The client of the API *)

(** How a call ends: it returns, it panics, or, for the model of a loop,
    the steps granted are used up before it ends. *)
Inductive outcome (A : Type) : Type :=
  | Returned (a : A)
  | Panicked
  | OutOfFuel.
Arguments Returned {A} a.
Arguments Panicked {A}.
Arguments OutOfFuel {A}.

(** An [*http.Response] as the client reads it: the status code, the bytes
    [io.ReadAll] gets from the body, the error that ends its reads in
    place of the end of the data, and the bytes of the buffer of
    [io.ReadAll] after the data, which a re-slice beyond the length shows
    (the buffer has room for 512 bytes at least). *)
Record Response : Type := {
  StatusCode : Z;
  Body : string;
  ReadErr : option error;
  Spare : string
}.

(** The network, seen from the program: whether [http.NewRequest] makes a
    request of the URL (it does not when the URL cannot be parsed), and
    what [http.Client.Do] answers to a GET of the URL with the
    [Authorization] header, which may change the world. *)
Class HTTP (W : Type) : Type := {
  http_NewRequest : string -> bool;
  http_Do : W -> string -> string -> W * result Response
}.

(** The response to the paged listing, decoded. *)
Record queryListResponse : Type := {
  Results_ : list redash.Query;
  Page : Z;
  PageSize : Z;
  Count : Z
}.

(** [encoding/json]: decoding a body into a zero [Query] or a zero
    [queryListResponse], and [MarshalIndent] of the values the commands
    print. *)
Class JSON : Type := {
  json_Unmarshal_Query : string -> result redash.Query;
  json_Unmarshal_List : string -> result queryListResponse;
  json_MarshalIndent_Result : diff.Result -> string
}.

(** [strconv.Quote], which the text of an error of [strconv.Atoi] uses. *)
Class Quoting : Type := { strconv_Quote : string -> string }.

Module redash_http.

(** [contentPreview]: the first 200 bytes of a long body, then dots. *)
Definition contentPreview (body : string) : string :=
  if (200 <? String.length body)%nat then substring 0 200 body +:+ "..." else body.

Definition htmlError : error :=
  "received HTML instead of JSON. This may indicate authentication issues or an incorrect URL. Please check your API key and Redash URL".

(** [string(body\[:100\])]: the re-slice reaches into the buffer. *)
Definition reslice100 (resp : Response) : string :=
  substring 0 100 (Body resp +:+ Spare resp).

Definition queryURL (c : redash.Client) (id : Z) : string :=
  redash.baseURL c +:+ "/queries/" +:+ gofmt.Sprintd id.

Definition pageURL (c : redash.Client) (page pageSize : Z) : string :=
  redash.baseURL c +:+ "/queries?page=" +:+ gofmt.Sprintd page
  +:+ "&page_size=" +:+ gofmt.Sprintd pageSize.

Definition authorization (c : redash.Client) : string := "Key " +:+ redash.apiKey c.

Section WithNet.
Context {W : Type} `{!OS W} `{!HTTP W} `{!JSON}.

(** The request and the reading of the response that [GetQuery] and
    [ListQueries] share, up to the decoding of the body: a panic when the
    request is nil, the error of the function, or the response. *)
Definition fetch (url auth : string) : M W (outcome (result Response)) :=
  if negb (http_NewRequest url) then ret Panicked
  else
    w <- gets world ;;
    let '(w', r) := http_Do w url auth in
    setWorld w' ;;;
    match r with
    | Err err =>
        logger.Error "Failed to execute request" [("error", VStr err)] ;;;
        ret (Returned (Err ("failed to execute request: " +:+ err)))
    | Ok resp =>
        if negb (StatusCode resp =? 200)%Z then
          logger.Error "Received non-200 response"
            [("status", VInt (StatusCode resp));
             ("response_preview", VStr (contentPreview (Body resp)))] ;;;
          ret (Returned (Err ("received non-200 response: "
                              +:+ gofmt.Sprintd (StatusCode resp) +:+ " (content: "
                              +:+ contentPreview (Body resp) +:+ ")")))
        else
          match ReadErr resp with
          | Some err =>
              logger.Error "Failed to read response body" [("error", VStr err)] ;;;
              ret (Returned (Err ("failed to read response body: " +:+ err)))
          | None => ret (Returned (Ok resp))
          end
    end.

(** What both functions do with a body that does not decode. *)
Definition undecoded {A : Type} (resp : Response) (err : error)
  : M W (outcome (result A)) :=
  if HasPrefix (Body resp) "<" then
    logger.Error "Received HTML instead of JSON"
      [("response_preview", VStr (reslice100 resp))] ;;;
    ret (Returned (Err htmlError))
  else
    logger.Error "Failed to unmarshal response" [("error", VStr err)] ;;;
    ret (Returned (Err ("failed to unmarshal response: " +:+ err))).

(** [GetQuery]. *)
Definition GetQuery (c : redash.Client) (id : Z)
  : M W (outcome (result redash.Query)) :=
  logger.Debug "Getting query" [("id", VInt id)] ;;;
  fetched <- fetch (queryURL c id) (authorization c) ;;
  match fetched with
  | Panicked => ret Panicked
  | OutOfFuel => ret OutOfFuel
  | Returned (Err err) => ret (Returned (Err err))
  | Returned (Ok resp) =>
      match json_Unmarshal_Query (Body resp) with
      | Err err => undecoded resp err
      | Ok query =>
          logger.Info "Retrieved query"
            [("id", VInt (redash.ID query)); ("name", VStr (redash.Name query))] ;;;
          ret (Returned (Ok query))
      end
  end.

(** The loop of [ListQueries], from the page [page] on, [allQueries] being
    the queries fetched so far; [fuel] bounds the number of pages. *)
Fixpoint listPages (fuel : nat) (c : redash.Client) (page pageSize : Z)
    (allQueries : list redash.Query) : M W (outcome (result (list redash.Query))) :=
  match fuel with
  | O => ret OutOfFuel
  | S fuel' =>
      logger.Debug "Fetching page of queries"
        [("page", VInt page); ("page_size", VInt pageSize)] ;;;
      fetched <- fetch (pageURL c page pageSize) (authorization c) ;;
      match fetched with
      | Panicked => ret Panicked
      | OutOfFuel => ret OutOfFuel
      | Returned (Err err) => ret (Returned (Err err))
      | Returned (Ok resp) =>
          match json_Unmarshal_List (Body resp) with
          | Err err => undecoded resp err
          | Ok response =>
              logger.Debug "Fetched queries"
                [("count", VInt (Z.of_nat (length (Results_ response))));
                 ("total", VInt (Count response))] ;;;
              let allQueries := (allQueries ++ Results_ response)%list in
              if (Count response <=? Z.of_nat (length allQueries))%Z
                 || (Z.of_nat (length (Results_ response)) =? 0)%Z
              then
                logger.Info "Retrieved all queries"
                  [("count", VInt (Z.of_nat (length allQueries)))] ;;;
                ret (Returned (Ok allQueries))
              else listPages fuel' c (commands.incr page) pageSize allQueries
          end
      end
  end.

(** [ListQueries]: pages of 100 queries, from the first on. *)
Definition ListQueries (fuel : nat) (c : redash.Client)
  : M W (outcome (result (list redash.Query))) :=
  logger.Debug "Listing queries" [] ;;;
  listPages fuel c 1 100 [].

End WithNet.
End redash_http.

(** ** The commands [get] and [diff query] *)

(** The text of the error [strconv.Atoi] returns for an input it refuses:
    out of range when the input is a sign and digits, a syntax error
    otherwise. *)
Module strconv_errors.

Definition signless (s : string) : string :=
  match s with
  | String "-" r => r
  | String "+" r => r
  | _ => s
  end.

Definition outOfRange (s : string) : bool :=
  match signless s with
  | EmptyString => false
  | body => match strconv.digits body 0 with Some _ => true | None => false end
  end.

Definition AtoiError `{!Quoting} (s : string) : error :=
  "strconv.Atoi: parsing " +:+ strconv_Quote s +:+ ": "
  +:+ (if outOfRange s then "value out of range" else "invalid syntax").

End strconv_errors.

Module cmd_get.
Section WithNet.
Context {W : Type} `{!OS W} `{!HTTP W} `{!JSON} `{!Quoting}.

(** [getCmd], with the profile flag: [arg] is the one argument. *)
Definition getCmd (profile arg : string) : M W (outcome (option error)) :=
  logger.Info "Starting get command"
    [("queryID", VStr arg); ("profile", VStr profile)] ;;;
  match strconv.Atoi arg with
  | None =>
      logger.Error "Invalid query ID"
        [("input", VStr arg); ("error", VStr (strconv_errors.AtoiError arg))] ;;;
      ret (Returned (Some (strconv_errors.AtoiError arg)))
  | Some queryID =>
      logger.Debug "Parsed query ID" [("id", VInt queryID)] ;;;
      client <- redash.NewClientWithProfile profile ;;
      match client with
      | Err err =>
          logger.Error "Failed to initialize Redash client" [("error", VStr err)] ;;;
          ret (Returned (Some ("failed to initialize Redash client: " +:+ err)))
      | Ok client =>
          logger.Debug "Fetching query from Redash" [("id", VInt queryID)] ;;;
          got <- redash_http.GetQuery client queryID ;;
          match got with
          | Panicked => ret Panicked
          | OutOfFuel => ret OutOfFuel
          | Returned (Err err) =>
              logger.Error "Failed to get query"
                [("id", VInt queryID); ("error", VStr err)] ;;;
              redash_errors.PrintCommonErrorSuggestions (Some err) ;;;
              ret (Returned (Some err))
          | Returned (Ok query) =>
              logger.Info "Retrieved query from Redash"
                [("id", VInt (redash.ID query)); ("name", VStr (redash.Name query))] ;;;
              sqlDir <- redash.GetProfileSQLDir profile ;;
              match sqlDir with
              | Err err =>
                  logger.Error "Failed to get SQL directory" [("error", VStr err)] ;;;
                  ret (Returned (Some ("failed to get SQL directory: " +:+ err)))
              | Ok sqlDir =>
                  logger.Debug "Using SQL directory" [("dir", VStr sqlDir)] ;;;
                  let filename := gofmt.Sprintd (redash.ID query) +:+ ".sql" in
                  let filePath := filepath_Join [sqlDir; filename] in
                  logger.Debug "File path" [("path", VStr filePath)] ;;;
                  logger.Debug "Writing query to file" [("file", VStr filePath)] ;;;
                  e <- file.WriteFile filePath (redash.QueryText query) ;;
                  match e with
                  | Some err =>
                      logger.Error "Failed to write file"
                        [("file", VStr filePath); ("error", VStr err)] ;;;
                      ret (Returned (Some ("failed to write file: " +:+ err)))
                  | None =>
                      logger.Info "Query saved to file" [("file", VStr filePath)] ;;;
                      fmt.Print ("Query " +:+ gofmt.Sprintd (redash.ID query) +:+ " ("
                                 +:+ redash.Name query +:+ ") saved to " +:+ filePath
                                 +:+ String bufio.newline "") ;;;
                      ret (Returned None)
                  end
              end
          end
      end
  end.

End WithNet.
End cmd_get.

Module cmd_diff.
Section WithNet.
Context {W : Type} `{!OS W} `{!DiffMatchPatch} `{!HTTP W} `{!JSON} `{!Quoting}.

(** [jsonOutput, _ := json.MarshalIndent(result, ...);
    fmt.Println(string(jsonOutput))]. *)
Definition printResult (result : diff.Result) : M W unit :=
  gofmt.Println (json_MarshalIndent_Result result).

(** [diffQueryCmd]: [arg] is the one argument. *)
Definition diffQueryCmd (profile arg : string) : M W (outcome (option error)) :=
  logger.Info "Starting diff query command"
    [("queryID", VStr arg); ("profile", VStr profile)] ;;;
  match strconv.Atoi arg with
  | None =>
      logger.Error "Invalid query ID"
        [("input", VStr arg); ("error", VStr (strconv_errors.AtoiError arg))] ;;;
      ret (Returned (Some ("invalid query ID: " +:+ arg)))
  | Some queryID =>
      logger.Debug "Parsed query ID" [("id", VInt queryID)] ;;;
      client <- redash.NewClientWithProfile profile ;;
      match client with
      | Err err =>
          logger.Error "Failed to initialize Redash client" [("error", VStr err)] ;;;
          ret (Returned (Some ("failed to initialize Redash client: " +:+ err)))
      | Ok client =>
          sqlDir <- redash.GetProfileSQLDir profile ;;
          match sqlDir with
          | Err err =>
              logger.Error "Failed to get SQL directory" [("error", VStr err)] ;;;
              ret (Returned (Some ("failed to get SQL directory: " +:+ err)))
          | Ok sqlDir =>
              logger.Debug "Using SQL directory" [("dir", VStr sqlDir)] ;;;
              let filename := gofmt.Sprintd queryID +:+ ".sql" in
              let localPath := filepath_Join [sqlDir; filename] in
              let result := {| diff.QueryID := queryID; diff.QueryName := "";
                               diff.Status := ""; diff.ErrorMessage := "";
                               diff.LocalPath := localPath;
                               diff.Differences := "" |} in
              w <- gets world ;;
              if negb (file.Exists w localPath) then
                logger.Error "Local SQL file does not exist" [("file", VStr localPath)] ;;;
                printResult
                  (diff.setErrorMessage (diff.setStatus result "ERROR")
                     ("local SQL file does not exist: " +:+ localPath)) ;;;
                ret (Returned None)
              else
                logger.Debug "Fetching query from Redash" [("id", VInt queryID)] ;;;
                got <- redash_http.GetQuery client queryID ;;
                match got with
                | Panicked => ret Panicked
                | OutOfFuel => ret OutOfFuel
                | Returned (Err err) =>
                    logger.Error "Failed to get query from Redash"
                      [("id", VInt queryID); ("error", VStr err)] ;;;
                    diff_errors.HandleCommonAPIErrors (Some err) ;;;
                    printResult
                      (diff.setErrorMessage (diff.setStatus result "ERROR")
                         ("failed to get query from Redash: " +:+ err)) ;;;
                    ret (Returned None)
                | Returned (Ok redashQuery) =>
                    logger.Info "Retrieved query from Redash"
                      [("id", VInt queryID); ("name", VStr (redash.Name redashQuery))] ;;;
                    w <- gets world ;;
                    let '(result, err) :=
                      diff.CompareQueryWithLocal w queryID (Some redashQuery) localPath in
                    result <-
                      match err with
                      | Some e =>
                          logger.Error "Error comparing query"
                            [("id", VInt queryID); ("error", VStr e)] ;;;
                          ret (diff.setErrorMessage (diff.setStatus result "ERROR") e)
                      | None => ret result
                      end ;;
                    printResult result ;;;
                    ret (Returned None)
                end
          end
      end
  end.

End WithNet.
End cmd_diff.

(** ** The commands [diff all], whole, and [dump] *)

(** [os.ReadDir]: the entries of a directory, sorted by name. *)
Class ReadDir (W : Type) : Type := {
  os_ReadDir : W -> string -> result (list DirEntry)
}.

(** [json.MarshalIndent] of a summary and of a list of queries. *)
Class Marshal : Type := {
  json_MarshalIndent_Summary : diff.Summary -> result string;
  json_MarshalIndent_Queries : list redash.Query -> result string
}.

(** [time.Now().Format("20060102150405")]. *)
Class Clock (W : Type) : Type := { time_Now_stamp : W -> string }.

(** The functions kept for backward compatibility. *)
Module redash_compat.
Section WithOS.
Context {W : Type} `{!OS W}.

Definition NewClient : M W (result redash.Client) := redash.NewClientWithProfile "".

End WithOS.
End redash_compat.

Module cmd_diff_all.
Section WithNet.
Context {W : Type} `{!OS W} `{!DiffMatchPatch} `{!HTTP W} `{!JSON} `{!ReadDir W}
  `{!Marshal}.

(** [diffAllCmd]; [fuel] bounds the pages of the listing. *)
Definition diffAllCmd (fuel : nat) (profile : string) : M W (outcome (option error)) :=
  logger.Info "Starting diff all command" [("profile", VStr profile)] ;;;
  client <- redash.NewClientWithProfile profile ;;
  match client with
  | Err err =>
      logger.Error "Failed to initialize Redash client" [("error", VStr err)] ;;;
      ret (Returned (Some ("failed to initialize Redash client: " +:+ err)))
  | Ok client =>
      sqlDir <- redash.GetProfileSQLDir profile ;;
      match sqlDir with
      | Err err =>
          logger.Error "Failed to get SQL directory" [("error", VStr err)] ;;;
          ret (Returned (Some ("failed to get SQL directory: " +:+ err)))
      | Ok sqlDir =>
          logger.Debug "Using SQL directory" [("dir", VStr sqlDir)] ;;;
          w <- gets world ;;
          if negb (file.Exists w sqlDir) || negb (file.IsDirectory w sqlDir) then
            logger.Error "SQL directory does not exist" [("dir", VStr sqlDir)] ;;;
            ret (Returned (Some ("SQL directory does not exist: " +:+ sqlDir)))
          else
            logger.Debug "Fetching queries from Redash" [] ;;;
            listed <- redash_http.ListQueries fuel client ;;
            match listed with
            | Panicked => ret Panicked
            | OutOfFuel => ret OutOfFuel
            | Returned (Err err) =>
                logger.Error "Failed to list queries" [("error", VStr err)] ;;;
                diff_errors.HandleCommonAPIErrors (Some err) ;;;
                ret (Returned (Some err))
            | Returned (Ok queries) =>
                logger.Info "Retrieved queries from Redash"
                  [("count", VInt (Z.of_nat (length queries)))] ;;;
                let queryMap := commands.buildQueryMap queries in
                cur <- gets CurrentProfile ;;
                let summary := {| diff.Profile := cur; diff.SQLDirectory := sqlDir;
                                  diff.Matches := 0; diff.Differences_ := 0;
                                  diff.MissingInRedash := 0; diff.Results := [] |} in
                w <- gets world ;;
                match os_ReadDir w sqlDir with
                | Err err =>
                    logger.Error "Failed to read directory"
                      [("dir", VStr sqlDir); ("error", VStr err)] ;;;
                    ret (Returned (Some ("failed to read directory " +:+ sqlDir
                                         +:+ ": " +:+ err)))
                | Ok entries =>
                    summary <-
                      forEach (commands.diffAllEntry sqlDir queryMap) entries summary ;;
                    match json_MarshalIndent_Summary summary with
                    | Err err =>
                        logger.Error "Failed to marshal results to JSON"
                          [("error", VStr err)] ;;;
                        ret (Returned (Some ("failed to marshal results to JSON: "
                                             +:+ err)))
                    | Ok jsonOutput =>
                        gofmt.Println jsonOutput ;;;
                        ret (Returned None)
                    end
                end
            end
      end
  end.

End WithNet.
End cmd_diff_all.

Module cmd_dump.
Section WithNet.
Context {W : Type} `{!OS W} `{!HTTP W} `{!JSON} `{!Marshal} `{!Clock W}.

(** The body of the loop over the queries; [Some] is the error the loop
    has returned with, after which nothing more is done. *)
Definition dumpQuery (sqlDir : string) (q : redash.Query) (returned : option error)
  : M W (option error) :=
  match returned with
  | Some err => ret (Some err)
  | None =>
      let filename := gofmt.Sprintd (redash.ID q) +:+ ".sql" in
      let filePath := filepath_Join [sqlDir; filename] in
      logger.Debug "Writing query to file"
        [("id", VInt (redash.ID q)); ("name", VStr (redash.Name q));
         ("file", VStr filePath)] ;;;
      w <- gets world ;;
      let '(w', e) := os_WriteFile w filePath (redash.QueryText q) in
      setWorld w' ;;;
      match e with
      | Some err =>
          logger.Error "Failed to write query to file"
            [("id", VInt (redash.ID q)); ("file", VStr filePath);
             ("error", VStr err)] ;;;
          ret (Some err)
      | None => ret None
      end
  end.

(** [dumpCmd]; [fuel] bounds the pages of the listing. *)
Definition dumpCmd (fuel : nat) : M W (outcome (option error)) :=
  logger.Info "Starting dump command" [] ;;;
  client <- redash_compat.NewClient ;;
  match client with
  | Err err =>
      logger.Error "Failed to initialize Redash client" [("error", VStr err)] ;;;
      ret (Returned (Some ("failed to initialize Redash client: " +:+ err)))
  | Ok client =>
      logger.Debug "Fetching queries from Redash" [] ;;;
      listed <- redash_http.ListQueries fuel client ;;
      match listed with
      | Panicked => ret Panicked
      | OutOfFuel => ret OutOfFuel
      | Returned (Err err) =>
          logger.Error "Failed to list queries" [("error", VStr err)] ;;;
          ret (Returned (Some err))
      | Returned (Ok queries) =>
          logger.Info "Retrieved queries from Redash"
            [("count", VInt (Z.of_nat (length queries)))] ;;;
          sqlDir <- redash.GetSQLDir ;;
          match sqlDir with
          | Err err =>
              logger.Error "Failed to get SQL directory" [("error", VStr err)] ;;;
              ret (Returned (Some ("failed to get SQL directory: " +:+ err)))
          | Ok sqlDir =>
              logger.Debug "Using SQL directory" [("dir", VStr sqlDir)] ;;;
              w <- gets world ;;
              let '(w', e) := os_MkdirAll w sqlDir in
              setWorld w' ;;;
              match e with
              | Some err =>
                  logger.Error "Failed to create directory"
                    [("dir", VStr sqlDir); ("error", VStr err)] ;;;
                  ret (Returned (Some ("failed to create directory " +:+ sqlDir
                                       +:+ ": " +:+ err)))
              | None =>
                  w <- gets world ;;
                  let timestamp := time_Now_stamp w in
                  let jsonFilename := timestamp +:+ ".json" in
                  let jsonFilePath := filepath_Join [sqlDir; jsonFilename] in
                  logger.Debug "Creating JSON file with all queries"
                    [("file", VStr jsonFilePath)] ;;;
                  match json_MarshalIndent_Queries queries with
                  | Err err =>
                      logger.Error "Failed to marshal queries to JSON"
                        [("error", VStr err)] ;;;
                      ret (Returned (Some ("failed to marshal queries to JSON: "
                                           +:+ err)))
                  | Ok jsonOutput =>
                      w <- gets world ;;
                      let '(w', e) := os_WriteFile w jsonFilePath jsonOutput in
                      setWorld w' ;;;
                      match e with
                      | Some err =>
                          logger.Error "Failed to write JSON file"
                            [("file", VStr jsonFilePath); ("error", VStr err)] ;;;
                          ret (Returned (Some ("failed to write JSON file "
                                               +:+ jsonFilePath +:+ ": " +:+ err)))
                      | None =>
                          logger.Info "Queries saved to JSON file"
                            [("file", VStr jsonFilePath)] ;;;
                          logger.Info "Dumping queries to SQL files"
                            [("count", VInt (Z.of_nat (length queries)));
                             ("dir", VStr sqlDir)] ;;;
                          e <- forEach (dumpQuery sqlDir) queries None ;;
                          match e with
                          | Some err => ret (Returned (Some err))
                          | None =>
                              logger.Info "All queries dumped successfully"
                                [("dir", VStr sqlDir)] ;;;
                              fmt.Print ("All queries dumped to " +:+ sqlDir
                                         +:+ String bufio.newline "JSON list saved as "
                                         +:+ jsonFilename +:+ String bufio.newline "") ;;;
                              ret (Returned None)
                          end
                      end
                  end
              end
          end
      end
  end.

End WithNet.
End cmd_dump.
(** * More vocabulary *)

(** The name the commands give the file of a query: its ID and [.sql]. *)
Definition queryFileName (id : Z) : string := gofmt.Sprintd id +:+ ".sql".

(** What [file.WriteFile] does to the world and the error it returns. *)
Definition writeWorld {W : Type} `{!OS W} (w : W) (path data : string)
  : W * option error :=
  let out := file.WriteFile path data
               {| world := w; logs := []; stdout := []; CurrentProfile := "";
                  LoggerLevel := LevelWarn |} in
  (world (snd out), fst out).

(** The path of the config file of a user. *)
Definition userConfigPath {W : Type} `{!OS W} (homeDir : string) : string :=
  filepath_Join [homeDir; ".redrip"; "config.conf"].

(** The profiles of a new config file: the one empty profile [default]. *)
Definition emptyDefault : gmap string redash.ProfileConfig :=
  <["default" := redash.zeroProfile]> ∅.

(** The error of a first run, whatever the profile asked for. *)
Definition firstRunError : error :=
  "cannot create Redash client for profile 'default': required configuration values not found: redash_url, api_key".

(** A world with a home directory and no config file yet. *)
Definition worldFresh : MemOS.World :=
  {| MemOS.files := <["/home/u" := MemOS.Dir]> ∅;
     MemOS.env := <["REDRIP_PROFILE" := "stg"]> ∅;
     MemOS.home := Ok "/home/u" |}.

(** A state with another world. *)
Definition withWorld {W : Type} (s : State W) (w : W) : State W :=
  {| world := w; logs := logs s; stdout := stdout s;
     CurrentProfile := CurrentProfile s; LoggerLevel := LoggerLevel s |}.

(** The output of [s'] is the output of [s] with more at its end. *)
Definition moreOutput {W : Type} (s s' : State W) : Prop :=
  exists rest, stdout s' = stdout s ++ rest.

(** The state [s'] has the world of [s] and at most more output. *)
Definition sameWorld {W : Type} (s s' : State W) : Prop :=
  world s' = world s /\ moreOutput s s'.

(** Between the states [s] and [s'], the lines have been written to the
    output one after the other, with nothing between them; more may have
    been written before them and after them. *)
Definition printed {W : Type} (s s' : State W) (lines : list string) : Prop :=
  exists before after, stdout s' = stdout s ++ before ++ lines ++ after.

(** A computation that takes nothing back from the output. *)
Definition appends {W A : Type} (m : M W A) : Prop :=
  forall s : State W, moreOutput s (snd (m s)).

(** The cases of the computation in the goal. *)
Ltac by_cases :=
  match goal with
  | |- _ (match ?x with _ => _ end) => destruct x
  end.

(** The output of a state built from [s] by steps that add to it. *)
Ltac more_output :=
  unfold moreOutput;
  cbn [world stdout fst snd logger.emit logger.Debug logger.Info logger.Warn
       logger.Error fmt.Print ret bind gets setWorld setCurrentProfile];
  repeat apply prefix_app_r; exists []; rewrite app_nil_r; reflexivity.

(** The same, with the world of [s]. *)
Ltac same_world := split; [reflexivity | more_output].

(** The same, with the current profile of [s]. *)
Ltac quiet_step := split; [more_output | reflexivity].

(** What [EnsureConfigFile] prints when it has created the file. *)
Definition createdMessage (configPath : string) : string :=
  "Created default config file at " +:+ configPath
  +:+ String bufio.newline "Please edit it to set your Redash URL and API Key"
  +:+ String bufio.newline "".

(** The state in which [NewClientWithProfile] loads the configuration. *)
Definition clientStart {W : Type} `{!OS W} (profileName : string) (s : State W) : State W :=
  snd (logger.Debug "Creating new Redash client" [("profile", VStr profileName)] s).

(** The state in which [GetProfileSQLDir] loads the configuration. *)
Definition directoryStart {W : Type} `{!OS W} (profileName : string) (s : State W) : State W :=
  snd (logger.Debug "Getting SQL directory from config"
         [("profile", VStr profileName)] s).

(** The error [NewClientWithProfile] makes of an error of [LoadConfig]. *)
Definition loadFailure (err : error) : error :=
  if Contains err "required configuration values not found"
  then "cannot create Redash client: " +:+ err
  else "failed to load configuration: " +:+ err.

(** The error [NewClientWithProfile] makes of an error of the validation. *)
Definition validationFailure (cur : string) (err : error) : error :=
  "cannot create Redash client for profile '" +:+ cur +:+ "': " +:+ err.

(** The client of a profile. *)
Definition clientOf (cur : string) (pc : redash.ProfileConfig) : redash.Client :=
  {| redash.baseURL := redash.RedashURL pc; redash.apiKey := redash.APIKey pc;
     redash.profile := cur |}.

(** What a config helper may do to the state [s] it starts in: leave the
    world as it is, or, when the config file of the user does not exist,
    write the default content to it and say so; it takes nothing back from
    the output. *)
Definition createsConfigAtMost {W : Type} `{!OS W} (s s' : State W) : Prop :=
  sameWorld s s'
  \/ exists homeDir,
       os_UserHomeDir (world s) = Ok homeDir
       /\ file.Exists (world s) (userConfigPath homeDir) = false
       /\ let written :=
            writeWorld (world s) (userConfigPath homeDir) redash.DefaultConfigContent in
          world s' = fst written
          /\ moreOutput s s'
          /\ (snd written = None ->
              printed s s' [createdMessage (userConfigPath homeDir)]).

(** The client of the profile [default] of the config file [sqlFile]. *)
Definition clientSql : redash.Client :=
  {| redash.baseURL := "https://x/api"; redash.apiKey := "K";
     redash.profile := "default" |}.

(** ** The API key *)

(** The record [LoadConfig] logs for a setting it has read. *)
Definition configLoaded (cur key shown : string) : LogRecord :=
  {| logLevel := LevelDebug; logMsg := "Config loaded";
     logArgs := [("profile", VStr cur); ("key", VStr key); ("value", VStr shown)] |}.

(** The records the loop of [LoadConfig] logs for a line of the section
    [cur]. *)
Definition lineRecords (line cur : string) : list LogRecord :=
  match lineKind line with
  | InvalidHeader => [invalidHeaderWarning line]
  | Setting key value =>
      if String.eqb key "redash_url" then [configLoaded cur "redash_url" value]
      else if String.eqb key "api_key" then [configLoaded cur "api_key" "[REDACTED]"]
      else if String.eqb key "sql_dir" then [configLoaded cur "sql_dir" value]
      else []
  | _ => []
  end.

(** Two lines that are the same, or that both set the API key. *)
Definition sameButKey (l1 l2 : string) : Prop :=
  l1 = l2
  \/ exists v1 v2, lineKind l1 = Setting "api_key" v1
                   /\ lineKind l2 = Setting "api_key" v2.

(** Two profiles that differ at most in the value of an API key that both
    have or both lack. *)
Definition sameButKeyValue (a b : redash.ProfileConfig) : Prop :=
  redash.RedashURL a = redash.RedashURL b
  /\ redash.SQLDir a = redash.SQLDir b
  /\ (redash.APIKey a = "" <-> redash.APIKey b = "").

(** Two config files of the same lines but for the API keys. *)
Definition keyLines1 : list string :=
  ["[default]"; "redash_url = https://x/api"; "api_key = first-secret"; "[bad]"].
Definition keyLines2 : list string :=
  ["[default]"; "redash_url = https://x/api"; "api_key=other"; "[bad]"].

(** ** The SQL directory as [config list] shows it *)

(** The text [showProfileConfig] prints for the SQL directory of a profile. *)
Definition shownDirectory {W : Type} `{!OS W} (w : W) (pc : redash.ProfileConfig)
  : string :=
  if String.eqb (redash.SQLDir pc) "" then "[NOT SET - using current directory]"
  else if negb (file.Exists w (redash.SQLDir pc))
       then redash.SQLDir pc
            +:+ " [DIRECTORY DOES NOT EXIST - will use current directory]"
       else redash.SQLDir pc.

(** A world where the SQL directory of the profile is a regular file. *)
Definition worldFileDir : MemOS.World :=
  MemOS.withFiles MemOS.world0 (<["/sql" := MemOS.File "not a directory"]> ∅).

Definition profileFileDir : redash.ProfileConfig :=
  {| redash.RedashURL := "https://x/api"; redash.APIKey := "K";
     redash.SQLDir := "/sql" |}.

(** ** The command [config list] *)

(** A computation that leaves the world as it is and only adds to the
    output. *)
Definition printsOnly {W A : Type} (m : M W A) : Prop :=
  forall s : State W,
    world (snd (m s)) = world s
    /\ exists rest, stdout (snd (m s)) = stdout s ++ rest.

(** The first line [config list] prints for an existing config file. *)
Definition configurationLine (configPath : string) : string :=
  "Configuration file: " +:+ configPath
  +:+ String bufio.newline (String bufio.newline "").

(** What [config list] prints on a first run, after the message of
    [EnsureConfigFile]. *)
Definition firstListBefore : string :=
  "Config file does not exist. Creating default config file..."
  +:+ String bufio.newline "".

Definition firstListAfter (configPath : string) : list string :=
  ["Default config file created at " +:+ configPath +:+ String bufio.newline "";
   "Please edit it to set your Redash URL and API Key" +:+ String bufio.newline ""].

(** A world whose environment asks for the profile [old] of [sqlFile]. *)
Definition worldSqlOld : MemOS.World :=
  {| MemOS.files := MemOS.files worldSql;
     MemOS.env := <["REDRIP_PROFILE" := "old"]> ∅;
     MemOS.home := Ok "/home/u" |}.

(** ** A server of queries *)

(** The page [p] (from 1) of a listing, 100 queries a page. *)
Definition pageOf (all : list redash.Query) (p : nat) : list redash.Query :=
  take 100 (skipn ((p - 1) * 100) all).

(** The server answers the request of the client [c] for each page that
    holds a query of [all], and for the first page in any case, with a body
    that decodes to the page and to the total count. *)
Definition servesPages {W : Type} `{!HTTP W} `{!JSON} (c : redash.Client)
    (all : list redash.Query) : Prop :=
  forall p : nat,
    (1 <= p)%nat -> ((p - 1) * 100 < Nat.max 1 (length all))%nat ->
    http_NewRequest (redash_http.pageURL c (Z.of_nat p) 100) = true
    /\ forall w : W, exists (w' : W) (resp : Response) (response : queryListResponse),
         http_Do w (redash_http.pageURL c (Z.of_nat p) 100)
           (redash_http.authorization c) = (w', Ok resp)
         /\ StatusCode resp = 200%Z
         /\ ReadErr resp = None
         /\ json_Unmarshal_List (Body resp) = Ok response
         /\ Results_ response = pageOf all p
         /\ Count response = Z.of_nat (length all).

(** A small network: a server of 101 queries behind the key [K], which
    answers an unknown key with a page of HTML. *)
Module MemNet.

Definition base : string := "https://x/api".

Definition bulk : list redash.Query :=
  map (fun i => {| redash.ID := Z.of_nat i; redash.Name := "q";
                   redash.QueryText := "SELECT 1" |}) (seq 1 101).

Definition ok (body : string) : result Response :=
  Ok {| StatusCode := 200; Body := body; ReadErr := None; Spare := "" |}.

Definition route (url auth : string) : result Response :=
  if negb (String.eqb auth "Key K") then ok "<html>login</html>"
  else if String.eqb url (base +:+ "/queries?page=1&page_size=100") then ok "page 1"
  else if String.eqb url (base +:+ "/queries?page=2&page_size=100") then ok "page 2"
  else if String.eqb url (base +:+ "/queries/5") then ok "query 5"
  else if String.eqb url (base +:+ "/queries/7") then
    Ok {| StatusCode := 404; Body := "not found"; ReadErr := None; Spare := "" |}
  else Err "dial tcp: connection refused".

Definition quote : string := String (ascii_of_N 34) "".

#[global] Instance memHTTP : HTTP MemOS.World := {|
  http_NewRequest url := negb (Contains url " ");
  http_Do w url auth := (w, route url auth)
|}.

#[global] Instance memJSON : JSON := {|
  json_Unmarshal_Query body :=
    if String.eqb body "query 5" then Ok query5
    else Err "invalid character";
  json_Unmarshal_List body :=
    if String.eqb body "page 1"
    then Ok {| Results_ := take 100 bulk; Page := 1; PageSize := 100; Count := 101 |}
    else if String.eqb body "page 2"
    then Ok {| Results_ := skipn 100 bulk; Page := 2; PageSize := 100; Count := 101 |}
    else Err "invalid character";
  json_MarshalIndent_Result r :=
    gofmt.Sprintd (diff.QueryID r) +:+ " " +:+ diff.Status r +:+ " "
    +:+ diff.ErrorMessage r
|}.

#[global] Instance memQuoting : Quoting :=
  {| strconv_Quote s := quote +:+ s +:+ quote |}.

End MemNet.

(** The call has ended: it has returned or panicked. *)
Definition ended {A : Type} (o : outcome A) : bool :=
  match o with
  | OutOfFuel => false
  | _ => true
  end.

(** No listing the server sends reports more than [K] queries. *)
Definition countsAtMost {W : Type} `{!HTTP W} `{!JSON} (K : Z) : Prop :=
  forall (w w' : W) (url auth : string) (resp : Response)
         (response : queryListResponse),
    http_Do w url auth = (w', Ok resp) ->
    json_Unmarshal_List (Body resp) = Ok response ->
    (Count response <= K)%Z.

(** ** The commands [get] and [diff query] *)

(** A file that has been written is a regular file that reads back as
    written. *)
Definition readsBackWrites {W : Type} `{!OS W} : Prop :=
  forall (w w' : W) (path data : string),
    writeWorld w path data = (w', None) ->
    os_Stat w' path = StatOk false /\ os_ReadFile w' path = Ok data.

(** What [get] prints when it has saved a query. *)
Definition savedMessage (q : redash.Query) (filePath : string) : string :=
  "Query " +:+ gofmt.Sprintd (redash.ID q) +:+ " (" +:+ redash.Name q
  +:+ ") saved to " +:+ filePath +:+ String bufio.newline "".

(** The result of a comparison that finds no difference. *)
Definition matchResult (q : redash.Query) (localPath : string) : diff.Result :=
  {| diff.QueryID := redash.ID q; diff.QueryName := redash.Name q;
     diff.Status := "MATCH"; diff.ErrorMessage := "";
     diff.LocalPath := localPath; diff.Differences := "" |}.

(** What [PrintCommonErrorSuggestions] prints for an error it recognises. *)
Definition suggestions (err : error) : list string :=
  ["エラー: " +:+ err +:+ String bufio.newline (String bufio.newline "");
   "考えられる解決策:" +:+ String bufio.newline "";
   "1. APIキーが正しいか確認してください。" +:+ String bufio.newline "";
   "2. RedashのURLが正しいか確認してください（末尾にスラッシュがあるか、APIパスが含まれていないか）。"
   +:+ String bufio.newline "";
   "3. RedashのURLにアクセス可能か確認してください。" +:+ String bufio.newline "";
   "4. 設定ファイル（~/.redrip/config.conf）の内容を確認してください。"
   +:+ String bufio.newline ""].

(** The result [diff query] prints for a local file that does not exist. *)
Definition missingFileResult (id : Z) (localPath : string) : diff.Result :=
  {| diff.QueryID := id; diff.QueryName := ""; diff.Status := "ERROR";
     diff.ErrorMessage := "local SQL file does not exist: " +:+ localPath;
     diff.LocalPath := localPath; diff.Differences := "" |}.

(** A network that answers nothing. *)
Definition deadNet : HTTP MemOS.World :=
  {| http_NewRequest _ := false; http_Do w _ _ := (w, Err "no network") |}.

(** A world whose config file holds a key the server does not know. *)
Definition badKeyFile : string :=
  "[default]
redash_url = https://x/api
api_key = wrong
".

Definition worldBadKey : MemOS.World :=
  MemOS.withFiles MemOS.world0
    (<["/home/u/.redrip/config.conf" := MemOS.File badKeyFile]> ∅).

Definition clientBadKey : redash.Client :=
  {| redash.baseURL := "https://x/api"; redash.apiKey := "wrong";
     redash.profile := "default" |}.

(** Another client of the same server, with another key it does not know. *)
Definition clientOtherKey : redash.Client :=
  {| redash.baseURL := "https://x/api"; redash.apiKey := "other";
     redash.profile := "default" |}.

(** ** The command [dump] *)

(** [os.WriteFile] makes the path a regular file of the data written and
    leaves the other paths as they are. *)
Definition keepsOtherFiles {W : Type} `{!OS W} : Prop :=
  forall (w w' : W) (path data : string),
    os_WriteFile w path data = (w', None) ->
    os_Stat w' path = StatOk false
    /\ os_ReadFile w' path = Ok data
    /\ forall other : string,
         other <> path ->
         os_Stat w' other = os_Stat w other
         /\ os_ReadFile w' other = os_ReadFile w other.

(** In a directory, the files of two IDs have one path only when they have
    one name. *)
Definition namesApart {W : Type} `{!OS W} : Prop :=
  forall (sqlDir : string) (i j : Z),
    filepath_Join [sqlDir; queryFileName i] = filepath_Join [sqlDir; queryFileName j] ->
    queryFileName i = queryFileName j.

(** The ID of a query is a 64-bit [int]. *)
Definition inRange (q : redash.Query) : Prop :=
  (strconv.minInt <= redash.ID q <= strconv.maxInt)%Z.

(** The files of the queries hold the text of the query of their ID. *)
Definition filesHold {W : Type} `{!OS W} (w : W) (sqlDir : string)
    (queryMap : gmap Z redash.Query) : Prop :=
  forall (id : Z) (q : redash.Query),
    queryMap !! id = Some q ->
    os_Stat w (filepath_Join [sqlDir; queryFileName id]) = StatOk false
    /\ os_ReadFile w (filepath_Join [sqlDir; queryFileName id])
       = Ok (redash.QueryText q).

(** The rest of the small network: the time and the marshalling. *)
Module MemDump.

#[global] Instance memMarshal : Marshal := {|
  json_MarshalIndent_Summary sm := Ok (diff.Profile sm +:+ " " +:+ diff.SQLDirectory sm);
  json_MarshalIndent_Queries qs := Ok (gofmt.Sprintd (Z.of_nat (length qs)) +:+ " queries")
|}.

#[global] Instance memClock : Clock MemOS.World :=
  {| time_Now_stamp _ := "20250102030405" |}.

#[global] Instance memReadDir : ReadDir MemOS.World := {|
  os_ReadDir w path :=
    if String.eqb path "/sql" then Ok [entry "5.sql"] else Err "not a directory"
|}.

End MemDump.

(** ** The command [diff all] *)

(** A computation that leaves the current profile as it is and takes
    nothing back from the output. *)
Definition quiet {W A : Type} (m : M W A) : Prop :=
  forall s : State W,
    moreOutput s (snd (m s)) /\ CurrentProfile (snd (m s)) = CurrentProfile s.

(** The server has sent the query [q] to the client [c]: in some world it
    has answered the request of a page with the status 200 and a body that
    decodes to a listing that holds [q]. *)
Definition sentByServer {W : Type} `{!HTTP W} `{!JSON} (c : redash.Client)
    (q : redash.Query) : Prop :=
  exists (w w' : W) (page : Z) (resp : Response) (response : queryListResponse),
    http_Do w (redash_http.pageURL c page 100) (redash_http.authorization c)
    = (w', Ok resp)
    /\ StatusCode resp = 200%Z
    /\ ReadErr resp = None
    /\ json_Unmarshal_List (Body resp) = Ok response
    /\ In q (Results_ response).
(** * Properties *)

(** ** White space and [TrimSpace] *)

Section TrimFacts.

Lemma space2_not_space1 c d : isSpace2 c d = true -> isSpace1 c = false.
Proof. intros. bool_false. Qed.

Lemma space3_not_space1 c d e : isSpace3 c d e = true -> isSpace1 c = false.
Proof. intros. bool_false. Qed.

Lemma space3_not_space2 c d e : isSpace3 c d e = true -> isSpace2 c d = false.
Proof. intros. bool_false. Qed.

Lemma space2_snd_not_space1 c d : isSpace2 c d = true -> isSpace1 d = false.
Proof. intros. bool_false. Qed.

Lemma space3_trd_not_space1 c d e : isSpace3 c d e = true -> isSpace1 e = false.
Proof. intros. bool_false. Qed.

Lemma space3_not_space2_tail c d e : isSpace3 c d e = true -> isSpace2 d e = false.
Proof. intros. bool_false. Qed.

Lemma start_not_space2 c d : startsSpace d = true -> isSpace2 c d = false.
Proof. intros. bool_false. Qed.

Lemma start_not_space3_mid c d e : startsSpace d = true -> isSpace3 c d e = false.
Proof. intros. bool_false. Qed.

Lemma start_not_space3_last c d e : startsSpace e = true -> isSpace3 c d e = false.
Proof. intros. bool_false. Qed.

Lemma onlySpaces_start d b : onlySpaces (d :: b) = true -> startsSpace d = true.
Proof.
  simpl. unfold startsSpace. destruct (isSpace1 d) eqn:E1; [reflexivity|].
  destruct b as [|e b]; [discriminate|].
  destruct (isSpace2 d e) eqn:E2.
  - intros _. unfold isSpace2 in E2.
    apply andb_true_iff in E2. destruct E2 as [E2 _]. rewrite E2. reflexivity.
  - destruct b as [|f b]; [discriminate|]. intros H.
    apply andb_true_iff in H. destruct H as [E3 _].
    unfold isSpace3 in E3. simpl.
    destruct (code d =? 194)%N; [reflexivity|].
    destruct (code d =? 225)%N; [reflexivity|].
    destruct (code d =? 226)%N; [reflexivity|].
    destruct (code d =? 227)%N; [reflexivity|]. discriminate.
Qed.

(** Leading white space does not change what [trimLeft] gives. *)
Lemma trimLeft_app_spaces n :
  forall a s, length a <= n -> onlySpaces a = true -> trimLeft (a ++ s) = trimLeft s.
Proof.
  induction n as [|n IH]; intros a s Hlen Ha.
  - destruct a; [reflexivity | simpl in Hlen; lia].
  - destruct a as [|c r]; [reflexivity|]. simpl in Ha, Hlen.
    change ((c :: r) ++ s) with (c :: (r ++ s)). cbn [trimLeft].
    destruct (isSpace1 c) eqn:E1.
    + apply IH; [lia | assumption].
    + destruct r as [|d r2]; [discriminate|]. simpl in Hlen.
      change ((d :: r2) ++ s) with (d :: (r2 ++ s)). cbn iota.
      destruct (isSpace2 c d) eqn:E2.
      * apply IH; [lia | assumption].
      * destruct r2 as [|e r3]; [discriminate|]. simpl in Hlen.
        change ((e :: r3) ++ s) with (e :: (r3 ++ s)). cbn iota.
        apply andb_true_iff in Ha. destruct Ha as [E3 Ha].
        rewrite E3. apply IH; [lia | assumption].
Qed.

Lemma trimLeft_spaces a : onlySpaces a = true -> trimLeft a = [].
Proof.
  intros Ha. rewrite <- (app_nil_r a).
  apply (trimLeft_app_spaces (length a)); [lia | assumption].
Qed.

(** Trailing white space is found by [trimLeftRev] on the reversed bytes. *)
Lemma trimLeftRev_app_spaces n :
  forall b t, length b <= n -> onlySpaces b = true ->
              trimLeftRev (rev b ++ t) = trimLeftRev t.
Proof.
  induction n as [|n IH]; intros b t Hlen Hb.
  - destruct b; [reflexivity | simpl in Hlen; lia].
  - destruct b as [|c r]; [reflexivity|]. simpl in Hb, Hlen.
    destruct (isSpace1 c) eqn:E1.
    + simpl. rewrite <- app_assoc. rewrite IH; [|lia|assumption].
      simpl. rewrite E1. reflexivity.
    + destruct r as [|d r2]; [discriminate|]. simpl in Hlen.
      destruct (isSpace2 c d) eqn:E2.
      * simpl. rewrite <- !app_assoc. rewrite IH; [|lia|assumption].
        simpl. rewrite (space2_snd_not_space1 c d E2), E2. reflexivity.
      * destruct r2 as [|e r3]; [discriminate|]. simpl in Hlen.
        apply andb_true_iff in Hb. destruct Hb as [E3 Hb].
        simpl. rewrite <- !app_assoc. rewrite IH; [|lia|assumption].
        simpl. rewrite (space3_trd_not_space1 c d e E3),
          (space3_not_space2_tail c d e E3), E3. reflexivity.
Qed.

Lemma trimRight_app_spaces t b :
  onlySpaces b = true -> trimRight (t ++ b) = trimRight t.
Proof.
  intros Hb. unfold trimRight. rewrite rev_app_distr.
  rewrite (trimLeftRev_app_spaces (length b)); [reflexivity | lia | assumption].
Qed.

(** Trailing white space stays behind what [trimLeft] keeps. *)
Lemma trimLeft_app_trailing n :
  forall s b, length s <= n -> onlySpaces b = true ->
    trimLeft (s ++ b) = match trimLeft s with [] => [] | _ => trimLeft s ++ b end.
Proof.
  induction n as [|n IH]; intros s b Hlen Hb.
  - destruct s; [|simpl in Hlen; lia]. simpl. apply trimLeft_spaces. assumption.
  - destruct s as [|c r]; [simpl; apply trimLeft_spaces; assumption|].
    simpl in Hlen.
    change ((c :: r) ++ b) with (c :: (r ++ b)). cbn [trimLeft].
    destruct (isSpace1 c) eqn:E1; [apply IH; [lia|assumption]|].
    destruct r as [|d r2].
    + simpl. destruct b as [|d b]; [reflexivity|].
      pose proof (onlySpaces_start d b Hb) as Hd.
      rewrite (start_not_space2 c d Hd).
      destruct b as [|e b]; [reflexivity|].
      rewrite (start_not_space3_mid c d e Hd). reflexivity.
    + simpl in Hlen. change ((d :: r2) ++ b) with (d :: (r2 ++ b)). cbn iota.
      destruct (isSpace2 c d) eqn:E2; [apply IH; [lia|assumption]|].
      destruct r2 as [|e r3].
      * simpl. destruct b as [|e b]; [reflexivity|].
        pose proof (onlySpaces_start e b Hb) as He.
        rewrite (start_not_space3_last c d e He). reflexivity.
      * simpl in Hlen. change ((e :: r3) ++ b) with (e :: (r3 ++ b)). cbn iota.
        destruct (isSpace3 c d e) eqn:E3; [apply IH; [lia|assumption]|].
        reflexivity.
Qed.

Lemma list_ascii_of_string_app (x y : string) :
  list_ascii_of_string (x +:+ y) = list_ascii_of_string x ++ list_ascii_of_string y.
Proof. induction x as [|c x IH]; simpl; [reflexivity | rewrite IH; reflexivity]. Qed.

(** [TrimSpace] does not see white space put before or after a text. *)
Lemma TrimSpace_padding (a s b : string) :
  isWhiteSpace a = true -> isWhiteSpace b = true ->
  TrimSpace (a +:+ s +:+ b) = TrimSpace s.
Proof.
  unfold isWhiteSpace, TrimSpace. intros Ha Hb.
  rewrite !list_ascii_of_string_app.
  set (la := list_ascii_of_string a) in *. set (ls := list_ascii_of_string s).
  set (lb := list_ascii_of_string b) in *.
  rewrite (trimLeft_app_spaces (length la)); [|lia|assumption].
  rewrite (trimLeft_app_trailing (length ls)); [|lia|assumption].
  destruct (trimLeft ls) as [|x t] eqn:E; [reflexivity|].
  rewrite trimRight_app_spaces; [reflexivity | assumption].
Qed.

(** A byte of a plain ASCII character that is no white space stays first
    through [TrimSpace]. *)
Lemma trimLeftRev_keeps_last n :
  forall t c, length t <= n -> (code c < 128)%N -> isSpace1 c = false ->
    exists t', trimLeftRev (t ++ [c]) = t' ++ [c].
Proof.
  induction n as [|n IH]; intros t c Hlen Hc Hs.
  - destruct t; [|simpl in Hlen; lia]. exists []. simpl. rewrite Hs. reflexivity.
  - assert (H2 : forall x, isSpace2 c x = false) by (intros; bool_false).
    assert (H3 : forall x y, isSpace3 c x y = false) by (intros; bool_false).
    destruct t as [|x t1]; [exists []; simpl; rewrite Hs; reflexivity|].
    simpl in Hlen. rewrite <- app_comm_cons. cbn [trimLeftRev].
    destruct (isSpace1 x); [apply IH; [lia|assumption|assumption]|].
    destruct t1 as [|y t2].
    + simpl. rewrite H2. exists [x]. reflexivity.
    + simpl in Hlen. rewrite <- app_comm_cons. cbn iota.
      destruct (isSpace2 y x); [apply IH; [lia|assumption|assumption]|].
      destruct t2 as [|z t3].
      * simpl. rewrite H3. exists [x; y]. reflexivity.
      * simpl in Hlen. rewrite <- app_comm_cons. cbn iota.
        destruct (isSpace3 z y x); [apply IH; [lia|assumption|assumption]|].
        exists (x :: y :: z :: t3). reflexivity.
Qed.

Lemma TrimSpace_ascii_head (c : ascii) (r : string) :
  (code c < 128)%N -> isSpace1 c = false ->
  exists r', TrimSpace (String c r) = String c r'.
Proof.
  intros Hc Hs. unfold TrimSpace. cbn [list_ascii_of_string].
  assert (Hl : trimLeft (c :: list_ascii_of_string r) = c :: list_ascii_of_string r).
  { cbn [trimLeft]. rewrite Hs.
    destruct (list_ascii_of_string r) as [|d r2]; [reflexivity|].
    replace (isSpace2 c d) with false by (symmetry; bool_false).
    destruct r2 as [|e r3]; [reflexivity|].
    replace (isSpace3 c d e) with false by (symmetry; bool_false). reflexivity. }
  rewrite Hl. unfold trimRight. cbn [rev].
  destruct (trimLeftRev_keeps_last (length (rev (list_ascii_of_string r)))
              (rev (list_ascii_of_string r)) c) as [t' Ht]; [lia|assumption|assumption|].
  rewrite Ht, rev_app_distr. cbn. eexists. reflexivity.
Qed.

End TrimFacts.

(** ** The diff engine *)

Section DiffEngine.

Context {W : Type} `{!OS W} `{!DiffMatchPatch}.


Lemma compare_present_readable (w : W) (queryID : Z) (q : redash.Query)
    (localPath L : string) :
  file.Exists w localPath = true ->
  file.IsFile w localPath = true ->
  os_ReadFile w localPath = Ok L ->
  diff.CompareQueryWithLocal w queryID (Some q) localPath =
    if String.eqb (TrimSpace L) (TrimSpace (redash.QueryText q))
    then (diff.setStatus
            (diff.setQueryName (freshResult queryID localPath) (redash.Name q))
            "MATCH", None)
    else (diff.setDifferences
            (diff.setStatus
               (diff.setQueryName (freshResult queryID localPath) (redash.Name q))
               "DIFFERENT")
            (dmp_DiffPrettyText (TrimSpace L) (TrimSpace (redash.QueryText q))),
          None).
Proof.
  intros Hex Hfile Hread. unfold diff.CompareQueryWithLocal.
  rewrite Hex, Hfile, Hread. reflexivity.
Qed.

(** C1. When the local file is an existing regular file that reads as [L]
    and the remote query is present with text [R], the status of the
    comparison is MATCH if and only if [L] and [R] are equal once trimmed
    (and then no error is returned); in particular the status is MATCH when
    [L] and [R] are one text padded with any leading and trailing white
    space. *)
Theorem compare_match_iff_trimmed_equal (w : W) (queryID : Z) (q : redash.Query)
    (localPath L : string) :
  file.Exists w localPath = true ->
  file.IsFile w localPath = true ->
  os_ReadFile w localPath = Ok L ->
  let out := diff.CompareQueryWithLocal w queryID (Some q) localPath in
  (diff.Status (fst out) = "MATCH"
     <-> TrimSpace L = TrimSpace (redash.QueryText q))
  /\ (diff.Status (fst out) = "MATCH" -> snd out = None)
  /\ (forall a b c d s : string,
        isWhiteSpace a = true -> isWhiteSpace b = true ->
        isWhiteSpace c = true -> isWhiteSpace d = true ->
        L = a +:+ s +:+ b -> redash.QueryText q = c +:+ s +:+ d ->
        diff.Status (fst out) = "MATCH").
Proof.
  intros Hex Hfile Hread out.
  assert (Hiff : diff.Status (fst out) = "MATCH"
                 <-> TrimSpace L = TrimSpace (redash.QueryText q)).
  { subst out. rewrite (compare_present_readable w queryID q localPath L Hex Hfile Hread).
    destruct (String.eqb_spec (TrimSpace L) (TrimSpace (redash.QueryText q))) as [E|E];
      simpl; split; intros Hs; try reflexivity; try assumption.
    - discriminate Hs.
    - contradiction. }
  split; [exact Hiff|]. split.
  - subst out. rewrite (compare_present_readable w queryID q localPath L Hex Hfile Hread).
    destruct (String.eqb (TrimSpace L) (TrimSpace (redash.QueryText q))); reflexivity.
  - intros a b c d s Ha Hb Hc Hd HL HR. apply Hiff. rewrite HL, HR.
    rewrite !TrimSpace_padding by assumption. reflexivity.
Qed.

(** C2 (as amended). With the remote query absent, the comparison never has
    status ERROR or DIFFERENT: it returns no error exactly when the local
    path is an existing regular file that can be read, and then the status
    is MISSING_IN_REDASH; for any other local path it returns an error and
    the status is left empty. *)
Theorem compare_absent_remote (w : W) (queryID : Z) (localPath : string) :
  let out := diff.CompareQueryWithLocal w queryID None localPath in
  (readableFile w localPath = true ->
     out = (diff.setStatus (freshResult queryID localPath) "MISSING_IN_REDASH", None))
  /\ (readableFile w localPath = false ->
     fst out = freshResult queryID localPath /\ snd out <> None)
  /\ diff.Status (fst out) <> "ERROR"
  /\ diff.Status (fst out) <> "DIFFERENT".
Proof.
  unfold readableFile, diff.CompareQueryWithLocal, freshResult. simpl.
  destruct (file.Exists w localPath); simpl;
    [destruct (file.IsFile w localPath); simpl;
       [destruct (os_ReadFile w localPath); simpl|]|];
    repeat split; intros; try discriminate; try reflexivity.
Qed.

End DiffEngine.

(** Against C2 as stated: for a local path that does not exist, the
    comparison with the remote query absent returns an error and no status. *)
Lemma compare_absent_missing_file :
  diff.CompareQueryWithLocal MemOS.world0 7 None "7.sql"
  = ({| diff.QueryID := 7; diff.QueryName := ""; diff.Status := "";
        diff.ErrorMessage := ""; diff.LocalPath := "7.sql";
        diff.Differences := "" |},
     Some "local SQL file does not exist: 7.sql")
  /\ ~ (forall localPath : string,
          let out := diff.CompareQueryWithLocal MemOS.world0 7 None localPath in
          diff.Status (fst out) = "MISSING_IN_REDASH" /\ snd out = None).
Proof.
  split; [reflexivity|]. intros H. destruct (H "7.sql") as [H1 _]. discriminate H1.
Qed.


Lemma compare_match_witness :
  (file.Exists world5 "5.sql" = true
   /\ file.IsFile world5 "5.sql" = true
   /\ os_ReadFile world5 "5.sql" = Ok "SELECT 1")
  /\ diff.Status (fst (diff.CompareQueryWithLocal world5 5 (Some query5) "5.sql"))
     = "MATCH".
Proof.
  split; [repeat split; vm_compute; reflexivity|].
  apply (compare_match_iff_trimmed_equal world5 5 query5 "5.sql" "SELECT 1");
    vm_compute; reflexivity.
Defined.

Lemma compare_absent_witness :
  readableFile world5 "5.sql" = true
  /\ diff.CompareQueryWithLocal world5 5 None "5.sql"
     = (diff.setStatus (freshResult 5 "5.sql") "MISSING_IN_REDASH", None).
Proof.
  split; [vm_compute; reflexivity|].
  apply (compare_absent_remote world5 5 "5.sql"). vm_compute; reflexivity.
Defined.

(** ** The profile resolver *)

Section Profiles.

Context {W : Type} `{!OS W}.

(** C8. Validation returns an error if and only if [redash_url] or
    [api_key] is empty, whatever the other field holds; the message names
    exactly the empty ones, [redash_url] before [api_key]. *)
Theorem ValidateProfileConfig_missing_fields (pc : redash.ProfileConfig) (s : State W) :
  let out := fst (redash.ValidateProfileConfig pc s) in
  (out = None <-> redash.RedashURL pc <> "" /\ redash.APIKey pc <> "")
  /\ (redash.RedashURL pc = "" -> redash.APIKey pc = "" ->
      out = Some "required configuration values not found: redash_url, api_key")
  /\ (redash.RedashURL pc = "" -> redash.APIKey pc <> "" ->
      out = Some "required configuration values not found: redash_url")
  /\ (redash.RedashURL pc <> "" -> redash.APIKey pc = "" ->
      out = Some "required configuration values not found: api_key").
Proof.
  unfold redash.ValidateProfileConfig. munfold.
  destruct (String.eqb_spec (redash.RedashURL pc) "") as [Eu|Eu];
    destruct (String.eqb_spec (redash.APIKey pc) "") as [Ek|Ek]; simpl;
    repeat split; intros; try discriminate; try reflexivity; try tauto;
    try congruence.
  all: destruct_and?; congruence.
Qed.

Lemma warnings_app (l1 l2 : list LogRecord) :
  warnings (l1 ++ l2) = warnings l1 ++ warnings l2.
Proof. unfold warnings. apply filter_app. Qed.

(** C7. The profile to use is named by the request when it is not empty,
    else by the environment variable REDRIP_PROFILE when it is not empty,
    else it is [default]. When the configuration has a profile of that name,
    it is returned without warning; when it has none, the configuration of
    the [default] profile is returned, [default] becomes the current profile
    and one warning is logged. There is no error in either case. *)
Theorem GetProfileConfig_precedence (config : redash.Config) (requested : string)
    (s : State W) :
  let name := activeProfileName requested (os_Getenv (world s) "REDRIP_PROFILE") in
  let out := redash.GetProfileConfig config requested s in
  (forall pc, redash.Profiles config !! name = Some pc ->
     fst out = pc
     /\ CurrentProfile (snd out) = name
     /\ warnings (logs (snd out)) = warnings (logs s))
  /\ (redash.Profiles config !! name = None ->
     fst out = default redash.zeroProfile (redash.Profiles config !! "default")
     /\ CurrentProfile (snd out) = "default"
     /\ warnings (logs (snd out)) = warnings (logs s) ++ [fallbackWarning name])
  /\ world (snd out) = world s.
Proof.
  unfold activeProfileName.
  destruct (String.eqb requested "") eqn:Er;
    [destruct (String.eqb (os_Getenv (world s) "REDRIP_PROFILE") "") eqn:Ee|];
    unfold redash.GetProfileConfig; munfold;
    repeat (cbn; rewrite ?Er, ?Ee).
  all: match goal with
       | |- context [redash.Profiles ?c !! ?n] =>
           destruct (redash.Profiles c !! n) as [pc0|] eqn:Ed
       end; cbn;
       repeat split; intros; simplify_eq; try reflexivity;
       rewrite ?warnings_app; cbn; rewrite ?app_nil_r; try reflexivity.
Qed.

End Profiles.

Lemma ValidateProfileConfig_witness :
  fst (redash.ValidateProfileConfig
         {| redash.RedashURL := ""; redash.APIKey := ""; redash.SQLDir := "/sql" |}
         (MemOS.start MemOS.world0))
  = Some "required configuration values not found: redash_url, api_key".
Proof.
  apply (ValidateProfileConfig_missing_fields
           {| redash.RedashURL := ""; redash.APIKey := ""; redash.SQLDir := "/sql" |}
           (MemOS.start MemOS.world0)); reflexivity.
Defined.

Lemma GetProfileConfig_witness :
  redash.Profiles configStg
    !! activeProfileName "" (os_Getenv (world (MemOS.start worldPrd)) "REDRIP_PROFILE")
  = None
  /\ fst (redash.GetProfileConfig configStg "" (MemOS.start worldPrd))
     = {| redash.RedashURL := "https://x/api"; redash.APIKey := "K";
          redash.SQLDir := "" |}.
Proof.
  split; [vm_compute; reflexivity|].
  apply (GetProfileConfig_precedence configStg "" (MemOS.start worldPrd)).
  vm_compute; reflexivity.
Defined.

(** ** The config parser *)

Section Parser.

Context {W : Type} `{!OS W}.

Implicit Types (profiles : gmap string redash.ProfileConfig) (cur line : string).

(** The loop body of [LoadConfig] does to the profiles and the current
    section what [applyLine] says for the shape of the line. *)
Lemma loadLine_state line profiles cur (s : State W) :
  fst (redash.loadLine line (profiles, cur) s)
  = applyLine (lineKind line) (profiles, cur).
Proof.
  unfold redash.loadLine, lineKind, isComment, isBracketed, headerName.
  destruct (HasPrefix (TrimSpace line) "#" || String.eqb (TrimSpace line) "");
    [reflexivity|].
  destruct (HasPrefix line "[" && HasSuffix line "]").
  - cbv zeta.
    destruct (HasPrefix (TrimSpace (substring 1 (String.length line - 2) line))
                "profile "); [reflexivity|].
    destruct (String.eqb_spec
                (TrimSpace (substring 1 (String.length line - 2) line)) "default")
      as [E|E]; cbn; [rewrite E|]; reflexivity.
  - unfold SplitN2. destruct (Cut line "=") as [[k v]|]; [|reflexivity].
    munfold. unfold applyLine, setField. cbn.
    destruct (String.eqb (TrimSpace k) "redash_url"); [reflexivity|].
    destruct (String.eqb (TrimSpace k) "api_key"); [reflexivity|].
    destruct (String.eqb (TrimSpace k) "sql_dir"); reflexivity.
Qed.

(** The loop body only logs: the world, the level of the logger and the
    current profile of the package stay as they are, and the log grows at
    its end. *)
Lemma loadLine_logs line profiles cur (s : State W) :
  let s' := snd (redash.loadLine line (profiles, cur) s) in
  world s' = world s /\ LoggerLevel s' = LoggerLevel s
  /\ CurrentProfile s' = CurrentProfile s
  /\ match lineKind line with
     | CommentOrBlank | NoEquals | SectionHeader _ => s' = s
     | InvalidHeader => logs s' = logs s ++ [invalidHeaderWarning line]
     | Setting _ _ => warnings (logs s') = warnings (logs s)
     end.
Proof.
  unfold redash.loadLine, lineKind, isComment, isBracketed, headerName.
  destruct (HasPrefix (TrimSpace line) "#" || String.eqb (TrimSpace line) "");
    [cbn; auto|].
  destruct (HasPrefix line "[" && HasSuffix line "]").
  - cbv zeta.
    destruct (HasPrefix (TrimSpace (substring 1 (String.length line - 2) line))
                "profile "); [cbn; auto|].
    destruct (String.eqb (TrimSpace (substring 1 (String.length line - 2) line))
                "default"); cbn; auto.
  - unfold SplitN2. destruct (Cut line "=") as [[k v]|]; [|cbn; auto].
    munfold. cbn.
    destruct (String.eqb (TrimSpace k) "redash_url");
      [cbn; rewrite warnings_app, app_nil_r; auto|].
    destruct (String.eqb (TrimSpace k) "api_key");
      [cbn; rewrite warnings_app, app_nil_r; auto|].
    destruct (String.eqb (TrimSpace k) "sql_dir");
      [cbn; rewrite warnings_app, app_nil_r; auto|].
    cbn; auto.
Qed.

Lemma forEach_loadLine_state (lines : list string) :
  forall st (s : State W),
    fst (forEach redash.loadLine lines st s) = runLines lines st.
Proof.
  induction lines as [|line lines IH]; intros st s; [reflexivity|].
  cbn [forEach]. unfold bind.
  destruct (redash.loadLine line st s) as [st1 s1] eqn:E.
  rewrite IH. unfold runLines. cbn [foldl]. f_equal.
  destruct st as [profiles cur].
  rewrite <- (loadLine_state line profiles cur s), E. reflexivity.
Qed.

Lemma forEach_loadLine_world (lines : list string) :
  forall st (s : State W),
    world (snd (forEach redash.loadLine lines st s)) = world s.
Proof.
  induction lines as [|line lines IH]; intros st s; [reflexivity|].
  cbn [forEach]. unfold bind.
  destruct (redash.loadLine line st s) as [st1 s1] eqn:E.
  rewrite IH. destruct st as [profiles cur].
  pose proof (loadLine_logs line profiles cur s) as Hl.
  rewrite E in Hl. apply Hl.
Qed.

(** A line that starts with a bracket is neither a comment nor blank. *)
Lemma bracket_not_comment line :
  HasPrefix line "[" = true ->
  HasPrefix (TrimSpace line) "#" || String.eqb (TrimSpace line) "" = false.
Proof.
  unfold HasPrefix. destruct line as [|c r]; [discriminate|]. cbn [String.prefix].
  destruct (ascii_dec "[" c) as [<-|]; [|discriminate]. intros _.
  destruct (TrimSpace_ascii_head "[" r) as [r' ->]; [reflexivity|reflexivity|].
  reflexivity.
Qed.

(** [Cut] splits at the first occurrence of the separator. *)
Lemma Cut_Some (s : string) (c : ascii) (a b : string) :
  Cut s c = Some (a, b) <-> s = a +:+ String c b /\ lacks c a = true.
Proof.
  revert a b. induction s as [|x r IH]; intros a b; cbn [Cut].
  - split; [discriminate|]. intros [E _]. destruct a; discriminate E.
  - destruct (Ascii.eqb_spec x c) as [->|Hne].
    + split.
      * intros [= <- <-]. split; reflexivity.
      * intros [E Hl]. destruct a as [|y a']; cbn in E.
        -- injection E as ->. reflexivity.
        -- injection E as -> _. cbn in Hl. rewrite Ascii.eqb_refl in Hl. discriminate.
    + destruct (Cut r c) as [[a' b']|] eqn:E.
      * split.
        -- intros [= <- <-]. destruct (proj1 (IH a' b') eq_refl) as [-> Hl].
           split; [reflexivity|]. cbn. rewrite Hl.
           destruct (Ascii.eqb_spec x c); [contradiction|reflexivity].
        -- intros [Es Hl]. destruct a as [|y a'']; cbn in Es.
           ++ injection Es as -> _. contradiction.
           ++ injection Es as <- Er. cbn in Hl. apply andb_true_iff in Hl.
              destruct Hl as [_ Hl].
              pose proof (proj2 (IH a'' b) (conj Er Hl)) as Hc.
              injection Hc as -> ->. reflexivity.
      * split; [discriminate|]. intros [Es Hl]. destruct a as [|y a'']; cbn in Es.
        -- injection Es as -> _. contradiction.
        -- injection Es as <- Er. cbn in Hl. apply andb_true_iff in Hl.
           destruct Hl as [_ Hl].
           pose proof (proj2 (IH a'' b) (conj Er Hl)) as Hc. discriminate.
Qed.

Lemma Cut_None (s : string) (c : ascii) : Cut s c = None <-> lacks c s = true.
Proof.
  induction s as [|x r IH]; cbn; [tauto|].
  destruct (Ascii.eqb x c); cbn.
  - split; discriminate.
  - destruct (Cut r c) as [[a b]|].
    + split; [discriminate|]. intros Hl. apply IH in Hl. discriminate.
    + split; [intros _; apply IH; reflexivity | reflexivity].
Qed.

(** The scanner delivers every line when each fits its buffer, and stops
    with [ErrTooLong] otherwise. *)
Lemma tokens_fit (ls : list string) :
  forallb fitsBuffer ls = true -> bufio.tokens ls = (map bufio.dropCR ls, None).
Proof.
  induction ls as [|l ls IH]; [reflexivity|]. cbn [forallb bufio.tokens map].
  intros Hf. apply andb_true_iff in Hf. destruct Hf as [Hl Hf].
  unfold fitsBuffer in Hl. rewrite N.leb_antisym, Hl. cbn. rewrite (IH Hf).
  reflexivity.
Qed.

Lemma tokens_too_long (ls : list string) :
  forallb fitsBuffer ls = false -> snd (bufio.tokens ls) = Some bufio.ErrTooLong.
Proof.
  induction ls as [|l ls IH]; [discriminate|]. cbn [forallb bufio.tokens].
  unfold fitsBuffer at 1. rewrite N.leb_antisym.
  destruct (bufio.len l <? bufio.MaxScanTokenSize)%N; cbn; [|reflexivity].
  intros Hf. specialize (IH Hf). destruct (bufio.tokens ls). cbn in *. assumption.
Qed.

(** What a successful [LoadConfig] returns: the profiles built from the
    lines the scanner delivered for the file, completed with [default]. *)
Lemma LoadConfig_Ok_inv (configPath : string) (s s' : State W) (config : redash.Config) :
  redash.LoadConfig configPath s = (Ok config, s') ->
  exists data readErr lines,
    os_Open (world s') configPath = Ok (data, readErr)
    /\ bufio.Scan data readErr = (lines, None)
    /\ redash.Profiles config = parsedProfiles lines.
Proof.
  unfold redash.LoadConfig. munfold.
  match goal with
  | |- context [redash.EnsureConfigFile configPath ?s0] =>
      destruct (redash.EnsureConfigFile configPath s0) as [[err|] s1]
  end; [discriminate|].
  destruct (os_Open (world s1) configPath) as [[data readErr]|err] eqn:Eo;
    [|discriminate].
  destruct (bufio.Scan data readErr) as [lines scanErr] eqn:Es.
  pose proof (forEach_loadLine_state lines (∅, "default") s1) as Hst.
  pose proof (forEach_loadLine_world lines (∅, "default") s1) as Hw.
  destruct (forEach redash.loadLine lines (∅, "default") s1) as [st s2].
  cbn in Hst, Hw. destruct scanErr as [err|]; cbn.
  - destruct (os_Close (world s2) configPath); discriminate.
  - destruct (os_Close (world s2) configPath); intros [= <- <-];
      exists data, readErr, lines; cbn; rewrite Hw, Eo, Hst; auto.
Qed.

(** An existing config file is not written. *)
Lemma EnsureConfigFile_existing (configPath : string) (s : State W) :
  file.Exists (world s) configPath = true ->
  fst (redash.EnsureConfigFile configPath s) = None
  /\ world (snd (redash.EnsureConfigFile configPath s)) = world s.
Proof.
  intros Hex. unfold redash.EnsureConfigFile. munfold. cbn. rewrite Hex. cbn. auto.
Qed.

(** [LoadConfig] on an existing file that opens and reads to its end:
    the result depends on the lengths of the lines only. *)
Lemma LoadConfig_existing (configPath data : string) (s : State W) :
  file.Exists (world s) configPath = true ->
  os_Open (world s) configPath = Ok (data, None) ->
  fst (redash.LoadConfig configPath s)
  = if forallb fitsBuffer (bufio.rawLines data)
    then Ok {| redash.Profiles := parsedProfiles (map bufio.dropCR (bufio.rawLines data)) |}
    else Err bufio.ErrTooLong.
Proof.
  intros Hex Hopen. unfold redash.LoadConfig, redash.EnsureConfigFile. munfold.
  cbn. rewrite Hex. cbn. rewrite Hopen. unfold bufio.Scan.
  destruct (forallb fitsBuffer (bufio.rawLines data)) eqn:Ef.
  - rewrite (tokens_fit _ Ef).
    match goal with
    | |- context [forEach redash.loadLine ?ls ?st ?s0] =>
        pose proof (forEach_loadLine_state ls st s0) as Hst;
        destruct (forEach redash.loadLine ls st s0) as [st1 s1]
    end.
    cbn in *. rewrite Hst. destruct (os_Close (world s1) configPath); reflexivity.
  - pose proof (tokens_too_long _ Ef) as Ht.
    destruct (bufio.tokens (bufio.rawLines data)) as [ts e]. cbn in Ht. subst e.
    match goal with
    | |- context [forEach redash.loadLine ?ls ?st ?s0] =>
        destruct (forEach redash.loadLine ls st s0) as [st1 s1]
    end.
    cbn. destruct (os_Close (world s1) configPath); reflexivity.
Qed.

Lemma applyLine_keeps (k : LineKind) profiles cur (name : string) :
  is_Some (profiles !! name) -> is_Some (fst (applyLine k (profiles, cur)) !! name).
Proof.
  intros Hs. destruct k; cbn; try assumption.
  - unfold redash.ensureProfile. destruct (profiles !! name0) eqn:E; [assumption|].
    destruct (decide (name0 = name)) as [->|Hne];
      [rewrite lookup_insert_eq | rewrite lookup_insert_ne by assumption]; eauto.
  - destruct (decide (cur = name)) as [->|Hne];
      [rewrite lookup_insert_eq | rewrite lookup_insert_ne by assumption]; eauto.
Qed.

Lemma runLines_cons (l : string) (lines : list string) st :
  runLines (l :: lines) st = runLines lines (applyLine (lineKind l) st).
Proof. reflexivity. Qed.

Lemma runLines_keeps (lines : list string) :
  forall profiles cur (name : string),
    is_Some (profiles !! name) -> is_Some (fst (runLines lines (profiles, cur)) !! name).
Proof.
  induction lines as [|l lines IH]; intros profiles cur name Hs; [assumption|].
  rewrite runLines_cons.
  destruct (applyLine (lineKind l) (profiles, cur)) as [p1 c1] eqn:E.
  apply IH. replace p1 with (fst (applyLine (lineKind l) (profiles, cur)))
    by (rewrite E; reflexivity).
  apply applyLine_keeps. assumption.
Qed.

(** The scanning loop leaves [default] out of the profiles exactly when no
    line touches it. *)
Lemma runLines_default (lines : list string) :
  forall profiles cur,
    fst (runLines lines (profiles, cur)) !! "default" = None
    <-> profiles !! "default" = None /\ touchesDefault cur lines = false.
Proof.
  induction lines as [|l lines IH]; intros profiles cur.
  - cbn. split; [auto | tauto].
  - rewrite runLines_cons. cbn [touchesDefault].
    destruct (lineKind l) as [|name| |key value|] eqn:Ek; cbn [applyLine fst snd];
      try apply IH.
    + rewrite IH. unfold redash.ensureProfile.
      destruct (String.eqb_spec name "default") as [->|Hne]; cbn.
      * destruct (profiles !! "default") eqn:E;
          [rewrite E | rewrite lookup_insert_eq]; split; intros [? ?]; discriminate.
      * destruct (profiles !! name) eqn:E; [tauto|].
        rewrite lookup_insert_ne by assumption. tauto.
    + rewrite IH. destruct (String.eqb_spec cur "default") as [->|Hne]; cbn.
      * rewrite lookup_insert_eq. split; intros [? ?]; discriminate.
      * rewrite lookup_insert_ne by assumption. tauto.
Qed.

(** C5. When [LoadConfig] succeeds, the profiles it returns hold a profile
    named [default]. They are the profiles built from the lines of the file,
    and when no line of the file opens the section [default] or sets a key
    in it, the profile [default] is the empty one. *)
Theorem LoadConfig_default_profile (configPath : string) (s s' : State W)
    (config : redash.Config) :
  redash.LoadConfig configPath s = (Ok config, s') ->
  is_Some (redash.Profiles config !! "default")
  /\ exists data readErr lines,
       os_Open (world s') configPath = Ok (data, readErr)
       /\ bufio.Scan data readErr = (lines, None)
       /\ redash.Profiles config = parsedProfiles lines
       /\ (touchesDefault "default" lines = false ->
           redash.Profiles config !! "default" = Some redash.zeroProfile).
Proof.
  intros Hload.
  destruct (LoadConfig_Ok_inv configPath s s' config Hload)
    as (data & readErr & lines & Hopen & Hscan & Hp).
  assert (Hd : forall m : gmap string redash.ProfileConfig,
             is_Some (redash.ensureProfile "default" m !! "default")).
  { intros m. unfold redash.ensureProfile.
    destruct (m !! "default") eqn:E; [rewrite E | rewrite lookup_insert_eq]; eauto. }
  split; [rewrite Hp; apply Hd|].
  exists data, readErr, lines. repeat split; try assumption.
  intros Ht. rewrite Hp. unfold parsedProfiles, redash.ensureProfile.
  assert (Hn : fst (runLines lines (∅, "default")) !! "default" = None).
  { apply runLines_default. split; [apply lookup_empty | assumption]. }
  rewrite Hn. apply lookup_insert_eq.
Qed.

(** *** Lines that are ignored *)

Lemma setField_unknown (key value : string) (pc : redash.ProfileConfig) :
  knownKey key = false -> setField key value pc = pc.
Proof.
  unfold knownKey, setField. intros Hk.
  apply orb_false_iff in Hk. destruct Hk as [Hk H3].
  apply orb_false_iff in Hk. destruct Hk as [H1 H2].
  rewrite H1, H2, H3. reflexivity.
Qed.

Lemma ensureProfile_default_insert profiles :
  profiles !! "default" = None ->
  redash.ensureProfile "default" (<["default" := redash.zeroProfile]> profiles)
  = redash.ensureProfile "default" profiles.
Proof.
  intros Hn. unfold redash.ensureProfile. rewrite lookup_insert_eq, Hn. reflexivity.
Qed.

(** The section stays open along the lines. *)
Lemma applyLine_sectionOpen (k : LineKind) st :
  sectionOpen st -> sectionOpen (applyLine k st).
Proof.
  destruct st as [profiles cur]. unfold sectionOpen.
  destruct k; cbn; try tauto; intros _; right.
  - unfold redash.ensureProfile. destruct (profiles !! name) eqn:E;
      [rewrite E | rewrite lookup_insert_eq]; eauto.
  - rewrite lookup_insert_eq. eauto.
Qed.

Lemma runLines_sectionOpen (lines : list string) :
  forall st, sectionOpen st -> sectionOpen (runLines lines st).
Proof.
  induction lines as [|l lines IH]; intros st Hs; [assumption|].
  rewrite runLines_cons. apply IH, applyLine_sectionOpen, Hs.
Qed.

Lemma runLines_app (l1 l2 : list string) st :
  runLines (l1 ++ l2) st = runLines l2 (runLines l1 st).
Proof. unfold runLines. apply foldl_app. Qed.

(** An empty [default] put in early is the one [LoadConfig] puts in at the end. *)
Lemma runLines_default_early (lines : list string) :
  forall profiles cur,
    profiles !! "default" = None ->
    redash.ensureProfile "default"
      (fst (runLines lines (<["default" := redash.zeroProfile]> profiles, cur)))
    = redash.ensureProfile "default" (fst (runLines lines (profiles, cur))).
Proof.
  induction lines as [|l lines IH]; intros profiles cur Hn.
  - cbn. apply ensureProfile_default_insert, Hn.
  - rewrite !runLines_cons.
    destruct (lineKind l) as [|name| |key value|]; cbn [applyLine fst snd];
      try (apply IH; assumption).
    + unfold redash.ensureProfile at 2 4.
      destruct (decide (name = "default")) as [->|Hne].
      * rewrite lookup_insert_eq, Hn. reflexivity.
      * rewrite lookup_insert_ne by congruence.
        destruct (profiles !! name) eqn:E; [apply IH; assumption|].
        rewrite insert_insert_ne by congruence.
        apply IH. rewrite lookup_insert_ne by assumption. assumption.
    + destruct (decide (cur = "default")) as [->|Hne].
      * rewrite lookup_insert_eq, Hn, insert_insert_eq. reflexivity.
      * rewrite lookup_insert_ne by congruence.
        rewrite insert_insert_ne by congruence.
        apply IH. rewrite lookup_insert_ne by assumption. assumption.
Qed.

(** A line of an ignored kind changes nothing of what [LoadConfig] returns. *)
Lemma parsedProfiles_ignored (pre post : list string) (l : string) :
  ignoredKind (lineKind l) = true ->
  parsedProfiles (pre ++ l :: post) = parsedProfiles (pre ++ post).
Proof.
  intros Hi. unfold parsedProfiles. rewrite !runLines_app, runLines_cons.
  pose proof (runLines_sectionOpen pre (∅, "default") (or_introl eq_refl)) as Hop.
  destruct (runLines pre (∅, "default")) as [profiles cur].
  destruct (lineKind l) as [|name| |key value|]; cbn [applyLine fst snd];
    try reflexivity; [discriminate Hi|].
  cbn in Hi. apply negb_true_iff in Hi. rewrite (setField_unknown _ _ _ Hi).
  destruct (profiles !! cur) as [pc|] eqn:E; cbn [default].
  - rewrite insert_id by assumption. reflexivity.
  - destruct Hop as [Hc|[pc Hc]]; cbn in Hc; [subst cur|congruence].
    apply runLines_default_early. assumption.
Qed.

(** *** The shapes of the lines *)

Lemma lineKind_shapes line :
  (lineKind line = CommentOrBlank <-> isComment line = true)
  /\ (lineKind line = InvalidHeader <->
        isBracketed line = true
        /\ HasPrefix (headerName line) "profile " = false
        /\ headerName line <> "default")
  /\ (forall n, lineKind line = SectionHeader n <->
        isBracketed line = true
        /\ if HasPrefix (headerName line) "profile "
           then n = TrimSpace (drop 8 (headerName line))
           else headerName line = "default" /\ n = "default")
  /\ (forall key value, lineKind line = Setting key value <->
        isComment line = false /\ isBracketed line = false
        /\ exists k v, line = k +:+ String "=" v /\ lacks "=" k = true
                       /\ key = TrimSpace k /\ value = TrimSpace v)
  /\ (lineKind line = NoEquals <->
        isComment line = false /\ isBracketed line = false /\ lacks "=" line = true).
Proof.
  assert (Hb : isBracketed line = true -> isComment line = false).
  { unfold isBracketed, isComment. intros Hb. apply andb_true_iff in Hb.
    apply bracket_not_comment, Hb. }
  unfold lineKind.
  destruct (isComment line) eqn:Ec.
  - repeat split; intros; try discriminate; try tauto.
    + destruct_and?. specialize (Hb ltac:(assumption)). discriminate.
    + destruct_and?. specialize (Hb ltac:(assumption)). discriminate.
    + destruct_and?. discriminate.
    + destruct_and?. discriminate.
  - destruct (isBracketed line) eqn:Eb.
    + destruct (HasPrefix (headerName line) "profile ") eqn:Ep.
      * repeat split; intros; try discriminate; destruct_and?; try discriminate;
          try congruence; auto.
      * destruct (String.eqb_spec (headerName line) "default") as [Ed|Ed].
        -- repeat split; intros; try discriminate; destruct_and?; try discriminate;
             try congruence; auto.
        -- repeat split; intros; try discriminate; destruct_and?; try discriminate;
             try congruence; auto.
    + destruct (Cut line "=") as [[k v]|] eqn:Ecut.
      * apply Cut_Some in Ecut as [El Hl].
        repeat split; intros; try discriminate; destruct_and?; try discriminate; auto.
        -- exists k, v. repeat split; congruence.
        -- match goal with Hx : exists _ _, _ |- _ => destruct Hx as (k' & v' & E1 & E2 & -> & ->) end.
           assert (Hc : Cut line "=" = Some (k', v')) by (apply Cut_Some; auto).
           assert (Hc' : Cut line "=" = Some (k, v)) by (apply Cut_Some; auto).
           rewrite Hc in Hc'. injection Hc' as -> ->. reflexivity.
        -- match goal with Hx : lacks _ line = true |- _ => apply Cut_None in Hx end.
           assert (Hc' : Cut line "=" = Some (k, v)) by (apply Cut_Some; auto).
           congruence.
      * repeat split; intros; try discriminate; destruct_and?; try discriminate; auto.
        -- match goal with Hx : exists _ _, _ |- _ => destruct Hx as (k' & v' & E1 & E2 & _) end.
           assert (Hc : Cut line "=" = Some (k', v')) by (apply Cut_Some; auto).
           congruence.
        -- apply Cut_None. assumption.
Qed.

(** C6 (as amended). [LoadConfig] fails on the content of a file only when
    a line is too long for the scanner (65536 bytes or more). Each line is
    a comment or blank, a section header, an invalid header, a setting or a
    line without [=], as [lineKind] tells. An invalid header (a line
    between brackets that is neither [default] nor [profile name]) logs one
    warning and leaves the profiles and the current section as they are; a
    setting, split at its first [=], sets the field that its trimmed key
    names in the current section to its trimmed value, and sets nothing
    when the key is none of the three; a line without any [=] changes
    nothing. Comments, invalid headers, settings of an unknown key and
    lines without [=] can be taken out of the file without changing the
    result. *)
Theorem LoadConfig_line_by_line :
  (forall line,
     (lineKind line = InvalidHeader <->
        isBracketed line = true
        /\ HasPrefix (headerName line) "profile " = false
        /\ headerName line <> "default")
     /\ (forall key value, lineKind line = Setting key value <->
           isComment line = false /\ isBracketed line = false
           /\ exists k v, line = k +:+ String "=" v /\ lacks "=" k = true
                          /\ key = TrimSpace k /\ value = TrimSpace v)
     /\ (lineKind line = NoEquals <->
           isComment line = false /\ isBracketed line = false
           /\ lacks "=" line = true))
  /\ (forall line profiles cur (s : State W),
        let out := redash.loadLine line (profiles, cur) s in
        match lineKind line with
        | CommentOrBlank | NoEquals => out = ((profiles, cur), s)
        | InvalidHeader =>
            fst out = (profiles, cur)
            /\ logs (snd out) = logs s ++ [invalidHeaderWarning line]
        | SectionHeader name => fst out = (redash.ensureProfile name profiles, name)
        | Setting key value =>
            fst out = (<[cur := setField key value
                                  (default redash.zeroProfile (profiles !! cur))]>
                         profiles, cur)
        end)
  /\ (forall value pc,
        setField "redash_url" value pc
        = {| redash.RedashURL := value; redash.APIKey := redash.APIKey pc;
             redash.SQLDir := redash.SQLDir pc |}
        /\ setField "api_key" value pc
           = {| redash.RedashURL := redash.RedashURL pc; redash.APIKey := value;
                redash.SQLDir := redash.SQLDir pc |}
        /\ setField "sql_dir" value pc
           = {| redash.RedashURL := redash.RedashURL pc;
                redash.APIKey := redash.APIKey pc; redash.SQLDir := value |}
        /\ forall key, key <> "redash_url" -> key <> "api_key" -> key <> "sql_dir" ->
                       setField key value pc = pc)
  /\ (forall pre post l,
        ignoredKind (lineKind l) = true ->
        parsedProfiles (pre ++ l :: post) = parsedProfiles (pre ++ post))
  /\ (forall configPath data (s : State W),
        file.Exists (world s) configPath = true ->
        os_Open (world s) configPath = Ok (data, None) ->
        fst (redash.LoadConfig configPath s)
        = if forallb fitsBuffer (bufio.rawLines data)
          then Ok {| redash.Profiles :=
                       parsedProfiles (map bufio.dropCR (bufio.rawLines data)) |}
          else Err bufio.ErrTooLong).
Proof.
  split; [|split; [|split; [|split]]].
  - intros line. pose proof (lineKind_shapes line) as (_ & Hi & _ & Hs & Hn). auto.
  - intros line profiles cur s out.
    pose proof (loadLine_state line profiles cur s) as Hst.
    pose proof (loadLine_logs line profiles cur s) as (_ & _ & _ & Hl).
    fold out in Hst. cbv zeta in Hl. fold out in Hl.
    destruct (lineKind line); cbn [applyLine fst snd] in Hst; try assumption.
    + destruct out as [st s']. cbn in *. congruence.
    + split; assumption.
    + destruct out as [st s']. cbn in *. congruence.
  - intros value pc. repeat split.
    intros key H1 H2 H3. apply setField_unknown. unfold knownKey.
    destruct (String.eqb_spec key "redash_url"); [contradiction|].
    destruct (String.eqb_spec key "api_key"); [contradiction|].
    destruct (String.eqb_spec key "sql_dir"); [contradiction|]. reflexivity.
  - apply parsedProfiles_ignored.
  - apply LoadConfig_existing.
Qed.

End Parser.

Lemma LoadConfig_default_witness :
  exists config s',
    redash.LoadConfig "/home/u/.redrip/config.conf" (MemOS.start worldStg)
    = (Ok config, s')
    /\ redash.Profiles config !! "default" = Some redash.zeroProfile.
Proof.
  destruct (redash.LoadConfig "/home/u/.redrip/config.conf" (MemOS.start worldStg))
    as [[config|e] s'] eqn:E; [|vm_compute in E; discriminate E].
  exists config, s'. split; [reflexivity|].
  destruct (LoadConfig_default_profile _ _ _ _ E)
    as [_ (data & readErr & lines & Ho & Hs & _ & Hz)].
  apply Hz. vm_compute in E. injection E as _ <-.
  vm_compute in Ho. injection Ho as <- <-.
  vm_compute in Hs. injection Hs as <-.
  vm_compute. reflexivity.
Defined.

(** Against C6 as stated: a line with two [=] is not skipped (the value
    keeps the second one), and a file with a line of 65536 bytes is refused. *)
Lemma LoadConfig_counterexamples :
  (occurrences "=" "api_key = a=b" = 2%nat
   /\ fst (fst (redash.loadLine "api_key = a=b" (∅, "default")
                  (MemOS.start MemOS.world0))) !! "default"
      = Some {| redash.RedashURL := ""; redash.APIKey := "a=b"; redash.SQLDir := "" |})
  /\ (file.Exists worldLong "/home/u/.redrip/config.conf" = true
      /\ os_Open worldLong "/home/u/.redrip/config.conf" = Ok (longLine, None)
      /\ fst (redash.LoadConfig "/home/u/.redrip/config.conf" (MemOS.start worldLong))
         = Err bufio.ErrTooLong).
Proof.
  split; [split; vm_compute; reflexivity|].
  assert (Hex : file.Exists worldLong "/home/u/.redrip/config.conf" = true)
    by (lazy -[longLine]; reflexivity).
  assert (Hopen : os_Open worldLong "/home/u/.redrip/config.conf" = Ok (longLine, None))
    by (lazy -[longLine]; reflexivity).
  split; [exact Hex|]. split; [exact Hopen|].
  assert (Hlong : forallb fitsBuffer (bufio.rawLines longLine) = false)
    by (vm_compute; reflexivity).
  pose proof (LoadConfig_existing "/home/u/.redrip/config.conf" longLine
                (MemOS.start worldLong) Hex Hopen) as Hload.
  rewrite Hlong in Hload. exact Hload.
Qed.

Lemma LoadConfig_lines_witness :
  ignoredKind (lineKind "timeout = 30") = true
  /\ parsedProfiles (["[default]"; "api_key = K"] ++ "timeout = 30" :: ["sql_dir = /sql"])
     = parsedProfiles (["[default]"; "api_key = K"] ++ ["sql_dir = /sql"]).
Proof.
  split; [vm_compute; reflexivity|].
  apply (proj1 (proj2 (proj2 (proj2 (@LoadConfig_line_by_line MemOS.World _))))).
  vm_compute; reflexivity.
Defined.

(** ** The SQL directory *)

Section Directory.

Context {W : Type} `{!OS W}.

(** C9. Once the configuration is loaded and the profile resolved,
    [GetProfileSQLDir] returns no error: it returns the current directory
    [.] when the SQL directory of the profile is empty or does not exist as
    a directory, and the configured path otherwise. The fallback stops
    nothing: the function only hands one record to the logger (a warning
    when the directory set does not exist, at level Info when none is set),
    and the standard output gains what the handler of the logger writes for
    that record at its level, and nothing else. *)
Theorem GetProfileSQLDir_resolution (profileName homeDir : string)
    (s s1 s2 : State W) (config : redash.Config) (pc : redash.ProfileConfig) :
  os_UserHomeDir (world s) = Ok homeDir ->
  redash.LoadConfig (filepath_Join [homeDir; ".redrip"; "config.conf"])
    (snd (logger.Debug "Getting SQL directory from config"
            [("profile", VStr profileName)] s))
  = (Ok config, s1) ->
  redash.GetProfileConfig config profileName s1 = (pc, s2) ->
  let out := redash.GetProfileSQLDir profileName s in
  fst out = Ok (resolvedDirectory (world s2) pc)
  /\ (redash.SQLDir pc = "" -> fst out = Ok ".")
  /\ (file.Exists (world s2) (redash.SQLDir pc)
      && file.IsDirectory (world s2) (redash.SQLDir pc) = false ->
      fst out = Ok ".")
  /\ (redash.SQLDir pc <> "" ->
      file.Exists (world s2) (redash.SQLDir pc)
      && file.IsDirectory (world s2) (redash.SQLDir pc) = true ->
      fst out = Ok (redash.SQLDir pc))
  /\ world (snd out) = world s2
  /\ stdout (snd out)
     = stdout s2
       ++ logger.Handle s2 (directoryRecord (world s2) (CurrentProfile s2) pc)
  /\ logs (snd out) = logs s2 ++ [directoryRecord (world s2) (CurrentProfile s2) pc].
Proof.
  intros Hhome Hload Hget out.
  assert (Hout : out = (Ok (resolvedDirectory (world s2) pc),
                        {| world := world s2;
                           logs := logs s2 ++ [directoryRecord (world s2)
                                                 (CurrentProfile s2) pc];
                           stdout := stdout s2
                                     ++ logger.Handle s2
                                          (directoryRecord (world s2)
                                             (CurrentProfile s2) pc);
                           CurrentProfile := CurrentProfile s2;
                           LoggerLevel := LoggerLevel s2 |})).
  { subst out. unfold redash.GetProfileSQLDir, resolvedDirectory, directoryRecord.
    unfold logger.Debug, logger.emit in Hload.
    cbn -[redash.LoadConfig] in Hload.
    munfold. cbn -[redash.LoadConfig redash.GetProfileConfig].
    rewrite Hhome. rewrite Hload. rewrite Hget. cbn.
    destruct (String.eqb (redash.SQLDir pc) ""); [reflexivity|]. cbn.
    destruct (file.Exists (world s2) (redash.SQLDir pc));
      destruct (file.IsDirectory (world s2) (redash.SQLDir pc)); reflexivity. }
  rewrite Hout. cbn [fst snd world logs stdout]. unfold resolvedDirectory.
  repeat split.
  - intros ->. reflexivity.
  - intros ->. destruct (String.eqb (redash.SQLDir pc) ""); reflexivity.
  - intros Hne ->. destruct (String.eqb_spec (redash.SQLDir pc) "");
      [contradiction | reflexivity].
Qed.

End Directory.

Lemma GetProfileSQLDir_witness :
  (os_UserHomeDir (world (MemOS.start worldSql)) = Ok "/home/u"
   /\ redash.LoadConfig (filepath_Join ["/home/u"; ".redrip"; "config.conf"]) (sqlStart "old")
      = (Ok (sqlConfig "old"), sqlLoaded "old"))
  /\ fst (redash.GetProfileSQLDir "old" (MemOS.start worldSql)) = Ok "."
  /\ fst (redash.GetProfileSQLDir "" (MemOS.start worldSql)) = Ok "/sql".
Proof.
  split; [split; vm_compute; reflexivity|]. split.
  - refine (eq_trans
              (proj1 (GetProfileSQLDir_resolution "old" "/home/u" (MemOS.start worldSql)
                        (sqlLoaded "old")
                        (snd (redash.GetProfileConfig (sqlConfig "old") "old" (sqlLoaded "old")))
                        (sqlConfig "old")
                        (fst (redash.GetProfileConfig (sqlConfig "old") "old" (sqlLoaded "old")))
                        _ _ _)) _);
      vm_compute; reflexivity.
  - refine (eq_trans
              (proj1 (GetProfileSQLDir_resolution "" "/home/u" (MemOS.start worldSql)
                        (sqlLoaded "")
                        (snd (redash.GetProfileConfig (sqlConfig "") "" (sqlLoaded "")))
                        (sqlConfig "")
                        (fst (redash.GetProfileConfig (sqlConfig "") "" (sqlLoaded "")))
                        _ _ _)) _);
      vm_compute; reflexivity.
Defined.

(** ** Suffixes *)

Section Suffixes.

Lemma length_append (a b : string) :
  String.length (a +:+ b) = (String.length a + String.length b)%nat.
Proof. induction a as [|c a IH]; simpl; [reflexivity | rewrite IH; reflexivity]. Qed.

Lemma substring_all (s : string) : substring 0 (String.length s) s = s.
Proof. induction s as [|c s IH]; simpl; [reflexivity | rewrite IH; reflexivity]. Qed.

Lemma substring_prefix (p q : string) : substring 0 (String.length p) (p +:+ q) = p.
Proof.
  induction p as [|c p IH]; simpl; [destruct q; reflexivity | rewrite IH; reflexivity].
Qed.

Lemma substring_skip (p q : string) :
  substring (String.length p) (String.length q) (p +:+ q) = q.
Proof. induction p as [|c p IH]; simpl; [apply substring_all | exact IH]. Qed.

Lemma substring_split (s : string) :
  forall n, (n <= String.length s)%nat ->
    s = substring 0 n s +:+ substring n (String.length s - n) s.
Proof.
  induction s as [|c s IH]; intros n Hn.
  - cbn in Hn. assert (n = 0%nat) as -> by lia. reflexivity.
  - destruct n as [|n]; simpl.
    + rewrite substring_all. reflexivity.
    + simpl in Hn. change (String c s = String c (substring 0 n s +:+
                            substring n (String.length s - n) s)).
      f_equal. apply IH. lia.
Qed.

Lemma HasSuffix_app (p suf : string) : HasSuffix (p +:+ suf) suf = true.
Proof.
  unfold HasSuffix. rewrite length_append.
  replace (String.length p + String.length suf - String.length suf)%nat
    with (String.length p) by lia.
  rewrite substring_skip, String.eqb_refl.
  apply andb_true_iff. split; [apply Nat.leb_le; lia | reflexivity].
Qed.

Lemma TrimSuffix_app (p suf : string) : TrimSuffix (p +:+ suf) suf = p.
Proof.
  unfold TrimSuffix. rewrite HasSuffix_app, length_append.
  replace (String.length p + String.length suf - String.length suf)%nat
    with (String.length p) by lia.
  apply substring_prefix.
Qed.

Lemma HasSuffix_inv (s suf : string) :
  HasSuffix s suf = true -> s = TrimSuffix s suf +:+ suf.
Proof.
  intros Hs. unfold TrimSuffix. rewrite Hs. unfold HasSuffix in Hs.
  apply andb_true_iff in Hs. destruct Hs as [Hl He].
  apply Nat.leb_le in Hl. apply String.eqb_eq in He.
  rewrite (substring_split s (String.length s - String.length suf)) at 1 by lia.
  f_equal.
  replace (String.length s - (String.length s - String.length suf))%nat
    with (String.length suf) by lia.
  exact He.
Qed.

(** An entry stands for a query exactly when it is no directory and its
    name is a text that [Atoi] reads, followed by [.sql]. *)
Lemma queryFileID_spec (e : DirEntry) (id : Z) :
  queryFileID e = Some id
  <-> entryIsDir e = false
      /\ exists idStr, entryName e = idStr +:+ ".sql" /\ strconv.Atoi idStr = Some id.
Proof.
  unfold queryFileID. split.
  - destruct (entryIsDir e); [discriminate|]. cbn.
    destruct (HasSuffix (entryName e) ".sql") eqn:Hs; [|discriminate]. cbn.
    intros Ha. split; [reflexivity|].
    exists (TrimSuffix (entryName e) ".sql"). split; [|assumption].
    apply HasSuffix_inv. assumption.
  - intros [-> (idStr & -> & Ha)]. cbn.
    rewrite HasSuffix_app, TrimSuffix_app. cbn. assumption.
Qed.

End Suffixes.

(** ** The bulk diff *)

Section Bulk.

Context {W : Type} `{!OS W} `{!DiffMatchPatch}.

Implicit Types (entries : list DirEntry) (summary : diff.Summary)
  (queryMap : gmap Z redash.Query).

(** The loop body of [diffAllCmd] does to the summary what [entryStep]
    says, and only logs. *)
Lemma diffAllEntry_step sqlDir queryMap (e : DirEntry) summary (s : State W) :
  fst (commands.diffAllEntry sqlDir queryMap e summary s)
  = entryStep (world s) sqlDir queryMap summary e
  /\ world (snd (commands.diffAllEntry sqlDir queryMap e summary s)) = world s.
Proof.
  unfold commands.diffAllEntry, entryStep, queryFileID.
  destruct (entryIsDir e || negb (HasSuffix (entryName e) ".sql")); [auto|].
  destruct (strconv.Atoi (TrimSuffix (entryName e) ".sql")) as [id|]; [|auto].
  unfold entryResult, entryPath, tally. munfold. cbn.
  destruct (diff.CompareQueryWithLocal (world s) id (queryMap !! id)
              (filepath_Join [sqlDir; entryName e])) as [r [err|]]; cbn.
  - auto.
  - destruct (String.eqb (diff.Status r) "MATCH"); [auto|].
    destruct (String.eqb (diff.Status r) "DIFFERENT"); [auto|].
    destruct (String.eqb (diff.Status r) "MISSING_IN_REDASH"); auto.
Qed.

Lemma forEach_diffAllEntry sqlDir queryMap entries :
  forall summary (s : State W),
    fst (forEach (commands.diffAllEntry sqlDir queryMap) entries summary s)
    = foldl (entryStep (world s) sqlDir queryMap) summary entries.
Proof.
  induction entries as [|e entries IH]; intros summary s; [reflexivity|].
  cbn [forEach foldl]. unfold bind.
  pose proof (diffAllEntry_step sqlDir queryMap e summary s) as [Hs Hw].
  destruct (commands.diffAllEntry sqlDir queryMap e summary s) as [sm1 s1].
  cbn in Hs, Hw. rewrite IH, Hw, Hs. reflexivity.
Qed.

(** The summary of [diffAllCmd] as a fold over the entries. *)
Lemma diffAllCmd_fold sqlDir (queries : list redash.Query) entries (s : State W) :
  fst (commands.diffAllCmd sqlDir queries entries s)
  = foldl (entryStep (world s) sqlDir (commands.buildQueryMap queries))
      (emptySummary (CurrentProfile s) sqlDir) entries.
Proof.
  unfold commands.diffAllCmd. munfold. cbn. apply forEach_diffAllEntry.
Qed.

(** *** Results *)

Lemma entryResults_app w sqlDir queryMap (l1 l2 : list DirEntry) :
  entryResults w sqlDir queryMap (l1 ++ l2)
  = entryResults w sqlDir queryMap l1 ++ entryResults w sqlDir queryMap l2.
Proof. unfold entryResults. apply omap_app. Qed.

Lemma entryResults_cons (w : W) sqlDir queryMap (e : DirEntry) entries :
  entryResults w sqlDir queryMap (e :: entries)
  = match queryFileID e with
    | Some id => entryResult w sqlDir queryMap e id
                 :: entryResults w sqlDir queryMap entries
    | None => entryResults w sqlDir queryMap entries
    end.
Proof. unfold entryResults. cbn. destruct (queryFileID e); reflexivity. Qed.

Lemma entryResults_length (w : W) sqlDir queryMap entries :
  (length (entryResults w sqlDir queryMap entries) <= length entries)%nat.
Proof.
  induction entries as [|e entries IH]; [cbn; lia|].
  rewrite entryResults_cons. destruct (queryFileID e); cbn; lia.
Qed.

Lemma tally_Results (r : diff.Result) summary :
  diff.Results (tally r summary) = diff.Results summary.
Proof.
  unfold tally.
  destruct (String.eqb (diff.Status r) "MATCH"); [reflexivity|].
  destruct (String.eqb (diff.Status r) "DIFFERENT"); [reflexivity|].
  destruct (String.eqb (diff.Status r) "MISSING_IN_REDASH"); reflexivity.
Qed.

Lemma fold_Results (w : W) sqlDir queryMap entries :
  forall summary,
    diff.Results (foldl (entryStep w sqlDir queryMap) summary entries)
    = diff.Results summary ++ entryResults w sqlDir queryMap entries.
Proof.
  induction entries as [|e entries IH]; intros summary; cbn [foldl].
  - cbn. rewrite app_nil_r. reflexivity.
  - rewrite IH, entryResults_cons. unfold entryStep.
    destruct (queryFileID e) as [id|]; cbn; [|reflexivity].
    rewrite tally_Results, <- app_assoc. reflexivity.
Qed.

(** *** Counters *)

Lemma countStatus_snoc (status : string) (rs : list diff.Result) (r : diff.Result) :
  countStatus status (rs ++ [r])
  = (countStatus status rs + if String.eqb (diff.Status r) status then 1 else 0)%Z.
Proof.
  unfold countStatus. rewrite filter_app, length_app, filter_cons, filter_nil.
  destruct (String.eqb_spec (diff.Status r) status) as [E|E].
  - rewrite decide_True by assumption. cbn. lia.
  - rewrite decide_False by assumption. cbn. lia.
Qed.

Lemma countStatus_bounds (status : string) (rs : list diff.Result) :
  (0 <= countStatus status rs <= Z.of_nat (length rs))%Z.
Proof.
  unfold countStatus. pose proof (length_filter (fun r => diff.Status r = status) rs).
  lia.
Qed.

(** An [int] below the largest one is incremented without wrapping. *)
Lemma incr_no_wrap (n : Z) :
  (0 <= n < strconv.maxInt)%Z -> commands.incr n = (n + 1)%Z.
Proof.
  unfold commands.incr, commands.wrapInt, strconv.maxInt. intros Hn.
  rewrite Z.mod_small by lia. lia.
Qed.

Lemma tally_counters (r : diff.Result) summary :
  countersAgree summary ->
  (Z.of_nat (length (diff.Results summary)) < strconv.maxInt)%Z ->
  countersAgree (commands.appendResult (tally r summary) r).
Proof.
  intros (Hm & Hd & Hi) Hlen.
  pose proof (countStatus_bounds "MATCH" (diff.Results summary)).
  pose proof (countStatus_bounds "DIFFERENT" (diff.Results summary)).
  pose proof (countStatus_bounds "MISSING_IN_REDASH" (diff.Results summary)).
  unfold countersAgree, tally.
  destruct (String.eqb_spec (diff.Status r) "MATCH") as [E1|E1];
    [|destruct (String.eqb_spec (diff.Status r) "DIFFERENT") as [E2|E2];
      [|destruct (String.eqb_spec (diff.Status r) "MISSING_IN_REDASH") as [E3|E3]]];
    cbn; rewrite !countStatus_snoc;
    repeat match goal with
      | |- context [String.eqb (diff.Status r) ?x] =>
          destruct (String.eqb_spec (diff.Status r) x); try congruence
      end;
    rewrite ?incr_no_wrap by lia; repeat split; lia.
Qed.

Lemma fold_counters (w : W) sqlDir queryMap entries :
  forall summary,
    countersAgree summary ->
    (Z.of_nat (length (diff.Results summary) + length entries) <= strconv.maxInt)%Z ->
    countersAgree (foldl (entryStep w sqlDir queryMap) summary entries).
Proof.
  induction entries as [|e entries IH]; intros summary Hc Hlen; cbn [foldl];
    [assumption|].
  cbn [length] in Hlen. apply IH.
  - unfold entryStep. destruct (queryFileID e) as [id|]; [|assumption].
    apply tally_counters; [assumption|lia].
  - unfold entryStep. destruct (queryFileID e) as [id|]; [|lia].
    cbn. rewrite tally_Results, length_app. cbn. lia.
Qed.

(** *** One entry *)

(** The two ways [CompareQueryWithLocal] ends. *)
Lemma compare_cases (w : W) (id : Z) (q : option redash.Query) (path : string) :
  let out := diff.CompareQueryWithLocal w id q path in
  diff.QueryID (fst out) = id /\ diff.LocalPath (fst out) = path
  /\ ((snd out = None /\ readableFile w path = true
       /\ diff.ErrorMessage (fst out) = ""
       /\ (diff.Status (fst out) = "MATCH" \/ diff.Status (fst out) = "DIFFERENT"
           \/ diff.Status (fst out) = "MISSING_IN_REDASH"))
      \/ (exists msg, snd out = Some msg /\ readableFile w path = false
                      /\ diff.Status (fst out) = "")).
Proof.
  unfold diff.CompareQueryWithLocal, readableFile.
  destruct (file.Exists w path); cbn;
    [destruct (file.IsFile w path); cbn;
       [destruct (os_ReadFile w path) as [content|err]; cbn|]|].
  - destruct q as [q|]; cbn.
    + destruct (String.eqb (TrimSpace content) (TrimSpace (redash.QueryText q)));
        cbn; auto 10.
    + auto 10.
  - destruct q; cbn; eauto 10.
  - eauto 10.
  - eauto 10.
Qed.

(** The result appended for an entry. *)
Lemma entryResult_cases (w : W) sqlDir queryMap (e : DirEntry) (id : Z) :
  let cmp := diff.CompareQueryWithLocal w id (queryMap !! id) (entryPath sqlDir e) in
  let r := entryResult w sqlDir queryMap e id in
  In (diff.Status r) statuses
  /\ diff.QueryID r = id /\ diff.LocalPath r = entryPath sqlDir e
  /\ (diff.Status r = "ERROR" <-> snd cmp <> None)
  /\ (snd cmp <> None <-> readableFile w (entryPath sqlDir e) = false)
  /\ (forall msg, snd cmp = Some msg ->
        r = diff.setErrorMessage (diff.setStatus (fst cmp) "ERROR") msg)
  /\ (snd cmp = None -> r = fst cmp).
Proof.
  intros cmp r. subst r. unfold entryResult. fold cmp.
  pose proof (compare_cases w id (queryMap !! id) (entryPath sqlDir e))
    as (Hid & Hpath & Hc). fold cmp in Hid, Hpath, Hc.
  destruct cmp as [r0 err]. cbn in *. unfold statuses.
  destruct Hc as [(-> & Hr & _ & Hst)|(msg & -> & Hr & Hst)]; cbn.
  - repeat split; try assumption; try congruence.
    + cbn. destruct Hst as [-> | [-> | ->]]; auto.
    + destruct Hst as [-> | [-> | ->]]; discriminate.
  - repeat split; try assumption; try congruence; cbn; auto.
Qed.

Lemma entryResults_statuses (w : W) sqlDir queryMap entries :
  Forall (fun r => In (diff.Status r) statuses) (entryResults w sqlDir queryMap entries).
Proof.
  induction entries as [|e entries IH]; [constructor|].
  rewrite entryResults_cons. destruct (queryFileID e) as [id|]; [|assumption].
  constructor; [|assumption]. apply entryResult_cases.
Qed.

(** Results of the four statuses are counted once each. *)
Lemma countStatus_partition (rs : list diff.Result) :
  Forall (fun r => In (diff.Status r) statuses) rs ->
  (countStatus "MATCH" rs + countStatus "DIFFERENT" rs
   + countStatus "MISSING_IN_REDASH" rs + countStatus "ERROR" rs
   = Z.of_nat (length rs))%Z.
Proof.
  induction 1 as [|r rs Hr _ IH]; [reflexivity|].
  unfold countStatus in *. rewrite !filter_cons. cbn [length].
  unfold statuses in Hr. cbn in Hr.
  destruct Hr as [E|[E|[E|[E|[]]]]]; rewrite <- E;
    repeat match goal with
      | |- context [decide (?a = ?b)] =>
          destruct (decide (a = b)); [try discriminate|try congruence]
      end; cbn [length]; lia.
Qed.

Lemma queryFiles_length (w : W) sqlDir queryMap entries :
  length (entryResults w sqlDir queryMap entries) = length (queryFiles entries).
Proof.
  unfold queryFiles. induction entries as [|e entries IH]; [reflexivity|].
  rewrite entryResults_cons, filter_cons.
  destruct (queryFileID e) as [id|] eqn:E.
  - rewrite decide_True by eauto. cbn. rewrite IH. reflexivity.
  - rewrite decide_False by (intros [x Hx]; discriminate). assumption.
Qed.

(** *** The summary *)

(** C3. In the summary of the bulk diff each counter is the number of
    results of its status (MATCH, DIFFERENT, MISSING_IN_REDASH), so a
    result counts once and for one counter only, and an ERROR result for
    none: the three counters and the number of ERROR results add up to the
    number of results, which is at most the number of entries. *)
Theorem diffAllCmd_counters (sqlDir : string) (queries : list redash.Query)
    entries (s : State W) :
  (Z.of_nat (length entries) <= strconv.maxInt)%Z ->
  let summary := fst (commands.diffAllCmd sqlDir queries entries s) in
  let results := diff.Results summary in
  diff.Matches summary = countStatus "MATCH" results
  /\ diff.Differences_ summary = countStatus "DIFFERENT" results
  /\ diff.MissingInRedash summary = countStatus "MISSING_IN_REDASH" results
  /\ (diff.Matches summary + diff.Differences_ summary + diff.MissingInRedash summary
      + countStatus "ERROR" results = Z.of_nat (length results))%Z
  /\ (length results <= length entries)%nat
  /\ (diff.Matches summary + diff.Differences_ summary + diff.MissingInRedash summary
      <= Z.of_nat (length entries))%Z.
Proof.
  intros Hlen summary results. subst results summary.
  rewrite diffAllCmd_fold.
  set (w := world s). set (queryMap := commands.buildQueryMap queries).
  set (summary0 := emptySummary (CurrentProfile s) sqlDir).
  pose proof (fold_counters w sqlDir queryMap entries summary0) as Hc.
  pose proof (fold_Results w sqlDir queryMap entries summary0) as Hr.
  pose proof (entryResults_length w sqlDir queryMap entries) as Hl.
  pose proof (entryResults_statuses w sqlDir queryMap entries) as Hs.
  apply countStatus_partition in Hs.
  pose proof (countStatus_bounds "ERROR" (entryResults w sqlDir queryMap entries)).
  cbn [diff.Results summary0 emptySummary app] in Hr.
  destruct Hc as (Hm & Hd & Hi);
    [repeat split; reflexivity | cbn; lia |].
  rewrite Hr in *. rewrite Hm, Hd, Hi. repeat split; try lia.
Qed.

(** C4. The results of the bulk diff are the results of the entries that
    stand for a query, in the order of the listing: the entries that are no
    directory and whose name is an integer, as [Atoi] reads it, followed by
    [.sql]. Any other entry can be taken out of the listing without
    changing the summary. *)
Theorem diffAllCmd_query_files (sqlDir : string) (queries : list redash.Query)
    entries (s : State W) :
  let summary := fst (commands.diffAllCmd sqlDir queries entries s) in
  diff.Results summary
  = entryResults (world s) sqlDir (commands.buildQueryMap queries) entries
  /\ length (diff.Results summary) = length (queryFiles entries)
  /\ (forall e id,
        queryFileID e = Some id
        <-> entryIsDir e = false
            /\ exists idStr, entryName e = idStr +:+ ".sql"
                             /\ strconv.Atoi idStr = Some id)
  /\ (forall pre e post,
        entries = pre ++ e :: post -> queryFileID e = None ->
        summary = fst (commands.diffAllCmd sqlDir queries (pre ++ post) s)).
Proof.
  intros summary. subst summary. rewrite diffAllCmd_fold.
  assert (Hr : diff.Results
                 (foldl (entryStep (world s) sqlDir (commands.buildQueryMap queries))
                    (emptySummary (CurrentProfile s) sqlDir) entries)
               = entryResults (world s) sqlDir (commands.buildQueryMap queries) entries)
    by (rewrite fold_Results; reflexivity).
  split; [exact Hr|]. split; [rewrite Hr; apply queryFiles_length|].
  split; [apply queryFileID_spec|].
  intros pre e post -> Hnone. rewrite diffAllCmd_fold, !foldl_app. cbn [foldl].
  unfold entryStep at 2. rewrite Hnone. reflexivity.
Qed.

(** C10. Every result of the bulk diff has one of the four statuses. The
    result of an entry has the status ERROR exactly when the comparison of
    the entry returned an error, which it does exactly when the local path
    is no existing regular file that can be read; the result then is the
    one the comparison returned, with the query ID and the local path, the
    status ERROR and the text of the error as its message. The entries
    before and after it have their results all the same. *)
Theorem diffAllCmd_error_results (sqlDir : string) (queries : list redash.Query)
    entries (s : State W) :
  let w := world s in
  let queryMap := commands.buildQueryMap queries in
  let results := diff.Results (fst (commands.diffAllCmd sqlDir queries entries s)) in
  Forall (fun r => In (diff.Status r) statuses) results
  /\ forall pre e post id,
       entries = pre ++ e :: post -> queryFileID e = Some id ->
       let cmp := diff.CompareQueryWithLocal w id (queryMap !! id) (entryPath sqlDir e) in
       let r := entryResult w sqlDir queryMap e id in
       results = entryResults w sqlDir queryMap pre ++ r
                 :: entryResults w sqlDir queryMap post
       /\ (diff.Status r = "ERROR" <-> snd cmp <> None)
       /\ (snd cmp <> None <-> readableFile w (entryPath sqlDir e) = false)
       /\ (forall msg, snd cmp = Some msg ->
             diff.QueryID r = id /\ diff.LocalPath r = entryPath sqlDir e
             /\ diff.Status r = "ERROR" /\ diff.ErrorMessage r = msg).
Proof.
  intros w queryMap results.
  assert (Hr : results = entryResults w sqlDir queryMap entries).
  { subst results. rewrite diffAllCmd_fold, fold_Results. reflexivity. }
  split; [rewrite Hr; apply entryResults_statuses|].
  intros pre e post id -> Hid cmp r.
  pose proof (entryResult_cases w sqlDir queryMap e id)
    as (_ & Hq & Hp & He & Hf & Hm & _).
  fold cmp in He, Hf, Hm. fold r in Hq, Hp, He, Hm.
  split; [|split; [exact He|split; [exact Hf|]]].
  - rewrite Hr, entryResults_app, entryResults_cons, Hid. reflexivity.
  - intros msg Hmsg. repeat split; try assumption.
    + apply He. congruence.
    + rewrite (Hm msg Hmsg). reflexivity.
Qed.

End Bulk.

Lemma diffAllCmd_counters_witness :
  (Z.of_nat (length listingDir) <= strconv.maxInt)%Z
  /\ let summary := fst (commands.diffAllCmd "sql" queriesDir listingDir
                           (MemOS.start worldDir)) in
     diff.Matches summary = countStatus "MATCH" (diff.Results summary)
     /\ (diff.Matches summary, diff.Differences_ summary,
         diff.MissingInRedash summary, length (diff.Results summary))
        = (1%Z, 1%Z, 0%Z, 3%nat).
Proof.
  split; [vm_compute; discriminate|].
  split; [|vm_compute; reflexivity].
  apply (diffAllCmd_counters "sql" queriesDir listingDir (MemOS.start worldDir)).
  vm_compute; discriminate.
Defined.

Lemma diffAllCmd_query_files_witness :
  queryFileID (entry "abc.sql") = None
  /\ queryFileID (entry "3.sql") = Some 3%Z
  /\ fst (commands.diffAllCmd "sql" queriesDir ([entry "3.sql"] ++ entry "abc.sql" :: [])
            (MemOS.start worldDir))
     = fst (commands.diffAllCmd "sql" queriesDir ([entry "3.sql"] ++ [])
              (MemOS.start worldDir)).
Proof.
  split; [vm_compute; reflexivity|]. split; [vm_compute; reflexivity|].
  apply (proj2 (proj2 (proj2
           (diffAllCmd_query_files "sql" queriesDir
              ([entry "3.sql"] ++ entry "abc.sql" :: []) (MemOS.start worldDir))))
           [entry "3.sql"] (entry "abc.sql") []);
    vm_compute; reflexivity.
Defined.

Lemma diffAllCmd_error_witness :
  queryFileID (entry "7.sql") = Some 7%Z
  /\ diff.Results (fst (commands.diffAllCmd "sql" queriesDir listingDir
                          (MemOS.start worldDir)))
     = entryResults worldDir "sql" (commands.buildQueryMap queriesDir)
         [entry "3.sql"; entry "abc.sql"]
       ++ {| diff.QueryID := 7; diff.QueryName := ""; diff.Status := "ERROR";
             diff.ErrorMessage := "local SQL file does not exist: sql/7.sql";
             diff.LocalPath := "sql/7.sql"; diff.Differences := "" |}
       :: entryResults worldDir "sql" (commands.buildQueryMap queriesDir)
            [entry "5.sql"; {| entryName := "9.sql"; entryIsDir := true |}].
Proof.
  split; [vm_compute; reflexivity|].
  refine (eq_trans
            (proj1 (proj2 (diffAllCmd_error_results "sql" queriesDir listingDir
                             (MemOS.start worldDir))
                      [entry "3.sql"; entry "abc.sql"] (entry "7.sql")
                      [entry "5.sql"; {| entryName := "9.sql"; entryIsDir := true |}]
                      7%Z _ _)) _);
    vm_compute; reflexivity.
Defined.

(** ** The scenarios of the specification *)

(** Local [5.sql] holds [SELECT 1] and the remote query 5 the same text
    between spaces: MATCH. *)
Example scenario_padded_remote :
  diff.CompareQueryWithLocal world5 5 (Some query5) "5.sql"
  = ({| diff.QueryID := 5; diff.QueryName := "five"; diff.Status := "MATCH";
        diff.ErrorMessage := ""; diff.LocalPath := "5.sql"; diff.Differences := "" |},
     None).
Proof. vm_compute. reflexivity. Qed.

(** Local [5.sql] exists and no remote query has its ID: MISSING_IN_REDASH. *)
Example scenario_absent_remote :
  diff.Results (fst (commands.diffAllCmd "sql" [] [entry "5.sql"] (MemOS.start worldDir)))
  = [{| diff.QueryID := 5; diff.QueryName := ""; diff.Status := "MISSING_IN_REDASH";
        diff.ErrorMessage := ""; diff.LocalPath := "sql/5.sql"; diff.Differences := "" |}].
Proof. vm_compute. reflexivity. Qed.

(** The directory holds [3.sql] and [abc.sql]: only [3.sql] has a result. *)
Example scenario_skipped_name :
  fst (commands.diffAllCmd "sql" queriesDir [entry "3.sql"; entry "abc.sql"]
         (MemOS.start worldDir))
  = {| diff.Profile := ""; diff.SQLDirectory := "sql"; diff.Matches := 1;
       diff.Differences_ := 0; diff.MissingInRedash := 0;
       diff.Results :=
         [{| diff.QueryID := 3; diff.QueryName := "three"; diff.Status := "MATCH";
             diff.ErrorMessage := ""; diff.LocalPath := "sql/3.sql";
             diff.Differences := "" |}] |}.
Proof. vm_compute. reflexivity. Qed.

(** What [Atoi] reads and what it refuses. *)
Example Atoi_examples :
  map strconv.Atoi ["3"; "007"; "+7"; "-12"; "abc"; ""; "1_0"; "3 "; "-";
                    "9223372036854775807"; "9223372036854775808"]
  = [Some 3%Z; Some 7%Z; Some 7%Z; Some (-12)%Z; None; None; None; None; None;
     Some 9223372036854775807%Z; None].
Proof. vm_compute. reflexivity. Qed.

(** The shapes of some lines. *)
Example lineKind_examples :
  map lineKind ["# note"; "   "; "[default]"; "[ default ]"; "[profile stg]";
                "[staging]"; "[profile]"; " [default]"; "api_key = K";
                "redash_url = https://x/api?a=b"; "timeout"]
  = [CommentOrBlank; CommentOrBlank; SectionHeader "default"; SectionHeader "default";
     SectionHeader "stg"; InvalidHeader; InvalidHeader; NoEquals;
     Setting "api_key" "K"; Setting "redash_url" "https://x/api?a=b"; NoEquals].
Proof. vm_compute. reflexivity. Qed.

(** [TrimSpace] on ASCII and on encoded Unicode white space (here U+00A0
    before and U+3000 after the text). *)
Example TrimSpace_examples :
  TrimSpace (String (ascii_of_N 9) (String (ascii_of_N 194) (String (ascii_of_N 160)
               ("SELECT 1" +:+ String (ascii_of_N 227) (String (ascii_of_N 128)
                                (String (ascii_of_N 128) (String (ascii_of_N 10) "")))))))
  = "SELECT 1"
  /\ TrimSpace (String (ascii_of_N 160) "x") = String (ascii_of_N 160) "x".
Proof. split; vm_compute; reflexivity. Qed.

(** * More properties *)

(** ** File names and query IDs *)

Section FileNames.

Lemma digit_digitChar (d : Z) :
  (0 <= d <= 9)%Z -> strconv.digit (gofmt.digitChar d) = Some d.
Proof.
  intros Hd. unfold strconv.digit, gofmt.digitChar, code.
  rewrite N_ascii_embedding by lia.
  replace ((48 <=? Z.to_N (48 + d)) && (Z.to_N (48 + d) <=? 57))%N with true.
  - f_equal. lia.
  - symmetry. apply andb_true_iff. split; apply N.leb_le; lia.
Qed.

(** Reading the digits [utoa] writes gives the number back. *)
Lemma digits_utoa (fuel : nat) :
  forall n acc, (0 <= n < 10 ^ Z.of_nat fuel)%Z -> (0 < fuel)%nat ->
    strconv.digits (gofmt.utoa fuel n acc) 0 = strconv.digits acc n.
Proof.
  induction fuel as [|fuel IH]; intros n acc Hn Hf; [lia|].
  cbn [gofmt.utoa].
  assert (Hm : (0 <= n mod 10 <= 9)%Z) by (pose proof (Z.mod_pos_bound n 10); lia).
  destruct (Z.ltb_spec n 10) as [Hlt|Hge].
  - cbn [strconv.digits]. rewrite digit_digitChar by assumption.
    rewrite Z.mod_small by lia. reflexivity.
  - assert (Hfuel : (0 < fuel)%nat).
    { destruct fuel; [|lia]. cbn in Hn. lia. }
    rewrite IH; [|split|assumption].
    + cbn [strconv.digits]. rewrite digit_digitChar by assumption.
      f_equal. pose proof (Z.div_mod n 10). lia.
    + apply Z.div_pos; lia.
    + apply Z.div_lt_upper_bound; [lia|].
      rewrite Nat2Z.inj_succ, Z.pow_succ_r in Hn by lia. lia.
Qed.

(** What [utoa] writes starts with a digit. *)
Lemma utoa_head (fuel : nat) :
  forall n acc, (0 <= n)%Z ->
    exists d r, (0 <= d <= 9)%Z
                /\ gofmt.utoa (S fuel) n acc = String (gofmt.digitChar d) r.
Proof.
  induction fuel as [|fuel IH]; intros n acc Hn.
  - cbn. exists (n mod 10)%Z. pose proof (Z.mod_pos_bound n 10).
    destruct (n <? 10)%Z; eexists; (split; [lia | reflexivity]).
  - cbn [gofmt.utoa]. destruct (Z.ltb_spec n 10) as [Hlt|Hge].
    + exists (n mod 10)%Z. pose proof (Z.mod_pos_bound n 10).
      eexists; (split; [lia | reflexivity]).
    + apply (IH (n / 10)%Z). apply Z.div_pos; lia.
Qed.

Lemma Atoi_digit_head (d : Z) (r : string) :
  (0 <= d <= 9)%Z ->
  strconv.Atoi (String (gofmt.digitChar d) r)
  = match strconv.digits (String (gofmt.digitChar d) r) 0 with
    | Some n => if ((strconv.minInt <=? n) && (n <=? strconv.maxInt))%Z
                then Some n else None
    | None => None
    end.
Proof.
  intros Hd.
  assert (Hc : (d = 0 \/ d = 1 \/ d = 2 \/ d = 3 \/ d = 4 \/ d = 5 \/ d = 6
                \/ d = 7 \/ d = 8 \/ d = 9)%Z) by lia.
  repeat (destruct Hc as [-> | Hc]); try subst d; reflexivity.
Qed.

(** The text [%d] prints for an [int] is read back by [Atoi] as the same
    number. *)
Lemma Atoi_Sprintd (id : Z) :
  (strconv.minInt <= id <= strconv.maxInt)%Z ->
  strconv.Atoi (gofmt.Sprintd id) = Some id.
Proof.
  unfold strconv.minInt, strconv.maxInt. intros Hid. unfold gofmt.Sprintd.
  assert (Hpow : (2 ^ 63 < 10 ^ Z.of_nat 20)%Z) by (vm_compute; reflexivity).
  destruct (Z.ltb_spec id 0) as [Hneg|Hpos].
  - destruct (utoa_head 19 (- id) "") as (d & r & Hd & Hu); [lia|].
    pose proof (digits_utoa 20 (- id) "") as Hdig.
    unfold strconv.Atoi. rewrite Hu in *. rewrite Hdig by lia. cbn [strconv.digits].
    replace ((strconv.minInt <=? - - id) && (- - id <=? strconv.maxInt))%Z with true.
    + f_equal. lia.
    + symmetry. unfold strconv.minInt, strconv.maxInt.
      apply andb_true_iff. split; apply Z.leb_le; lia.
  - destruct (utoa_head 19 id "") as (d & r & Hd & Hu); [lia|].
    pose proof (digits_utoa 20 id "") as Hdig.
    rewrite Hu in *. rewrite Atoi_digit_head by assumption.
    rewrite Hdig by lia. cbn [strconv.digits].
    replace ((strconv.minInt <=? id) && (id <=? strconv.maxInt))%Z with true;
      [reflexivity|].
    symmetry. unfold strconv.minInt, strconv.maxInt.
    apply andb_true_iff. split; apply Z.leb_le; lia.
Qed.

(** X1. A file named after a query ID as [get], [dump] and [diff query]
    name it ([%d.sql]) is read by [diff all] as the file of that ID. *)
Theorem queryFileName_roundtrip (id : Z) :
  (strconv.minInt <= id <= strconv.maxInt)%Z ->
  strconv.Atoi (TrimSuffix (queryFileName id) ".sql") = Some id
  /\ queryFileID {| entryName := queryFileName id; entryIsDir := false |} = Some id.
Proof.
  intros Hid. unfold queryFileName. rewrite TrimSuffix_app. split.
  - apply Atoi_Sprintd. assumption.
  - apply queryFileID_spec. cbn. split; [reflexivity|].
    exists (gofmt.Sprintd id). split; [reflexivity|]. apply Atoi_Sprintd. assumption.
Qed.

End FileNames.

Lemma queryFileName_witness :
  (strconv.minInt <= -42 <= strconv.maxInt)%Z
  /\ queryFileName (-42) = "-42.sql"
  /\ queryFileID {| entryName := queryFileName (-42); entryIsDir := false |}
     = Some (-42)%Z.
Proof.
  split; [vm_compute; split; discriminate|]. split; [vm_compute; reflexivity|].
  apply (queryFileName_roundtrip (-42)). vm_compute; split; discriminate.
Defined.

(** ** The map of the remote queries *)

Section QueryMap.

Context {W : Type} `{!OS W} `{!DiffMatchPatch}.

Lemma buildQueryMap_snoc (qs : list redash.Query) (q : redash.Query) :
  commands.buildQueryMap (qs ++ [q])
  = <[redash.ID q := q]> (commands.buildQueryMap qs).
Proof. unfold commands.buildQueryMap. rewrite foldl_app. reflexivity. Qed.

(** An ID has no entry in the map exactly when no listed query has it. *)
Lemma buildQueryMap_None (qs : list redash.Query) (id : Z) :
  commands.buildQueryMap qs !! id = None <-> ~ In id (map redash.ID qs).
Proof.
  induction qs as [|q qs IH] using rev_ind.
  - cbn. split; [tauto | intros _; apply lookup_empty].
  - rewrite buildQueryMap_snoc, map_app, in_app_iff. cbn.
    destruct (decide (redash.ID q = id)) as [E|E].
    + rewrite E, lookup_insert_eq. split; [discriminate | tauto].
    + rewrite lookup_insert_ne by assumption. rewrite IH. tauto.
Qed.

(** The entry of an ID is the last listed query that has it. *)
Lemma buildQueryMap_last (pre post : list redash.Query) (q : redash.Query) :
  ~ In (redash.ID q) (map redash.ID post) ->
  commands.buildQueryMap (pre ++ q :: post) !! redash.ID q = Some q.
Proof.
  induction post as [|p post IH] using rev_ind; intros Hn.
  - rewrite buildQueryMap_snoc. apply lookup_insert_eq.
  - rewrite map_app, in_app_iff in Hn. cbn in Hn.
    replace (pre ++ q :: post ++ [p]) with ((pre ++ q :: post) ++ [p])
      by (rewrite <- app_assoc; reflexivity).
    rewrite buildQueryMap_snoc, lookup_insert_ne by tauto. apply IH. tauto.
Qed.

Lemma readableFile_inv (w : W) (path : string) :
  readableFile w path = true ->
  file.Exists w path = true /\ file.IsFile w path = true
  /\ exists L, os_ReadFile w path = Ok L.
Proof.
  unfold readableFile. intros Hr.
  apply andb_true_iff in Hr. destruct Hr as [Hr Hread].
  apply andb_true_iff in Hr. destruct Hr as [Hex Hfile].
  repeat split; try assumption.
  destruct (os_ReadFile w path) as [L|e]; [eauto | discriminate].
Qed.

(** X2. In the bulk diff, a readable local file of a query ID has the
    status MISSING_IN_REDASH exactly when no listed remote query has that
    ID; when several listed queries have it, the file is compared with the
    last of them. *)
Theorem diffAll_missing_iff_unlisted (w : W) (sqlDir : string)
    (queries : list redash.Query) (e : DirEntry) (id : Z) :
  readableFile w (entryPath sqlDir e) = true ->
  let r := entryResult w sqlDir (commands.buildQueryMap queries) e id in
  (diff.Status r = "MISSING_IN_REDASH" <-> ~ In id (map redash.ID queries))
  /\ (forall pre q post,
        queries = pre ++ q :: post -> redash.ID q = id ->
        ~ In id (map redash.ID post) ->
        r = fst (diff.CompareQueryWithLocal w id (Some q) (entryPath sqlDir e))
        /\ diff.QueryName r = redash.Name q).
Proof.
  intros Hr r. destruct (readableFile_inv _ _ Hr) as (Hex & Hfile & L & Hread).
  subst r. unfold entryResult. split.
  - destruct (commands.buildQueryMap queries !! id) as [q|] eqn:Eq.
    + rewrite (compare_present_readable w id q _ L Hex Hfile Hread).
      assert (Hin : In id (map redash.ID queries)).
      { destruct (in_dec Z.eq_dec id (map redash.ID queries)) as [Hi|Hi];
          [assumption|]. apply buildQueryMap_None in Hi. congruence. }
      destruct (String.eqb (TrimSpace L) (TrimSpace (redash.QueryText q))); cbn;
        split; intros Hs; try discriminate; contradiction.
    + apply buildQueryMap_None in Eq.
      unfold diff.CompareQueryWithLocal. rewrite Hex, Hfile, Hread. cbn. tauto.
  - intros pre q post -> Hid Hlast. subst id.
    rewrite (buildQueryMap_last pre post q Hlast).
    rewrite (compare_present_readable w (redash.ID q) q _ L Hex Hfile Hread).
    destruct (String.eqb (TrimSpace L) (TrimSpace (redash.QueryText q))); cbn; auto.
Qed.

End QueryMap.

Lemma diffAll_missing_witness :
  readableFile worldDir (entryPath "sql" (entry "5.sql")) = true
  /\ diff.Status (entryResult worldDir "sql" (commands.buildQueryMap []) (entry "5.sql") 5)
     = "MISSING_IN_REDASH".
Proof.
  split; [vm_compute; reflexivity|].
  apply (diffAll_missing_iff_unlisted worldDir "sql" [] (entry "5.sql") 5).
  - vm_compute; reflexivity.
  - cbn. tauto.
Defined.

(** ** Errors of the comparison *)

Section CompareErrors.

Context {W : Type} `{!OS W} `{!DiffMatchPatch}.

(** X3. [CompareQueryWithLocal] reports that the local file does not exist
    for every path that is no regular file, a directory included, and
    returns the result it started from; it reports a read failure for a
    regular file that cannot be read, with the name of the remote query
    already in the result but no status. Whether it returns an error does
    not depend on the remote query. *)
Theorem compare_errors (w : W) (id : Z) (q : option redash.Query) (path : string) :
  let out := diff.CompareQueryWithLocal w id q path in
  (file.IsFile w path = false ->
     out = (freshResult id path, Some ("local SQL file does not exist: " +:+ path)))
  /\ (file.IsDirectory w path = true -> file.IsFile w path = false)
  /\ (forall e, file.IsFile w path = true -> os_ReadFile w path = Err e ->
        snd out = Some ("failed to read local file: " +:+ e)
        /\ diff.Status (fst out) = ""
        /\ diff.QueryName (fst out) = default "" (redash.Name <$> q))
  /\ (forall q', snd (diff.CompareQueryWithLocal w id q' path) = None
                 <-> snd out = None).
Proof.
  unfold diff.CompareQueryWithLocal, file.IsFile, file.IsDirectory, file.Exists,
    freshResult.
  destruct (os_Stat w path) as [[|]|e|e]; cbn;
    repeat split; intros; try discriminate; try reflexivity;
    repeat match goal with
      | Hx : os_ReadFile w path = _ |- _ => rewrite Hx; clear Hx
      | |- context [os_ReadFile w path] => destruct (os_ReadFile w path)
      | |- context [match ?x with Some _ => _ | None => _ end] => destruct x
      | |- context [if ?x then _ else _] => destruct x
      end; cbn in *; try reflexivity; try discriminate; try assumption.
Qed.

End CompareErrors.

Lemma compare_errors_witness :
  file.IsFile (MemOS.withFiles MemOS.world0 (<["sql" := MemOS.Dir]> ∅)) "sql" = false
  /\ diff.CompareQueryWithLocal
       (MemOS.withFiles MemOS.world0 (<["sql" := MemOS.Dir]> ∅)) 5 (Some query5) "sql"
     = (freshResult 5 "sql", Some "local SQL file does not exist: sql").
Proof.
  split; [vm_compute; reflexivity|].
  apply (compare_errors (MemOS.withFiles MemOS.world0 (<["sql" := MemOS.Dir]> ∅))
           5 (Some query5) "sql").
  vm_compute; reflexivity.
Defined.

(** ** The config file on disk *)

Section ConfigFile.

Context {W : Type} `{!OS W}.

Lemma bind_apply {A B : Type} (m : M W A) (k : A -> M W B) (s : State W) :
  bind m k s = k (fst (m s)) (snd (m s)).
Proof. unfold bind. destruct (m s). reflexivity. Qed.

(** [file.WriteFile] reads and changes the world only. *)
Lemma WriteFile_world (path data : string) (s : State W) :
  file.WriteFile path data s
  = (snd (writeWorld (world s) path data),
     withWorld s (fst (writeWorld (world s) path data))).
Proof.
  unfold writeWorld, file.WriteFile, file.EnsureDirectory, withWorld. munfold. cbn.
  destruct s as [w l o c]. cbn.
  destruct (os_Stat w (filepath_Dir path)) as [d|e|e]; cbn;
    try (destruct (os_WriteFile w path data) as [w' e']; reflexivity).
  destruct (os_MkdirAll w (filepath_Dir path)) as [w1 [e1|]]; cbn; [reflexivity|].
  destruct (os_WriteFile w1 path data) as [w' e']; reflexivity.
Qed.

Lemma moreOutput_refl (s : State W) : moreOutput s s.
Proof. exists []. symmetry. apply app_nil_r. Qed.

Lemma moreOutput_trans (s1 s2 s3 : State W) :
  moreOutput s1 s2 -> moreOutput s2 s3 -> moreOutput s1 s3.
Proof.
  intros [r1 E1] [r2 E2]. exists (r1 ++ r2). rewrite E2, E1, app_assoc. reflexivity.
Qed.

Lemma sameWorld_refl (s : State W) : sameWorld s s.
Proof. split; [reflexivity | apply moreOutput_refl]. Qed.

Lemma sameWorld_trans (s1 s2 s3 : State W) :
  sameWorld s1 s2 -> sameWorld s2 s3 -> sameWorld s1 s3.
Proof.
  intros [E1 O1] [E2 O2]. split; [congruence | exact (moreOutput_trans _ _ _ O1 O2)].
Qed.

(** The steps of a computation take nothing back from the output. *)
Lemma appends_ret {A : Type} (a : A) : appends (ret (W := W) a).
Proof. intros s. apply moreOutput_refl. Qed.

Lemma appends_gets {A : Type} (f : State W -> A) : appends (gets f).
Proof. intros s. apply moreOutput_refl. Qed.

Lemma appends_setWorld (w : W) : appends (setWorld w).
Proof. intros s. exists []. cbn. rewrite app_nil_r. reflexivity. Qed.

Lemma appends_setCurrentProfile (p : string) : appends (setCurrentProfile (W := W) p).
Proof. intros s. exists []. cbn. rewrite app_nil_r. reflexivity. Qed.

Lemma appends_Print (text : string) : appends (fmt.Print (W := W) text).
Proof. intros s. exists [text]. reflexivity. Qed.

Lemma appends_emit (lvl : Level) (msg : string) (args : list (string * LogValue)) :
  appends (logger.emit (W := W) lvl msg args).
Proof. intros s. eexists. reflexivity. Qed.

Lemma appends_bind {A B : Type} (m : M W A) (k : A -> M W B) :
  appends m -> (forall a, appends (k a)) -> appends (bind m k).
Proof.
  intros Hm Hk s. rewrite bind_apply.
  exact (moreOutput_trans _ _ _ (Hm s) (Hk (fst (m s)) (snd (m s)))).
Qed.

Lemma appends_forEach {A B : Type} (body : A -> B -> M W B) (xs : list A) :
  (forall a b, appends (body a b)) -> forall b, appends (forEach body xs b).
Proof.
  intros Hb. induction xs as [|x xs IH]; intros b; [apply appends_ret|].
  cbn [forEach]. apply appends_bind; [apply Hb | exact IH].
Qed.

Lemma appends_WriteFile (path data : string) : appends (file.WriteFile (W := W) path data).
Proof.
  intros s. rewrite WriteFile_world. exists []. cbn. rewrite app_nil_r. reflexivity.
Qed.

Lemma appends_loadLine (line : string) (st : gmap string redash.ProfileConfig * string) :
  appends (redash.loadLine (W := W) line st).
Proof.
  unfold redash.loadLine, logger.Debug, logger.Info, logger.Warn, logger.Error.
  destruct st as [profiles cur]. cbv zeta.
  repeat first
    [ apply appends_ret | apply appends_gets | apply appends_emit
    | apply appends_bind; [|intros ?]
    | by_cases ].
Qed.

Lemma appends_EnsureConfigFile (configPath : string) :
  appends (redash.EnsureConfigFile (W := W) configPath).
Proof.
  unfold redash.EnsureConfigFile, logger.Debug, logger.Info, logger.Warn, logger.Error.
  repeat first
    [ apply appends_ret | apply appends_gets | apply appends_emit | apply appends_Print
    | apply appends_WriteFile
    | apply appends_bind; [|intros ?]
    | by_cases ].
Qed.

Lemma appends_LoadConfig (configPath : string) :
  appends (redash.LoadConfig (W := W) configPath).
Proof.
  unfold redash.LoadConfig, logger.Debug, logger.Info, logger.Warn, logger.Error.
  repeat first
    [ apply appends_ret | apply appends_gets | apply appends_emit
    | apply appends_EnsureConfigFile
    | apply appends_forEach; intros; apply appends_loadLine
    | apply appends_bind; [|intros ?]
    | by_cases ].
Qed.

Lemma appends_GetProfileConfig (config : redash.Config) (profileName : string) :
  appends (redash.GetProfileConfig (W := W) config profileName).
Proof.
  unfold redash.GetProfileConfig, logger.Debug, logger.Info, logger.Warn, logger.Error.
  repeat first
    [ apply appends_ret | apply appends_gets | apply appends_emit
    | apply appends_setCurrentProfile
    | apply appends_bind; [|intros ?]
    | by_cases ].
Qed.

Lemma appends_ValidateProfileConfig (pc : redash.ProfileConfig) :
  appends (redash.ValidateProfileConfig (W := W) pc).
Proof.
  unfold redash.ValidateProfileConfig, logger.Debug, logger.Info, logger.Warn,
    logger.Error.
  repeat first
    [ apply appends_ret | apply appends_gets | apply appends_emit
    | apply appends_bind; [|intros ?]
    | by_cases ].
Qed.

Lemma appends_NewClientWithProfile (profileName : string) :
  appends (redash.NewClientWithProfile (W := W) profileName).
Proof.
  unfold redash.NewClientWithProfile, logger.Debug, logger.Info, logger.Warn,
    logger.Error.
  repeat first
    [ apply appends_ret | apply appends_gets | apply appends_emit
    | apply appends_LoadConfig | apply appends_GetProfileConfig
    | apply appends_ValidateProfileConfig
    | apply appends_bind; [|intros ?]
    | by_cases ].
Qed.

Lemma appends_GetProfileSQLDir (profileName : string) :
  appends (redash.GetProfileSQLDir (W := W) profileName).
Proof.
  unfold redash.GetProfileSQLDir, logger.Debug, logger.Info, logger.Warn,
    logger.Error.
  repeat first
    [ apply appends_ret | apply appends_gets | apply appends_emit
    | apply appends_LoadConfig | apply appends_GetProfileConfig
    | apply appends_bind; [|intros ?]
    | by_cases ].
Qed.

(** After [EnsureConfigFile], [LoadConfig] only reads and logs. *)
Lemma LoadConfig_after_ensure (configPath : string) (s : State W) :
  let s0 := snd (logger.Debug "Loading configuration" [("path", VStr configPath)] s) in
  let ensured := redash.EnsureConfigFile configPath s0 in
  sameWorld (snd ensured) (snd (redash.LoadConfig configPath s))
  /\ match fst ensured with
     | Some err => fst (redash.LoadConfig configPath s) = Err err
     | None =>
         match os_Open (world (snd ensured)) configPath with
         | Ok (data, None) =>
             fst (redash.LoadConfig configPath s)
             = if forallb fitsBuffer (bufio.rawLines data)
               then Ok {| redash.Profiles :=
                            parsedProfiles (map bufio.dropCR (bufio.rawLines data)) |}
               else Err bufio.ErrTooLong
         | Ok (data, Some e) =>
             exists err, fst (redash.LoadConfig configPath s) = Err err
         | Err err => fst (redash.LoadConfig configPath s) = Err err
         end
     end.
Proof.
  intros s0 ensured. subst ensured s0. unfold redash.LoadConfig.
  rewrite !bind_apply.
  set (s0 := snd (logger.Debug "Loading configuration" [("path", VStr configPath)] s)).
  destruct (redash.EnsureConfigFile configPath s0) as [[e0|] s1]; cbn [fst snd];
    [split; [apply sameWorld_refl | reflexivity]|].
  rewrite !bind_apply. cbn [gets fst snd].
  destruct (os_Open (world s1) configPath) as [[data readErr]|e1]; cbn [fst snd];
    [|split; [same_world | reflexivity]].
  unfold bufio.Scan.
  destruct (forallb fitsBuffer (bufio.rawLines data)) eqn:Ef.
  - rewrite (tokens_fit _ Ef). rewrite !bind_apply.
    match goal with
    | |- context [forEach redash.loadLine ?ls ?st ?s0] =>
        pose proof (forEach_loadLine_state ls st s0) as Hst;
        pose proof (forEach_loadLine_world ls st s0) as Hw;
        pose proof (appends_forEach redash.loadLine ls appends_loadLine st s0) as Ho;
        destruct (forEach redash.loadLine ls st s0) as [st1 s2]
    end.
    cbn [fst snd] in Hst, Hw, Ho.
    destruct readErr as [e2|]; cbn [fst snd logger.Error logger.Info logger.emit ret
                                    bind gets world];
      destruct (os_Close (world s2) configPath); cbn; rewrite ?Hst;
      (split; [split; [exact Hw | refine (moreOutput_trans _ _ _ Ho _); more_output]
              | eauto]).
  - pose proof (tokens_too_long _ Ef) as Ht.
    destruct (bufio.tokens (bufio.rawLines data)) as [ts e2]. cbn in Ht. subst e2.
    rewrite !bind_apply.
    match goal with
    | |- context [forEach redash.loadLine ?ls ?st ?s0] =>
        pose proof (forEach_loadLine_world ls st s0) as Hw;
        pose proof (appends_forEach redash.loadLine ls appends_loadLine st s0) as Ho;
        destruct (forEach redash.loadLine ls st s0) as [st1 s2]
    end.
    cbn [fst snd] in Hw, Ho.
    destruct readErr as [e2|]; cbn [fst snd logger.Error logger.Info logger.emit ret
                                    bind gets world];
      destruct (os_Close (world s2) configPath); cbn;
      (split; [split; [exact Hw | refine (moreOutput_trans _ _ _ Ho _); more_output]
              | eauto]).
Qed.

(** What is written after more output comes after it. *)
Lemma output_then (o o1 : list string) (text : string) :
  (exists rest, o1 = o ++ rest) ->
  exists before, o1 ++ [text] = o ++ before ++ [text].
Proof. intros [r ->]. exists r. rewrite app_assoc. reflexivity. Qed.

Lemma output_lines (lines o o1 : list string) :
  (exists rest, o1 = o ++ rest) ->
  exists before, fold_left (fun acc l => acc ++ [l]) lines o1 = o ++ before ++ lines.
Proof.
  intros [r ->]. exists r. induction lines as [|x lines IH] using rev_ind.
  - cbn. rewrite app_nil_r. reflexivity.
  - rewrite fold_left_app. cbn. rewrite IH, <- !app_assoc. reflexivity.
Qed.

(** A missing config file is created with the default content, and the
    user is told so, after what the logger writes; when it cannot be, the
    error says it. *)
Lemma EnsureConfigFile_missing (configPath : string) (s : State W) :
  file.Exists (world s) configPath = false ->
  let out := redash.EnsureConfigFile configPath s in
  let written := writeWorld (world s) configPath redash.DefaultConfigContent in
  world (snd out) = fst written
  /\ CurrentProfile (snd out) = CurrentProfile s
  /\ match snd written with
     | None =>
         fst out = None
         /\ exists before,
              stdout (snd out) = stdout s ++ before ++ [createdMessage configPath]
     | Some err => fst out = Some ("failed to create config file: " +:+ err)
     end.
Proof.
  intros Hex. unfold redash.EnsureConfigFile. cbv zeta.
  rewrite !bind_apply. cbn [gets fst snd logger.Debug logger.emit world].
  rewrite Hex. cbn [negb]. rewrite !bind_apply.
  cbn [logger.Info logger.emit fst snd].
  rewrite WriteFile_world. cbn [fst snd world].
  destruct (writeWorld (world s) configPath redash.DefaultConfigContent) as [w' [err|]];
    cbn [fst snd withWorld logger.Error logger.Info logger.Warn logger.emit fmt.Print
         ret bind world stdout CurrentProfile]; [auto|].
  repeat split. apply output_then. repeat apply prefix_app_r.
  exists []. rewrite app_nil_r. reflexivity.
Qed.

(** The profile [GetProfileConfig] returns and the name it leaves in
    [CurrentProfile]; it leaves the world as it is. *)
Lemma GetProfileConfig_run (config : redash.Config) (requested : string) (s : State W) :
  let name := activeProfileName requested (os_Getenv (world s) "REDRIP_PROFILE") in
  let out := redash.GetProfileConfig config requested s in
  sameWorld s (snd out)
  /\ match redash.Profiles config !! name with
     | Some pc => fst out = pc /\ CurrentProfile (snd out) = name
     | None => fst out = default redash.zeroProfile (redash.Profiles config !! "default")
               /\ CurrentProfile (snd out) = "default"
     end.
Proof.
  cbv zeta. unfold sameWorld.
  split; [split; [|apply appends_GetProfileConfig]|].
  all: unfold activeProfileName.
  all: destruct (String.eqb requested "") eqn:Er;
    [destruct (String.eqb (os_Getenv (world s) "REDRIP_PROFILE") "") eqn:Ee|];
    unfold redash.GetProfileConfig; munfold;
    repeat (cbn; rewrite ?Er, ?Ee).
  all: match goal with
       | |- context [redash.Profiles ?c !! ?n] =>
           destruct (redash.Profiles c !! n) as [pc0|] eqn:Ed
       end; cbn; auto.
Qed.

(** [ValidateProfileConfig] only logs. *)
Lemma ValidateProfileConfig_run (pc : redash.ProfileConfig) (s : State W) :
  let out := redash.ValidateProfileConfig pc s in
  sameWorld s (snd out)
  /\ CurrentProfile (snd out) = CurrentProfile s
  /\ (fst out = None -> redash.RedashURL pc <> "" /\ redash.APIKey pc <> "")
  /\ (pc = redash.zeroProfile ->
      fst out = Some "required configuration values not found: redash_url, api_key")
  /\ forall err, fst out = Some err ->
       exists fields, err = "required configuration values not found: " +:+ fields.
Proof.
  cbv zeta. unfold sameWorld.
  split; [split; [|apply appends_ValidateProfileConfig]|].
  all: unfold redash.ValidateProfileConfig; munfold.
  all: destruct (String.eqb_spec (redash.RedashURL pc) "") as [Eu|Eu];
    destruct (String.eqb_spec (redash.APIKey pc) "") as [Ek|Ek]; cbn;
    repeat split; try discriminate; try assumption;
    try (intros ->; cbn in *; congruence);
    try (intros err [= <-]; eauto).
Qed.

(** [NewClientWithProfile], step by step, once the home directory is known. *)
Lemma NewClientWithProfile_run (profileName homeDir : string) (s : State W) :
  os_UserHomeDir (world s) = Ok homeDir ->
  let loaded := redash.LoadConfig (userConfigPath homeDir) (clientStart profileName s) in
  let out := redash.NewClientWithProfile profileName s in
  sameWorld (snd loaded) (snd out)
  /\ match fst loaded with
     | Err err => fst out = Err (loadFailure err)
     | Ok config =>
         let got := redash.GetProfileConfig config profileName (snd loaded) in
         CurrentProfile (snd out) = CurrentProfile (snd got)
         /\ fst out
            = match fst (redash.ValidateProfileConfig (fst got) (snd got)) with
              | Some err => Err (validationFailure (CurrentProfile (snd got)) err)
              | None => Ok (clientOf (CurrentProfile (snd got)) (fst got))
              end
     end.
Proof.
  intros Hhome. unfold redash.NewClientWithProfile, clientStart, userConfigPath,
    loadFailure, validationFailure, clientOf.
  cbv zeta. rewrite !bind_apply. cbn [gets fst snd].
  change (world (snd (logger.Debug "Creating new Redash client"
                        [("profile", VStr profileName)] s))) with (world s).
  rewrite Hhome. rewrite !bind_apply.
  match goal with
  | |- context [redash.LoadConfig ?p ?s0] =>
      destruct (redash.LoadConfig p s0) as [[config|err] s1]
  end; cbn [fst snd].
  - rewrite !bind_apply.
    pose proof (GetProfileConfig_run config profileName s1) as [Hg _].
    destruct (redash.GetProfileConfig config profileName s1) as [pc s2].
    cbn [fst snd] in *.
    pose proof (ValidateProfileConfig_run pc s2) as (Hv & Hc & _).
    destruct (redash.ValidateProfileConfig pc s2) as [[err|] s3].
    all: cbn [fst snd gets] in *.
    all: pose proof (sameWorld_trans _ _ _ Hg Hv) as Hgv.
    all: cbn [bind ret gets fst snd logger.Error logger.Info logger.emit
              CurrentProfile].
    all: rewrite ?Hc; split; [|split; reflexivity].
    all: refine (sameWorld_trans _ _ _ Hgv _); same_world.
  - destruct (Contains err "required configuration values not found");
      (split; [same_world | reflexivity]).
Qed.

(** The profiles of the default config file: the one empty profile. *)
Lemma default_file_profiles :
  forallb fitsBuffer (bufio.rawLines redash.DefaultConfigContent) = true
  /\ parsedProfiles (map bufio.dropCR (bufio.rawLines redash.DefaultConfigContent))
     = emptyDefault.
Proof. split; vm_compute; reflexivity. Qed.

Lemma emptyDefault_lookup (name : string) (pc : redash.ProfileConfig) :
  emptyDefault !! name = Some pc -> name = "default" /\ pc = redash.zeroProfile.
Proof.
  unfold emptyDefault. intros Hl. apply lookup_insert_Some in Hl.
  destruct Hl as [[<- <-]|[_ Hl]]; [auto|]. rewrite lookup_empty in Hl. discriminate.
Qed.

(** What has been printed stays printed. *)
Lemma printed_frame (s0 s1 s2 s3 : State W) (lines : list string) :
  moreOutput s0 s1 -> printed s1 s2 lines -> moreOutput s2 s3 -> printed s0 s3 lines.
Proof.
  intros [r1 E1] (before & after & E2) [r3 E3].
  exists (r1 ++ before), (after ++ r3). rewrite E3, E2, E1.
  rewrite <- !app_assoc. reflexivity.
Qed.

Lemma printed_last (s s' : State W) (before lines : list string) :
  stdout s' = stdout s ++ before ++ lines -> printed s s' lines.
Proof. intros E. exists before, []. rewrite app_nil_r. exact E. Qed.

Lemma printed_more (s s' : State W) (lines : list string) :
  printed s s' lines -> moreOutput s s'.
Proof. intros (before & after & E). eexists. exact E. Qed.

(** What [LoadConfig] does to the world is what [EnsureConfigFile] does to
    it, and when the file is created the user is told so. *)
Lemma LoadConfig_writes (configPath : string) (s : State W) :
  let s' := snd (redash.LoadConfig configPath s) in
  if file.Exists (world s) configPath then sameWorld s s'
  else
    let written := writeWorld (world s) configPath redash.DefaultConfigContent in
    world s' = fst written
    /\ (snd written = None -> printed s s' [createdMessage configPath]).
Proof.
  cbv zeta.
  pose proof (LoadConfig_after_ensure configPath s) as [[Hw Ho] _].
  set (s0 := snd (logger.Debug "Loading configuration" [("path", VStr configPath)] s)) in *.
  assert (H0 : moreOutput s s0) by (subst s0; more_output).
  destruct (file.Exists (world s) configPath) eqn:Hex.
  - split; [|apply appends_LoadConfig]. rewrite Hw.
    unfold redash.EnsureConfigFile. rewrite !bind_apply. cbn [gets fst snd].
    change (world (snd (logger.Debug "Ensuring config file exists"
                          [("path", VStr configPath)] s0))) with (world s).
    rewrite Hex. reflexivity.
  - pose proof (EnsureConfigFile_missing configPath s0 Hex) as (Hw1 & _ & Hr).
    rewrite Hw. change (world s0) with (world s) in *. split; [exact Hw1|].
    intros Hnone. rewrite Hnone in Hr. destruct Hr as [_ [before Hr]].
    exact (printed_frame _ _ _ _ _ H0 (printed_last _ _ _ _ Hr) Ho).
Qed.

(** [GetProfileSQLDir] changes the world as its [LoadConfig] does. *)
Lemma GetProfileSQLDir_frame (profileName : string) (s : State W) :
  match os_UserHomeDir (world s) with
  | Ok homeDir =>
      sameWorld
        (snd (redash.LoadConfig (userConfigPath homeDir) (directoryStart profileName s)))
        (snd (redash.GetProfileSQLDir profileName s))
  | Err _ => sameWorld s (snd (redash.GetProfileSQLDir profileName s))
  end.
Proof.
  unfold redash.GetProfileSQLDir, directoryStart, userConfigPath.
  rewrite !bind_apply. cbn [gets fst snd].
  change (world (snd (logger.Debug "Getting SQL directory from config"
                        [("profile", VStr profileName)] s))) with (world s).
  destruct (os_UserHomeDir (world s)) as [homeDir|err]; [|same_world].
  rewrite !bind_apply.
  match goal with
  | |- context [redash.LoadConfig ?p ?s0] =>
      destruct (redash.LoadConfig p s0) as [[config|err] s1]
  end; cbn [fst snd].
  - rewrite !bind_apply.
    pose proof (GetProfileConfig_run config profileName s1) as [Hg _].
    destruct (redash.GetProfileConfig config profileName s1) as [pc s2].
    cbn [fst snd gets] in *.
    destruct (String.eqb (redash.SQLDir pc) "");
      [refine (sameWorld_trans _ _ _ Hg _); same_world|].
    rewrite !bind_apply. cbn [gets fst snd].
    destruct (negb (file.Exists (world s2) (redash.SQLDir pc))
              || negb (file.IsDirectory (world s2) (redash.SQLDir pc)));
      refine (sameWorld_trans _ _ _ Hg _); same_world.
  - destruct (Contains err "required configuration values not found"); same_world.
Qed.

(** X4. On a first run, when the user has no config file yet and it can be
    written and read back, [NewClientWithProfile] creates the file with the
    default content, tells the user where it is, and fails: the one
    profile of the new file is [default], whatever profile was asked for,
    and its URL and API key are missing. The message is on the standard
    output, among the lines the logger writes there before it and after
    it. *)
Theorem first_run (profileName homeDir : string) (s : State W) (w' : W) :
  os_UserHomeDir (world s) = Ok homeDir ->
  file.Exists (world s) (userConfigPath homeDir) = false ->
  writeWorld (world s) (userConfigPath homeDir) redash.DefaultConfigContent
  = (w', None) ->
  os_Open w' (userConfigPath homeDir) = Ok (redash.DefaultConfigContent, None) ->
  let out := redash.NewClientWithProfile profileName s in
  fst out = Err firstRunError
  /\ world (snd out) = w'
  /\ (exists before after,
        stdout (snd out)
        = stdout s ++ before ++ [createdMessage (userConfigPath homeDir)] ++ after)
  /\ CurrentProfile (snd out) = "default".
Proof.
  intros Hhome Hmiss Hwrite Hopen out. subst out.
  pose proof (NewClientWithProfile_run profileName homeDir s Hhome) as [[Hw Ho] Hr].
  pose proof (LoadConfig_writes (userConfigPath homeDir) (clientStart profileName s))
    as Hl.
  pose proof (LoadConfig_after_ensure (userConfigPath homeDir)
                (clientStart profileName s)) as [_ Hres].
  cbv zeta in Hl, Hres, Hr.
  change (world (clientStart profileName s)) with (world s) in Hl.
  rewrite Hmiss, Hwrite in Hl. cbn [fst snd] in Hl. destruct Hl as [Hl1 Hl2].
  specialize (Hl2 eq_refl).
  assert (H0 : moreOutput s (clientStart profileName s))
    by (unfold clientStart; more_output).
  set (s0 := snd (logger.Debug "Loading configuration"
                    [("path", VStr (userConfigPath homeDir))]
                    (clientStart profileName s))) in *.
  pose proof (EnsureConfigFile_missing (userConfigPath homeDir) s0 Hmiss)
    as (He1 & _ & He2).
  change (world s0) with (world s) in He1, He2.
  rewrite Hwrite in He1, He2. cbn [fst snd] in He1, He2. destruct He2 as [He2 _].
  rewrite He2, He1, Hopen in Hres.
  destruct default_file_profiles as [Hfit Hprof]. rewrite Hfit, Hprof in Hres.
  rewrite Hres in Hr. destruct Hr as [Hcur Hr].
  set (s1 := snd (redash.LoadConfig (userConfigPath homeDir)
                    (clientStart profileName s))) in *.
  pose proof (GetProfileConfig_run {| redash.Profiles := emptyDefault |}
                profileName s1) as [_ Hg].
  cbv zeta in Hg. cbn [redash.Profiles] in Hg.
  assert (Hz : fst (redash.GetProfileConfig {| redash.Profiles := emptyDefault |}
                      profileName s1) = redash.zeroProfile
               /\ CurrentProfile (snd (redash.GetProfileConfig
                    {| redash.Profiles := emptyDefault |} profileName s1)) = "default").
  { match type of Hg with
    | match ?l with _ => _ end => destruct l as [pc|] eqn:El
    end.
    - apply emptyDefault_lookup in El. destruct El as [En ->].
      destruct Hg as [Hg1 Hg2]. split; [assumption | congruence].
    - exact Hg. }
  destruct Hz as [Hz1 Hz2].
  pose proof (ValidateProfileConfig_run
                (fst (redash.GetProfileConfig {| redash.Profiles := emptyDefault |}
                        profileName s1))
                (snd (redash.GetProfileConfig {| redash.Profiles := emptyDefault |}
                        profileName s1))) as (_ & _ & _ & Hv & _).
  cbv zeta in Hv. rewrite (Hv Hz1) in Hr. rewrite Hz2 in Hr, Hcur.
  split; [exact Hr|]. split; [congruence|]. split; [|exact Hcur].
  exact (printed_frame _ _ _ _ _ H0 Hl2 Ho).
Qed.

(** X5. [NewClientWithProfile] and [GetProfileSQLDir] write nothing but a
    missing config file: each leaves the world as it is, except that, when
    the config file of the user does not exist, the default content is
    written to it, and, when that succeeds, its creation is printed.
    Neither takes anything back from the standard output. *)
Theorem config_helpers_write_config_only (profileName : string) (s : State W) :
  createsConfigAtMost s (snd (redash.NewClientWithProfile profileName s))
  /\ createsConfigAtMost s (snd (redash.GetProfileSQLDir profileName s)).
Proof.
  assert (Hload : forall homeDir (s0 s' : State W),
             os_UserHomeDir (world s) = Ok homeDir ->
             sameWorld s s0 ->
             sameWorld (snd (redash.LoadConfig (userConfigPath homeDir) s0)) s' ->
             createsConfigAtMost s s').
  { intros homeDir s0 s' Hhome [Hw0 Ho0] [Hw Ho].
    pose proof (LoadConfig_writes (userConfigPath homeDir) s0) as Hl.
    pose proof (appends_LoadConfig (userConfigPath homeDir) s0) as Ha.
    cbv zeta in Hl. rewrite Hw0 in Hl.
    destruct (file.Exists (world s) (userConfigPath homeDir)) eqn:Hex.
    - left. destruct Hl as [Hl1 Hl2]. split; [congruence|].
      exact (moreOutput_trans _ _ _ Ho0 (moreOutput_trans _ _ _ Hl2 Ho)).
    - right. exists homeDir. destruct Hl as [Hl1 Hl2].
      split; [assumption|]. split; [assumption|]. cbv zeta.
      split; [congruence|]. split.
      + exact (moreOutput_trans _ _ _ Ho0 (moreOutput_trans _ _ _ Ha Ho)).
      + intros Hnone. exact (printed_frame _ _ _ _ _ Ho0 (Hl2 Hnone) Ho). }
  split.
  - destruct (os_UserHomeDir (world s)) as [homeDir|err] eqn:Hhome.
    + pose proof (NewClientWithProfile_run profileName homeDir s Hhome) as [Hs _].
      apply (Hload homeDir (clientStart profileName s)); auto.
      unfold clientStart. same_world.
    + left. split; [|apply appends_NewClientWithProfile].
      unfold redash.NewClientWithProfile. rewrite !bind_apply.
      cbn [gets fst snd].
      change (world (snd (logger.Debug "Creating new Redash client"
                            [("profile", VStr profileName)] s))) with (world s).
      rewrite Hhome. reflexivity.
  - pose proof (GetProfileSQLDir_frame profileName s) as Hf.
    destruct (os_UserHomeDir (world s)) as [homeDir|err] eqn:Hhome.
    + apply (Hload homeDir (directoryStart profileName s)); auto.
      unfold directoryStart. same_world.
    + left. exact Hf.
Qed.

(** The answer of [EnsureConfigFile] and the world it leaves depend on
    the world it starts in only. *)
Lemma EnsureConfigFile_world (configPath : string) (s s' : State W) :
  world s = world s' ->
  fst (redash.EnsureConfigFile configPath s) = fst (redash.EnsureConfigFile configPath s')
  /\ world (snd (redash.EnsureConfigFile configPath s))
     = world (snd (redash.EnsureConfigFile configPath s')).
Proof.
  intros Hw. destruct (file.Exists (world s) configPath) eqn:Hex.
  - unfold redash.EnsureConfigFile. rewrite !bind_apply. cbn [gets fst snd].
    change (world (snd (logger.Debug "Ensuring config file exists"
                          [("path", VStr configPath)] s))) with (world s).
    change (world (snd (logger.Debug "Ensuring config file exists"
                          [("path", VStr configPath)] s'))) with (world s').
    rewrite <- Hw, Hex. cbn. auto.
  - pose proof (EnsureConfigFile_missing configPath s Hex) as (H1 & _ & H2).
    rewrite Hw in Hex.
    pose proof (EnsureConfigFile_missing configPath s' Hex) as (H1' & _ & H2').
    rewrite <- Hw in H1', H2'. split; [|congruence].
    destruct (snd (writeWorld (world s) configPath redash.DefaultConfigContent));
      [rewrite H2, H2' | destruct H2 as [-> _]; destruct H2' as [-> _]]; reflexivity.
Qed.

(** The configuration [LoadConfig] returns depends on the world only. *)
Lemma LoadConfig_world (configPath : string) (s s' : State W) :
  world s = world s' ->
  fst (redash.LoadConfig configPath s) = fst (redash.LoadConfig configPath s').
Proof.
  intros Hw. unfold redash.LoadConfig. rewrite !bind_apply.
  set (s0 := snd (logger.Debug "Loading configuration" [("path", VStr configPath)] s)).
  set (s0' := snd (logger.Debug "Loading configuration" [("path", VStr configPath)] s')).
  destruct (EnsureConfigFile_world configPath s0 s0' Hw) as [He Hwe].
  destruct (redash.EnsureConfigFile configPath s0) as [e1 s1].
  destruct (redash.EnsureConfigFile configPath s0') as [e1' s1'].
  cbn [fst snd] in *. subst e1'. destruct e1 as [err|]; [reflexivity|].
  rewrite !bind_apply. cbn [gets fst snd]. rewrite <- Hwe.
  destruct (os_Open (world s1) configPath) as [[data readErr]|err]; [|reflexivity].
  destruct (bufio.Scan data readErr) as [lines scanErr].
  rewrite !bind_apply. rewrite !forEach_loadLine_state.
  destruct scanErr; reflexivity.
Qed.

(** [GetProfileSQLDir], step by step, once the home directory is known. *)
Lemma GetProfileSQLDir_run (profileName homeDir : string) (s : State W) :
  os_UserHomeDir (world s) = Ok homeDir ->
  let loaded :=
    redash.LoadConfig (userConfigPath homeDir) (directoryStart profileName s) in
  let out := redash.GetProfileSQLDir profileName s in
  match fst loaded with
  | Err err =>
      fst out = if Contains err "required configuration values not found"
                then Ok "." else Err ("failed to load configuration: " +:+ err)
  | Ok config =>
      let got := redash.GetProfileConfig config profileName (snd loaded) in
      CurrentProfile (snd out) = CurrentProfile (snd got)
      /\ fst out = Ok (resolvedDirectory (world (snd got)) (fst got))
  end.
Proof.
  intros Hhome. unfold redash.GetProfileSQLDir, directoryStart, userConfigPath,
    resolvedDirectory.
  cbv zeta. rewrite !bind_apply. cbn [gets fst snd].
  change (world (snd (logger.Debug "Getting SQL directory from config"
                        [("profile", VStr profileName)] s))) with (world s).
  rewrite Hhome. rewrite !bind_apply.
  match goal with
  | |- context [redash.LoadConfig ?p ?s0] =>
      destruct (redash.LoadConfig p s0) as [[config|err] s1]
  end; cbn [fst snd].
  - rewrite !bind_apply.
    destruct (redash.GetProfileConfig config profileName s1) as [pc s2].
    cbn [fst snd gets].
    destruct (String.eqb (redash.SQLDir pc) ""); [cbn; auto|].
    rewrite !bind_apply. cbn [gets fst snd].
    destruct (file.Exists (world s2) (redash.SQLDir pc));
      destruct (file.IsDirectory (world s2) (redash.SQLDir pc)); cbn; auto.
  - destruct (Contains err "required configuration values not found"); reflexivity.
Qed.

(** X6. A client that [NewClientWithProfile] returns is the client of a
    profile of the configuration: its URL and its API key are not empty
    and are those of the profile it names, which is the profile asked for
    (by the argument, else by REDRIP_PROFILE, else [default]) or [default],
    and which is the current profile afterwards. *)
Theorem NewClientWithProfile_client (profileName : string) (s : State W)
    (c : redash.Client) :
  fst (redash.NewClientWithProfile profileName s) = Ok c ->
  let s' := snd (redash.NewClientWithProfile profileName s) in
  redash.baseURL c <> "" /\ redash.apiKey c <> ""
  /\ redash.profile c = CurrentProfile s'
  /\ (redash.profile c
      = activeProfileName profileName (os_Getenv (world s') "REDRIP_PROFILE")
      \/ redash.profile c = "default")
  /\ exists homeDir config pc,
       os_UserHomeDir (world s) = Ok homeDir
       /\ fst (redash.LoadConfig (userConfigPath homeDir) (clientStart profileName s))
          = Ok config
       /\ redash.Profiles config !! redash.profile c = Some pc
       /\ redash.RedashURL pc = redash.baseURL c
       /\ redash.APIKey pc = redash.apiKey c.
Proof.
  intros Hok s'. subst s'.
  destruct (os_UserHomeDir (world s)) as [homeDir|err] eqn:Hhome.
  2:{ exfalso. revert Hok. unfold redash.NewClientWithProfile.
      rewrite !bind_apply. cbn [gets fst snd].
      change (world (snd (logger.Debug "Creating new Redash client"
                            [("profile", VStr profileName)] s))) with (world s).
      rewrite Hhome. cbn. discriminate. }
  pose proof (NewClientWithProfile_run profileName homeDir s Hhome) as [[Hw _] Hr].
  cbv zeta in Hr.
  destruct (fst (redash.LoadConfig (userConfigPath homeDir)
                   (clientStart profileName s))) as [config|err] eqn:Hl;
    [|rewrite Hok in Hr; discriminate].
  destruct Hr as [Hcur Hr]. rewrite Hok in Hr.
  set (s1 := snd (redash.LoadConfig (userConfigPath homeDir)
                    (clientStart profileName s))) in *.
  pose proof (GetProfileConfig_run config profileName s1) as [_ Hg].
  cbv zeta in Hg.
  pose proof (ValidateProfileConfig_run
                (fst (redash.GetProfileConfig config profileName s1))
                (snd (redash.GetProfileConfig config profileName s1)))
    as (_ & _ & Hv & _).
  cbv zeta in Hv.
  destruct (fst (redash.ValidateProfileConfig
                   (fst (redash.GetProfileConfig config profileName s1))
                   (snd (redash.GetProfileConfig config profileName s1))))
    as [err|]; [discriminate|].
  injection Hr as ->. destruct (Hv eq_refl) as [Hu Hk]. unfold clientOf.
  cbn [redash.baseURL redash.apiKey redash.profile].
  rewrite Hw. split; [exact Hu|]. split; [exact Hk|]. split; [congruence|]. split.
  - destruct (redash.Profiles config !! activeProfileName profileName
                (os_Getenv (world s1) "REDRIP_PROFILE")); destruct Hg as [_ ->]; auto.
  - exists homeDir, config, (fst (redash.GetProfileConfig config profileName s1)).
    repeat split; [exact Hl|].
    destruct (redash.Profiles config !! activeProfileName profileName
                (os_Getenv (world s1) "REDRIP_PROFILE")) as [pc|] eqn:El.
    + destruct Hg as [-> ->]. exact El.
    + destruct Hg as [Hg1 ->].
      destruct (redash.Profiles config !! "default") as [pc|];
        cbn in Hg1; [congruence|].
      rewrite Hg1 in Hu. cbn in Hu. congruence.
Qed.

(** X7. When the config file exists and a command has made its client for
    a profile, the SQL directory it asks for next, with the same profile
    argument, is resolved for the profile of the client: the current
    profile stays the one the client names, and the directory is the one
    that profile sets, or the current directory. *)
Theorem client_and_directory_agree (profileName homeDir : string) (s : State W)
    (c : redash.Client) :
  os_UserHomeDir (world s) = Ok homeDir ->
  file.Exists (world s) (userConfigPath homeDir) = true ->
  fst (redash.NewClientWithProfile profileName s) = Ok c ->
  let s1 := snd (redash.NewClientWithProfile profileName s) in
  let out := redash.GetProfileSQLDir profileName s1 in
  CurrentProfile (snd out) = redash.profile c
  /\ exists config pc,
       fst (redash.LoadConfig (userConfigPath homeDir) s) = Ok config
       /\ redash.Profiles config !! redash.profile c = Some pc
       /\ fst out = Ok (resolvedDirectory (world s) pc).
Proof.
  intros Hhome Hex Hok s1 out. subst out s1.
  pose proof (NewClientWithProfile_run profileName homeDir s Hhome) as [[Hw _] Hr].
  pose proof (LoadConfig_writes (userConfigPath homeDir) (clientStart profileName s))
    as Hlw.
  cbv zeta in Hr, Hlw. change (world (clientStart profileName s)) with (world s) in Hlw.
  rewrite Hex in Hlw. destruct Hlw as [Hlw _].
  change (world (clientStart profileName s)) with (world s) in Hlw.
  set (s1 := snd (redash.NewClientWithProfile profileName s)) in *.
  assert (Hw1 : world s1 = world s) by congruence.
  rewrite (LoadConfig_world (userConfigPath homeDir) (clientStart profileName s) s
             eq_refl) in Hr.
  destruct (fst (redash.LoadConfig (userConfigPath homeDir) s)) as [config|err] eqn:Hl;
    [|rewrite Hok in Hr; discriminate].
  destruct Hr as [_ Hr]. rewrite Hok in Hr.
  set (l1 := snd (redash.LoadConfig (userConfigPath homeDir)
                    (clientStart profileName s))) in *.
  pose proof (GetProfileConfig_run config profileName l1) as [_ Hg].
  pose proof (ValidateProfileConfig_run
                (fst (redash.GetProfileConfig config profileName l1))
                (snd (redash.GetProfileConfig config profileName l1)))
    as (_ & _ & Hv & _).
  cbv zeta in Hg, Hv.
  destruct (fst (redash.ValidateProfileConfig
                   (fst (redash.GetProfileConfig config profileName l1))
                   (snd (redash.GetProfileConfig config profileName l1))))
    as [err|]; [discriminate|].
  injection Hr as ->. destruct (Hv eq_refl) as [Hu _]. cbn [redash.profile clientOf].
  assert (Hhome1 : os_UserHomeDir (world s1) = Ok homeDir) by (rewrite Hw1; exact Hhome).
  pose proof (GetProfileSQLDir_run profileName homeDir s1 Hhome1) as Hd.
  pose proof (LoadConfig_writes (userConfigPath homeDir) (directoryStart profileName s1))
    as Hlw2.
  cbv zeta in Hd, Hlw2.
  change (world (directoryStart profileName s1)) with (world s1) in Hlw2.
  rewrite Hw1, Hex in Hlw2. destruct Hlw2 as [Hlw2 _].
  change (world (directoryStart profileName s1)) with (world s1) in Hlw2.
  rewrite (LoadConfig_world (userConfigPath homeDir) (directoryStart profileName s1) s
             Hw1), Hl in Hd.
  set (l2 := snd (redash.LoadConfig (userConfigPath homeDir)
                    (directoryStart profileName s1))) in *.
  pose proof (GetProfileConfig_run config profileName l2) as [[Hgw _] Hg2].
  cbv zeta in Hg2. destruct Hd as [Hd1 Hd2]. rewrite Hd1, Hd2, Hgw.
  assert (Hwl : world l2 = world l1) by congruence.
  rewrite Hwl in Hg2.
  assert (Hl2s : world l2 = world s) by congruence.
  rewrite Hl2s.
  destruct (redash.Profiles config !! activeProfileName profileName
              (os_Getenv (world l1) "REDRIP_PROFILE")) as [pc|] eqn:El.
  - destruct Hg as [Hg1 Hg3]. destruct Hg2 as [Hg4 Hg5].
    split; [congruence|]. exists config, pc. rewrite Hg3, El, Hg4. auto.
  - destruct Hg as [Hg1 Hg3]. destruct Hg2 as [Hg4 Hg5].
    split; [congruence|].
    destruct (redash.Profiles config !! "default") as [pc|] eqn:Edef.
    + exists config, pc. rewrite Hg3, Edef, Hg4. auto.
    + cbn in Hg1. rewrite Hg1 in Hu. cbn in Hu. congruence.
Qed.

End ConfigFile.

Lemma first_run_witness :
  fst (redash.NewClientWithProfile "prd" (MemOS.start worldFresh)) = Err firstRunError
  /\ (exists before after,
        stdout (snd (redash.NewClientWithProfile "prd" (MemOS.start worldFresh)))
        = before ++ [createdMessage "/home/u/.redrip/config.conf"] ++ after)
  /\ MemOS.files (world (snd (redash.NewClientWithProfile "prd" (MemOS.start worldFresh))))
     !! "/home/u/.redrip/config.conf"
     = Some (MemOS.File redash.DefaultConfigContent).
Proof.
  assert (H1 : os_UserHomeDir (world (MemOS.start worldFresh)) = Ok "/home/u")
    by reflexivity.
  assert (H2 : file.Exists (world (MemOS.start worldFresh)) (userConfigPath "/home/u")
               = false) by (vm_compute; reflexivity).
  assert (H3 : writeWorld (world (MemOS.start worldFresh)) (userConfigPath "/home/u")
                 redash.DefaultConfigContent
               = (fst (writeWorld worldFresh "/home/u/.redrip/config.conf"
                         redash.DefaultConfigContent), None))
    by (vm_compute; reflexivity).
  assert (H4 : os_Open (fst (writeWorld worldFresh "/home/u/.redrip/config.conf"
                               redash.DefaultConfigContent))
                 (userConfigPath "/home/u")
               = Ok (redash.DefaultConfigContent, None))
    by (vm_compute; reflexivity).
  destruct (first_run "prd" "/home/u" (MemOS.start worldFresh) _ H1 H2 H3 H4)
    as (R1 & R2 & R3 & _).
  split; [exact R1|]. split; [exact R3|]. rewrite R2. vm_compute. reflexivity.
Defined.

Lemma NewClientWithProfile_client_witness :
  fst (redash.NewClientWithProfile "" (MemOS.start worldSql)) = Ok clientSql
  /\ redash.profile clientSql
     = CurrentProfile (snd (redash.NewClientWithProfile "" (MemOS.start worldSql))).
Proof.
  assert (H : fst (redash.NewClientWithProfile "" (MemOS.start worldSql))
              = Ok clientSql) by (vm_compute; reflexivity).
  split; [exact H|].
  exact (proj1 (proj2 (proj2
           (NewClientWithProfile_client "" (MemOS.start worldSql) clientSql H)))).
Defined.

Lemma client_and_directory_witness :
  fst (redash.NewClientWithProfile "nosuch" (MemOS.start worldSql)) = Ok clientSql
  /\ CurrentProfile
       (snd (redash.GetProfileSQLDir "nosuch"
               (snd (redash.NewClientWithProfile "nosuch" (MemOS.start worldSql)))))
     = "default"
  /\ fst (redash.GetProfileSQLDir "nosuch"
            (snd (redash.NewClientWithProfile "nosuch" (MemOS.start worldSql))))
     = Ok "/sql".
Proof.
  assert (H1 : os_UserHomeDir (world (MemOS.start worldSql)) = Ok "/home/u")
    by reflexivity.
  assert (H2 : file.Exists (world (MemOS.start worldSql)) (userConfigPath "/home/u")
               = true) by (vm_compute; reflexivity).
  assert (H3 : fst (redash.NewClientWithProfile "nosuch" (MemOS.start worldSql))
               = Ok clientSql) by (vm_compute; reflexivity).
  split; [exact H3|]. split.
  - exact (proj1 (client_and_directory_agree "nosuch" "/home/u"
                    (MemOS.start worldSql) clientSql H1 H2 H3)).
  - vm_compute. reflexivity.
Defined.

(** ** The API key in the logs and in the output *)

Section Secrets.

Context {W : Type} `{!OS W}.

(** The loop body of [LoadConfig] logs the records [lineRecords] gives. *)
Lemma loadLine_records (line cur : string) (profiles : gmap string redash.ProfileConfig)
    (s : State W) :
  logs (snd (redash.loadLine line (profiles, cur) s)) = logs s ++ lineRecords line cur.
Proof.
  unfold redash.loadLine, lineRecords, lineKind, isComment, isBracketed, headerName.
  destruct (HasPrefix (TrimSpace line) "#" || String.eqb (TrimSpace line) "");
    [cbn; rewrite app_nil_r; reflexivity|].
  destruct (HasPrefix line "[" && HasSuffix line "]").
  - cbv zeta.
    destruct (HasPrefix (TrimSpace (substring 1 (String.length line - 2) line))
                "profile "); [cbn; rewrite app_nil_r; reflexivity|].
    destruct (String.eqb (TrimSpace (substring 1 (String.length line - 2) line))
                "default"); cbn; rewrite ?app_nil_r; reflexivity.
  - unfold SplitN2. destruct (Cut line "=") as [[k v]|];
      [|cbn; rewrite app_nil_r; reflexivity].
    munfold. cbn.
    destruct (String.eqb (TrimSpace k) "redash_url"); [reflexivity|].
    destruct (String.eqb (TrimSpace k) "api_key"); [reflexivity|].
    destruct (String.eqb (TrimSpace k) "sql_dir"); [reflexivity|].
    cbn. rewrite app_nil_r. reflexivity.
Qed.

(** A line that sets the API key leaves the section as it is and logs one
    record, which does not hold the value. *)
Lemma sameButKey_step (l1 l2 cur : string)
    (profiles1 profiles2 : gmap string redash.ProfileConfig) :
  sameButKey l1 l2 ->
  lineRecords l1 cur = lineRecords l2 cur
  /\ snd (applyLine (lineKind l1) (profiles1, cur))
     = snd (applyLine (lineKind l2) (profiles2, cur)).
Proof.
  intros [->|(v1 & v2 & H1 & H2)].
  - split; [reflexivity|]. destruct (lineKind l2); reflexivity.
  - unfold lineRecords. rewrite H1, H2. cbn. auto.
Qed.

(** X8. The value of an API key never reaches the log of [LoadConfig]:
    two files whose lines are the same but for the values that their
    [api_key] lines set leave the same records in the log, whatever the
    profiles read before. *)
Theorem api_key_not_logged (lines1 lines2 : list string) :
  Forall2 sameButKey lines1 lines2 ->
  forall (profiles1 profiles2 : gmap string redash.ProfileConfig) (cur : string)
         (s : State W),
    logs (snd (forEach redash.loadLine lines1 (profiles1, cur) s))
    = logs (snd (forEach redash.loadLine lines2 (profiles2, cur) s)).
Proof.
  intros Hall.
  assert (Hgen : forall profiles1 profiles2 cur (s1 s2 : State W),
             logs s1 = logs s2 ->
             logs (snd (forEach redash.loadLine lines1 (profiles1, cur) s1))
             = logs (snd (forEach redash.loadLine lines2 (profiles2, cur) s2))).
  { induction Hall as [|l1 l2 r1 r2 Hl Hr IH]; intros profiles1 profiles2 cur s1 s2 Hs;
      [exact Hs|].
    cbn [forEach]. rewrite !bind_apply.
    pose proof (loadLine_state l1 profiles1 cur s1) as E1.
    pose proof (loadLine_state l2 profiles2 cur s2) as E2.
    pose proof (loadLine_records l1 cur profiles1 s1) as R1.
    pose proof (loadLine_records l2 cur profiles2 s2) as R2.
    destruct (sameButKey_step l1 l2 cur profiles1 profiles2 Hl) as [Hrec Hcur].
    rewrite <- E1, <- E2 in Hcur.
    destruct (redash.loadLine l1 (profiles1, cur) s1) as [[p1 c1] t1].
    destruct (redash.loadLine l2 (profiles2, cur) s2) as [[p2 c2] t2].
    cbn [fst snd] in *. subst c2. apply IH. congruence. }
  intros profiles1 profiles2 cur s. apply Hgen. reflexivity.
Qed.

(** X9. [showProfileConfig] never prints the value of an API key: for
    two configurations whose profile of the name differs at most in the
    value of the key, it prints the same text. *)
Theorem showProfileConfig_hides_key (config1 config2 : redash.Config)
    (profileName : string) (pc1 pc2 : redash.ProfileConfig) (s : State W) :
  redash.Profiles config1 !! profileName = Some pc1 ->
  redash.Profiles config2 !! profileName = Some pc2 ->
  sameButKeyValue pc1 pc2 ->
  cmd_config.showProfileConfig config1 profileName s
  = cmd_config.showProfileConfig config2 profileName s.
Proof.
  intros H1 H2 (Hu & Hd & Hk). unfold cmd_config.showProfileConfig.
  rewrite H1, H2, Hu, Hd.
  destruct (String.eqb_spec (redash.APIKey pc1) "") as [E1|E1];
    destruct (String.eqb_spec (redash.APIKey pc2) "") as [E2|E2];
    try reflexivity; tauto.
Qed.

(** X10. The SQL directory [config list] shows and the one the commands
    use: when the line of a profile carries the note that the directory
    does not exist, or that none is set, [GetProfileSQLDir] resolves to the
    current directory; but a path that exists and is no directory is shown
    without a note, while the commands fall back to the current directory
    all the same. *)
Theorem shown_and_resolved_directory (w : W) (pc : redash.ProfileConfig) :
  (shownDirectory w pc <> redash.SQLDir pc -> resolvedDirectory w pc = ".")
  /\ (redash.SQLDir pc <> "" ->
      file.Exists w (redash.SQLDir pc) = true ->
      file.IsDirectory w (redash.SQLDir pc) = false ->
      shownDirectory w pc = redash.SQLDir pc /\ resolvedDirectory w pc = ".")
  /\ forall (config : redash.Config) (profileName : string) (s : State W),
       redash.Profiles config !! profileName = Some pc ->
       world s = w ->
       exists urlLine keyLine,
         stdout (snd (cmd_config.showProfileConfig config profileName s))
         = stdout s ++ [urlLine; keyLine;
                        "  sql_dir = " +:+ shownDirectory w pc
                        +:+ String bufio.newline ""].
Proof.
  unfold shownDirectory, resolvedDirectory. split; [|split].
  - destruct (String.eqb (redash.SQLDir pc) ""); [reflexivity|].
    destruct (file.Exists w (redash.SQLDir pc)); cbn; [congruence | reflexivity].
  - intros Hne Hex Hdir.
    destruct (String.eqb_spec (redash.SQLDir pc) ""); [contradiction|].
    rewrite Hex, Hdir. split; reflexivity.
  - intros config profileName s Hl <-. unfold cmd_config.showProfileConfig.
    rewrite Hl. munfold. cbn. rewrite <- !app_assoc. cbn. eauto.
Qed.

End Secrets.

Lemma api_key_not_logged_witness :
  logs (snd (forEach redash.loadLine keyLines1 (∅, "default") (MemOS.start MemOS.world0)))
  = logs (snd (forEach redash.loadLine keyLines2 (∅, "default") (MemOS.start MemOS.world0))).
Proof.
  apply api_key_not_logged. unfold keyLines1, keyLines2.
  constructor; [left; reflexivity|].
  constructor; [left; reflexivity|].
  constructor; [right; eexists _, _; split; vm_compute; reflexivity|].
  constructor; [left; reflexivity|].
  constructor.
Defined.

Lemma showProfileConfig_hides_key_witness :
  cmd_config.showProfileConfig configStg "stg" (MemOS.start worldPrd)
  = cmd_config.showProfileConfig
      {| redash.Profiles :=
           <["stg" := {| redash.RedashURL := "https://stg/api";
                         redash.APIKey := "another key";
                         redash.SQLDir := "/sql/stg" |}]> ∅ |}
      "stg" (MemOS.start worldPrd).
Proof.
  eapply showProfileConfig_hides_key.
  - vm_compute. reflexivity.
  - vm_compute. reflexivity.
  - repeat split; discriminate.
Defined.

Lemma shown_and_resolved_witness :
  shownDirectory worldFileDir profileFileDir = "/sql"
  /\ resolvedDirectory worldFileDir profileFileDir = ".".
Proof.
  apply (proj1 (proj2 (shown_and_resolved_directory worldFileDir profileFileDir)));
    [discriminate | reflexivity | reflexivity].
Defined.

(** ** Errors of the configuration, as the commands tell them apart *)

Section Recognised.

Context {W : Type} `{!OS W}.

Lemma prefix_app (sub rest : string) : String.prefix sub (sub +:+ rest) = true.
Proof.
  induction sub as [|c sub IH]; [destruct rest; reflexivity|].
  change (String c sub +:+ rest) with (String c (sub +:+ rest)).
  cbn [String.prefix]. destruct (ascii_dec c c); [exact IH | contradiction].
Qed.

Lemma Contains_prefix (sub rest : string) : Contains (sub +:+ rest) sub = true.
Proof.
  destruct (sub +:+ rest) eqn:E; cbn [Contains]; rewrite <- E, prefix_app; reflexivity.
Qed.

Lemma Contains_app_r (a b sub : string) :
  Contains b sub = true -> Contains (a +:+ b) sub = true.
Proof.
  intros Hb. induction a as [|c a IH]; [exact Hb|].
  change (String c a +:+ b) with (String c (a +:+ b)).
  cbn [Contains]. rewrite IH. apply orb_true_r.
Qed.

(** X11. Once the configuration is loaded, the only way
    [NewClientWithProfile] fails is the validation of the profile, and
    [isMissingRequiredFields] recognises that error. *)
Theorem missing_fields_recognised (profileName homeDir : string) (s : State W)
    (config : redash.Config) (err : error) :
  os_UserHomeDir (world s) = Ok homeDir ->
  fst (redash.LoadConfig (userConfigPath homeDir) (clientStart profileName s))
  = Ok config ->
  fst (redash.NewClientWithProfile profileName s) = Err err ->
  cmd_config.isMissingRequiredFields (Some err) = true
  /\ exists fields,
       err = validationFailure
               (CurrentProfile (snd (redash.NewClientWithProfile profileName s)))
               ("required configuration values not found: " +:+ fields).
Proof.
  intros Hhome Hload Herr.
  pose proof (NewClientWithProfile_run profileName homeDir s Hhome) as [_ Hr].
  cbv zeta in Hr. rewrite Hload, Herr in Hr. destruct Hr as [Hcur Hr].
  set (got := redash.GetProfileConfig config profileName
                (snd (redash.LoadConfig (userConfigPath homeDir)
                        (clientStart profileName s)))) in *.
  pose proof (ValidateProfileConfig_run (fst got) (snd got)) as (_ & _ & _ & _ & Hv).
  destruct (fst (redash.ValidateProfileConfig (fst got) (snd got))) as [e|];
    [|discriminate].
  destruct (Hv e eq_refl) as [fields ->]. injection Hr as ->. rewrite Hcur.
  split; [|eauto].
  unfold cmd_config.isMissingRequiredFields, validationFailure.
  apply Contains_app_r, Contains_app_r, Contains_app_r.
  change ("required configuration values not found: " +:+ fields)
    with ("required configuration values not found" +:+ (": " +:+ fields)).
  apply Contains_prefix.
Qed.

End Recognised.

Lemma missing_fields_witness :
  cmd_config.isMissingRequiredFields (Some firstRunError) = true.
Proof.
  assert (H1 : os_UserHomeDir (world (MemOS.start worldFresh)) = Ok "/home/u")
    by reflexivity.
  assert (H2 : fst (redash.LoadConfig (userConfigPath "/home/u")
                      (clientStart "stg" (MemOS.start worldFresh)))
               = Ok {| redash.Profiles := emptyDefault |})
    by (vm_compute; reflexivity).
  assert (H3 : fst (redash.NewClientWithProfile "stg" (MemOS.start worldFresh))
               = Err firstRunError) by (vm_compute; reflexivity).
  exact (proj1 (missing_fields_recognised "stg" "/home/u" (MemOS.start worldFresh)
                  _ firstRunError H1 H2 H3)).
Defined.

(** ** The command [config list] *)

Section ConfigList.

Context {W : Type} `{!OS W}.

Lemma printsOnly_ret {A : Type} (a : A) : printsOnly (ret (W := W) a).
Proof. intros s. split; [reflexivity|]. exists []. cbn. rewrite app_nil_r. reflexivity. Qed.

Lemma printsOnly_Print (text : string) : printsOnly (fmt.Print (W := W) text).
Proof. intros s. split; [reflexivity|]. exists [text]. reflexivity. Qed.

Lemma printsOnly_bind {A B : Type} (m : M W A) (k : A -> M W B) :
  printsOnly m -> (forall a, printsOnly (k a)) -> printsOnly (bind m k).
Proof.
  intros Hm Hk s. rewrite bind_apply.
  destruct (Hm s) as [Hw [r1 Ho]].
  destruct (Hk (fst (m s)) (snd (m s))) as [Hw' [r2 Ho']].
  split; [congruence|]. exists (r1 ++ r2). rewrite Ho', Ho, app_assoc. reflexivity.
Qed.

Lemma printsOnly_showProfileConfig (config : redash.Config) (profileName : string) :
  printsOnly (cmd_config.showProfileConfig (W := W) config profileName).
Proof.
  unfold cmd_config.showProfileConfig.
  destruct (redash.Profiles config !! profileName); [|apply printsOnly_Print].
  intros s. rewrite bind_apply. cbn [gets fst snd].
  repeat (apply printsOnly_bind; [apply printsOnly_Print | intros _]).
  apply printsOnly_Print.
Qed.

Lemma printsOnly_showOther (config : redash.Config) (activeProfile : string)
    (order : list string) :
  printsOnly (forEach (cmd_config.showOther (W := W) config activeProfile) order tt).
Proof.
  induction order as [|p order IH]; [apply printsOnly_ret|].
  cbn [forEach]. apply printsOnly_bind; [|intros []; exact IH].
  unfold cmd_config.showOther.
  destruct (String.eqb p activeProfile); [apply printsOnly_ret|].
  apply printsOnly_bind; [apply printsOnly_Print | intros _].
  apply printsOnly_bind; [apply printsOnly_showProfileConfig | intros _].
  apply printsOnly_Print.
Qed.

(** The profiles of a loaded configuration hold [default]. *)
Lemma LoadConfig_has_default (configPath : string) (s : State W)
    (config : redash.Config) :
  fst (redash.LoadConfig configPath s) = Ok config ->
  is_Some (redash.Profiles config !! "default").
Proof.
  intros Hl.
  destruct (redash.LoadConfig configPath s) as [r s'] eqn:E. cbn in Hl. subst r.
  destruct (LoadConfig_Ok_inv configPath s s' config E) as (_ & _ & lines & _ & _ & ->).
  unfold parsedProfiles, redash.ensureProfile.
  destruct (fst (runLines lines (∅, "default")) !! "default") eqn:Ed;
    [rewrite Ed | rewrite lookup_insert_eq]; eauto.
Qed.

(** [config list] up to the point where the configuration is loaded. *)
Lemma configListCmd_loaded (profile homeDir : string) (order : list string)
    (s : State W) (config : redash.Config) :
  os_UserHomeDir (world s) = Ok homeDir ->
  file.Exists (world s) (userConfigPath homeDir) = true ->
  fst (redash.LoadConfig (userConfigPath homeDir) s) = Ok config ->
  exists s1 : State W,
    sameWorld s s1
    /\ cmd_config.configListCmd profile order s
       = (let activeProfile :=
            activeProfileName profile (os_Getenv (world s1) "REDRIP_PROFILE") in
          let activeProfile :=
            match redash.Profiles config !! activeProfile with
            | Some _ => activeProfile
            | None => "default"
            end in
          fmt.Print (configurationLine (userConfigPath homeDir)) ;;;
          (if negb (String.eqb profile "") then
             cmd_config.showProfileConfig config profile
           else
             let envProfile := os_Getenv (world s1) "REDRIP_PROFILE" in
             (if negb (String.eqb activeProfile "") then
                fmt.Print ("Active profile: " +:+ activeProfile) ;;;
                (if negb (String.eqb envProfile "") && String.eqb envProfile activeProfile
                 then fmt.Print " (from REDRIP_PROFILE environment variable)"
                 else ret tt) ;;;
                gofmt.Println "" ;;;
                cmd_config.showProfileConfig config activeProfile ;;;
                gofmt.Println ""
              else ret tt) ;;;
             gofmt.Println "Available profiles:" ;;;
             gofmt.Println "------------------" ;;;
             forEach (cmd_config.showOther config activeProfile) order tt) ;;;
          ret None) s1.
Proof.
  intros Hhome Hex Hload.
  set (s0 := snd (logger.Debug "Using config path"
                    [("path", VStr (userConfigPath homeDir))]
                    (snd (logger.Info "Starting config list command"
                            [("profile", VStr profile)] s)))).
  exists (snd (redash.LoadConfig (userConfigPath homeDir) s0)).
  pose proof (LoadConfig_writes (userConfigPath homeDir) s0) as Hlw.
  cbv zeta in Hlw. change (world s0) with (world s) in Hlw. rewrite Hex in Hlw.
  split; [refine (sameWorld_trans _ _ _ _ Hlw); subst s0; same_world|].
  rewrite <- (LoadConfig_world (userConfigPath homeDir) s0 s eq_refl) in Hload.
  unfold cmd_config.configListCmd, userConfigPath, configurationLine, activeProfileName
    in *.
  rewrite !bind_apply. cbn [gets fst snd].
  change (world (snd (logger.Info "Starting config list command"
                        [("profile", VStr profile)] s))) with (world s).
  rewrite Hhome. rewrite !bind_apply. rewrite Hex. cbn [negb].
  rewrite !bind_apply. fold s0. rewrite Hload. rewrite !bind_apply. cbn [gets fst snd].
  reflexivity.
Qed.

(** Two lines printed, then computations that only print. *)
Lemma two_lines_then {A B C : Type} (a b : string) (K1 : M W A) (K2 : M W B) (r : C)
    (s : State W) :
  printsOnly K1 -> printsOnly K2 ->
  let out := (fmt.Print a ;;; ((fmt.Print b ;;; K1) ;;; K2) ;;; ret r) s in
  fst out = r
  /\ world (snd out) = world s
  /\ exists rest, stdout (snd out) = stdout s ++ [a; b] ++ rest.
Proof.
  intros H1 H2. cbv zeta. rewrite !bind_apply. cbn [ret fst snd].
  set (s2 := snd (fmt.Print b (snd (fmt.Print a s)))).
  destruct (H1 s2) as [Hw1 [r1 Ho1]]. destruct (H2 (snd (K1 s2))) as [Hw2 [r2 Ho2]].
  split; [reflexivity|]. split; [rewrite Hw2, Hw1; reflexivity|].
  exists (r1 ++ r2). rewrite Ho2, Ho1. subst s2. cbn.
  rewrite <- !app_assoc. reflexivity.
Qed.

Lemma activeProfileName_not_empty (requested envValue : string) :
  activeProfileName requested envValue <> "".
Proof.
  unfold activeProfileName.
  destruct (String.eqb_spec requested ""); [|assumption].
  destruct (String.eqb_spec envValue ""); [discriminate | assumption].
Qed.

(** What a command prints once the configuration is loaded comes after
    what has been written while loading it. *)
Lemma after_loading {A : Type} (s s1 : State W) (out : A * State W) (r : A)
    (lines : list string) :
  sameWorld s s1 ->
  (fst out = r
   /\ world (snd out) = world s1
   /\ exists rest, stdout (snd out) = stdout s1 ++ lines ++ rest) ->
  fst out = r
  /\ world (snd out) = world s
  /\ exists before rest, stdout (snd out) = stdout s ++ before ++ lines ++ rest.
Proof.
  intros [Hw [before Ho]] (R1 & R2 & rest & R3).
  split; [exact R1|]. split; [congruence|].
  exists before, rest. rewrite R3, Ho, <- app_assoc. reflexivity.
Qed.



(** X14. [config list] without a config file: the default file is
    written and the command succeeds after telling so, the message of
    [EnsureConfigFile] after its first line and right before its last two
    (the logger writes before the first line and between it and the
    message); when the file cannot be written, the error it returns names
    the failure twice. *)
Theorem configList_first_run (profile homeDir : string) (order : list string)
    (s : State W) :
  os_UserHomeDir (world s) = Ok homeDir ->
  file.Exists (world s) (userConfigPath homeDir) = false ->
  let written :=
    writeWorld (world s) (userConfigPath homeDir) redash.DefaultConfigContent in
  let out := cmd_config.configListCmd profile order s in
  world (snd out) = fst written
  /\ match snd written with
     | None =>
         fst out = None
         /\ exists before between,
              stdout (snd out)
              = stdout s ++ before ++ [firstListBefore] ++ between
                ++ [createdMessage (userConfigPath homeDir)]
                ++ firstListAfter (userConfigPath homeDir)
     | Some err =>
         fst out = Some ("failed to create config file: "
                         +:+ "failed to create config file: " +:+ err)
         /\ exists before after,
              stdout (snd out) = stdout s ++ before ++ [firstListBefore] ++ after
     end.
Proof.
  intros Hhome Hex. cbv zeta.
  unfold cmd_config.configListCmd. rewrite !bind_apply. cbn [gets fst snd].
  change (world (snd (logger.Info "Starting config list command"
                        [("profile", VStr profile)] s))) with (world s).
  rewrite Hhome. rewrite !bind_apply. fold (userConfigPath homeDir).
  rewrite Hex. cbn [negb]. rewrite !bind_apply.
  match goal with
  | |- context [redash.EnsureConfigFile ?p ?s0] =>
      pose proof (EnsureConfigFile_missing p s0) as He;
      pose proof (appends_EnsureConfigFile p s0) as Ha; set (s1 := s0) in *
  end.
  cbv zeta in He. change (world s1) with (world s) in He.
  specialize (He Hex). destruct He as (He1 & _ & He2).
  assert (H1 : exists before, stdout s1 = stdout s ++ before ++ [firstListBefore]).
  { subst s1. unfold gofmt.Println.
    cbn [stdout fst snd logger.Warn logger.Debug logger.Info logger.emit fmt.Print].
    apply output_then. repeat apply prefix_app_r. exists []. rewrite app_nil_r.
    reflexivity. }
  destruct H1 as [before H1].
  destruct (redash.EnsureConfigFile (userConfigPath homeDir) s1) as [e s2].
  cbn [fst snd] in *.
  destruct (snd (writeWorld (world s) (userConfigPath homeDir)
                   redash.DefaultConfigContent)) as [err|].
  - subst e. rewrite ?bind_apply. cbn. split; [exact He1|]. split; [reflexivity|].
    destruct Ha as [r2 Ha]. eexists before, _. rewrite Ha, H1.
    rewrite <- !app_assoc. reflexivity.
  - destruct He2 as [-> [between He2]]. rewrite ?bind_apply. cbn.
    split; [exact He1|]. split; [reflexivity|].
    exists before, between. rewrite He2, H1. rewrite <- !app_assoc. reflexivity.
Qed.

End ConfigList.



Lemma configList_first_run_witness :
  fst (cmd_config.configListCmd "" [] (MemOS.start worldFresh)) = None
  /\ exists before between,
       stdout (snd (cmd_config.configListCmd "" [] (MemOS.start worldFresh)))
       = before ++ [firstListBefore] ++ between
         ++ [createdMessage "/home/u/.redrip/config.conf"]
         ++ firstListAfter "/home/u/.redrip/config.conf".
Proof.
  assert (H1 : os_UserHomeDir (world (MemOS.start worldFresh)) = Ok "/home/u")
    by reflexivity.
  assert (H2 : file.Exists (world (MemOS.start worldFresh)) (userConfigPath "/home/u")
               = false) by (vm_compute; reflexivity).
  exact (proj2 (configList_first_run "" "/home/u" [] (MemOS.start worldFresh) H1 H2)).
Defined.

(** ** The client of the API *)

Section Listing.

Context {W : Type} `{!OS W} `{!HTTP W} `{!JSON}.

(** A request that is answered with the status 200 and a body that is
    read to its end. *)
Lemma fetch_ok (url auth : string) (s : State W) (w' : W) (resp : Response) :
  http_NewRequest url = true ->
  http_Do (world s) url auth = (w', Ok resp) ->
  StatusCode resp = 200%Z ->
  ReadErr resp = None ->
  redash_http.fetch url auth s = (Returned (Ok resp), withWorld s w').
Proof.
  intros Hn Hd Hs Hr. unfold redash_http.fetch. rewrite Hn. cbn [negb].
  rewrite bind_apply. cbn [gets fst snd]. rewrite Hd.
  rewrite bind_apply. cbn [setWorld fst snd]. rewrite Hs, Hr. reflexivity.
Qed.

Lemma pageOf_append (all : list redash.Query) (p : nat) :
  (1 <= p)%nat ->
  take ((p - 1) * 100) all ++ pageOf all p = take (p * 100) all.
Proof.
  intros Hp. unfold pageOf. rewrite take_take_drop. f_equal. lia.
Qed.

(** The loop of [ListQueries] from a page that the server serves, with
    the earlier pages fetched, and pages enough granted. *)
Lemma listPages_complete (c : redash.Client) (all : list redash.Query) :
  servesPages c all ->
  (Z.of_nat (length all) <= strconv.maxInt)%Z ->
  forall (fuel p : nat) (s : State W),
    (1 <= p)%nat ->
    ((p - 1) * 100 < Nat.max 1 (length all))%nat ->
    (length all <= (p - 1 + fuel) * 100)%nat ->
    (1 <= fuel)%nat ->
    fst (redash_http.listPages fuel c (Z.of_nat p) 100 (take ((p - 1) * 100) all) s)
    = Returned (Ok all).
Proof.
  intros Hserve Hmax. induction fuel as [|fuel IH]; intros p s Hp Hserved Hfuel Hpos;
    [lia|].
  destruct (Hserve p Hp Hserved) as [Hreq Hdo].
  cbn [redash_http.listPages]. rewrite !bind_apply.
  set (s0 := snd (logger.Debug "Fetching page of queries"
                    [("page", VInt (Z.of_nat p)); ("page_size", VInt 100)] s)).
  destruct (Hdo (world s0)) as (w' & resp & response & Hd & Hst & Hre & Hjs & Hres & Hcnt).
  rewrite (fetch_ok _ _ s0 w' resp Hreq Hd Hst Hre). cbn [fst snd].
  rewrite Hjs. rewrite !bind_apply. rewrite Hres, Hcnt, (pageOf_append all p Hp).
  rewrite length_take.
  destruct (Nat.le_gt_cases (length all) (p * 100)) as [Hlast|Hmore].
  - replace (Z.of_nat (length all) <=? Z.of_nat (Nat.min (p * 100) (length all)))%Z
      with true by (symmetry; apply Z.leb_le; lia).
    cbn [orb]. rewrite bind_apply. cbn [ret fst].
    rewrite take_ge by lia. reflexivity.
  - replace (Z.of_nat (length all) <=? Z.of_nat (Nat.min (p * 100) (length all)))%Z
      with false by (symmetry; apply Z.leb_gt; lia).
    assert (Hlen : length (pageOf all p) = 100%nat).
    { unfold pageOf. rewrite length_take, length_drop. lia. }
    rewrite Hlen. cbn [orb Z.eqb Z.of_nat Pos.of_succ_nat].
    replace (commands.incr (Z.of_nat p)) with (Z.of_nat (S p)).
    2:{ unfold commands.incr, commands.wrapInt, strconv.maxInt in *.
        rewrite Z.mod_small by lia. lia. }
    replace (p * 100)%nat with ((S p - 1) * 100)%nat by lia.
    apply IH; lia.
Qed.

(** X15. Against a server that answers each page of 100 with its queries
    and the total count, [ListQueries] returns all the queries, each once
    and in the order of the server, after one request a page. *)
Theorem ListQueries_complete (c : redash.Client) (all : list redash.Query)
    (fuel : nat) (s : State W) :
  servesPages c all ->
  (Z.of_nat (length all) <= strconv.maxInt)%Z ->
  (length all / 100 + 1 <= fuel)%nat ->
  fst (redash_http.ListQueries fuel c s) = Returned (Ok all).
Proof.
  intros Hserve Hmax Hfuel. unfold redash_http.ListQueries. rewrite bind_apply.
  pose proof (Nat.div_mod_eq (length all) 100) as Hdiv.
  pose proof (Nat.mod_upper_bound (length all) 100) as Hmod.
  apply (listPages_complete c all Hserve Hmax fuel 1); lia.
Qed.

(** What [fetch] returns is the answer of [http.Client.Do] in the world
    it is called in, and it ends. *)
Lemma fetch_inv (url auth : string) (s : State W) :
  match fst (redash_http.fetch url auth s) with
  | Returned (Ok resp) =>
      exists w', http_Do (world s) url auth = (w', Ok resp)
  | Returned (Err _) | Panicked => True
  | OutOfFuel => False
  end.
Proof.
  unfold redash_http.fetch. destruct (http_NewRequest url); cbn [negb]; [|exact I].
  rewrite bind_apply. cbn [gets fst snd].
  destruct (http_Do (world s) url auth) as [w' [resp|err]] eqn:Hd;
    rewrite bind_apply; cbn [setWorld fst snd]; [|exact I].
  destruct (negb (StatusCode resp =? 200)%Z); [exact I|].
  destruct (ReadErr resp); [exact I|]. cbn. eauto.
Qed.

Lemma undecoded_ended {A : Type} (resp : Response) (err : error) (s : State W) :
  ended (fst (redash_http.undecoded (A := A) resp err s)) = true.
Proof.
  unfold redash_http.undecoded. destruct (HasPrefix (Body resp) "<"); reflexivity.
Qed.

Lemma listPages_ends (c : redash.Client) (K : Z) :
  countsAtMost K ->
  forall (fuel : nat) (page : Z) (allQueries : list redash.Query) (s : State W),
    (K - Z.of_nat (length allQueries) <= Z.of_nat fuel)%Z ->
    (1 <= fuel)%nat ->
    ended (fst (redash_http.listPages fuel c page 100 allQueries s)) = true.
Proof.
  intros Hcount. induction fuel as [|fuel IH]; intros page allQueries s Hfuel Hpos;
    [lia|].
  cbn [redash_http.listPages]. rewrite !bind_apply.
  match goal with
  | |- context [redash_http.fetch ?u ?a ?s0] =>
      pose proof (fetch_inv u a s0) as Hf;
      destruct (redash_http.fetch u a s0) as [[[resp|err]| |] s1]
  end; cbn [fst snd] in *; try reflexivity; try contradiction.
  destruct Hf as [w' Hd].
  destruct (json_Unmarshal_List (Body resp)) as [response|err] eqn:Hjs;
    [|apply undecoded_ended].
  pose proof (Hcount _ _ _ _ _ _ Hd Hjs) as Hk.
  rewrite !bind_apply. rewrite length_app.
  destruct (Z.leb_spec (Count response)
              (Z.of_nat (length allQueries + length (Results_ response)))) as [Hle|Hgt];
    [reflexivity|].
  destruct (Z.eqb_spec (Z.of_nat (length (Results_ response))) 0) as [Hz|Hnz];
    [reflexivity|].
  cbn [orb]. apply IH; rewrite ?length_app; lia.
Qed.

(** X16. [ListQueries] ends: when no listing of the server reports more
    than [K] queries, the loop makes at most [K] requests, and one at
    least, since each page that does not end it adds a query to those
    fetched. *)
Theorem ListQueries_ends (c : redash.Client) (K : Z) (fuel : nat) (s : State W) :
  countsAtMost K ->
  (K <= Z.of_nat fuel)%Z ->
  (1 <= fuel)%nat ->
  ended (fst (redash_http.ListQueries fuel c s)) = true.
Proof.
  intros Hcount Hfuel Hpos. unfold redash_http.ListQueries. rewrite bind_apply.
  apply (listPages_ends c K Hcount); cbn [length]; lia.
Qed.

End Listing.

Lemma ListQueries_complete_witness :
  fst (redash_http.ListQueries 2 clientSql (MemOS.start worldSql))
  = Returned (Ok MemNet.bulk).
Proof.
  apply ListQueries_complete.
  - intros p Hp Hserved.
    assert (Hcases : p = 1%nat \/ p = 2%nat) by (cbn in Hserved; lia).
    destruct Hcases as [-> | ->].
    + split; [vm_compute; reflexivity|]. intros w.
      exists w, {| StatusCode := 200; Body := "page 1"; ReadErr := None; Spare := "" |},
        {| Results_ := take 100 MemNet.bulk; Page := 1; PageSize := 100; Count := 101 |}.
      repeat split.
    + split; [vm_compute; reflexivity|]. intros w.
      exists w, {| StatusCode := 200; Body := "page 2"; ReadErr := None; Spare := "" |},
        {| Results_ := skipn 100 MemNet.bulk; Page := 2; PageSize := 100; Count := 101 |}.
      repeat split.
  - vm_compute. discriminate.
  - vm_compute. lia.
Defined.

Lemma ListQueries_ends_witness :
  ended (fst (redash_http.ListQueries 101 clientSql (MemOS.start worldSql))) = true.
Proof.
  apply (ListQueries_ends clientSql 101).
  - intros w w' url auth resp response Hd Hjs. cbn in Hjs.
    destruct (String.eqb (Body resp) "page 1"); [injection Hjs as <-; cbn; lia|].
    destruct (String.eqb (Body resp) "page 2"); [injection Hjs as <-; cbn; lia|].
    discriminate.
  - lia.
  - lia.
Defined.

(** ** What the configuration helpers depend on *)

Section WorldOnly.

Context {W : Type} `{!OS W}.

Lemma GetProfileConfig_world (config : redash.Config) (requested : string)
    (s s' : State W) :
  world s = world s' ->
  fst (redash.GetProfileConfig config requested s)
  = fst (redash.GetProfileConfig config requested s')
  /\ CurrentProfile (snd (redash.GetProfileConfig config requested s))
     = CurrentProfile (snd (redash.GetProfileConfig config requested s')).
Proof.
  intros Hw.
  pose proof (GetProfileConfig_run config requested s) as [_ H1].
  pose proof (GetProfileConfig_run config requested s') as [_ H2].
  cbv zeta in H1, H2. rewrite <- Hw in H2.
  destruct (redash.Profiles config
            !! activeProfileName requested (os_Getenv (world s) "REDRIP_PROFILE"));
    destruct H1 as [-> ->]; destruct H2 as [-> ->]; auto.
Qed.

Lemma ValidateProfileConfig_answer (pc : redash.ProfileConfig) (s s' : State W) :
  fst (redash.ValidateProfileConfig pc s) = fst (redash.ValidateProfileConfig pc s').
Proof.
  unfold redash.ValidateProfileConfig. munfold.
  destruct (String.eqb (redash.RedashURL pc) "" || String.eqb (redash.APIKey pc) "");
    reflexivity.
Qed.

(** The client [NewClientWithProfile] returns depends on the world only. *)
Lemma NewClientWithProfile_world (profileName : string) (s s' : State W) :
  world s = world s' ->
  fst (redash.NewClientWithProfile profileName s)
  = fst (redash.NewClientWithProfile profileName s').
Proof.
  intros Hw. destruct (os_UserHomeDir (world s)) as [homeDir|err] eqn:Hhome.
  - pose proof (NewClientWithProfile_run profileName homeDir s Hhome) as [_ H1].
    rewrite Hw in Hhome.
    pose proof (NewClientWithProfile_run profileName homeDir s' Hhome) as [_ H2].
    pose proof (LoadConfig_writes (userConfigPath homeDir) (clientStart profileName s))
      as L1.
    pose proof (LoadConfig_writes (userConfigPath homeDir) (clientStart profileName s'))
      as L2.
    cbv zeta in H1, H2, L1, L2.
    change (world (clientStart profileName s)) with (world s) in L1.
    change (world (clientStart profileName s')) with (world s') in L2.
    rewrite <- Hw in L2.
    assert (Hl : world (snd (redash.LoadConfig (userConfigPath homeDir)
                               (clientStart profileName s)))
                 = world (snd (redash.LoadConfig (userConfigPath homeDir)
                                 (clientStart profileName s')))).
    { destruct (file.Exists (world s) (userConfigPath homeDir));
        [destruct L1 as [-> _]; destruct L2 as [-> _] |
         destruct L1 as [-> _]; destruct L2 as [-> _]];
        first [reflexivity | exact Hw]. }
    rewrite <- (LoadConfig_world (userConfigPath homeDir) (clientStart profileName s)
                  (clientStart profileName s') Hw) in H2.
    destruct (fst (redash.LoadConfig (userConfigPath homeDir)
                     (clientStart profileName s))) as [config|err]; [|congruence].
    destruct H1 as [_ ->]. destruct H2 as [_ ->].
    destruct (GetProfileConfig_world config profileName _ _ Hl) as [<- <-].
    match goal with
    | |- context [redash.ValidateProfileConfig ?pc ?sa] =>
        match goal with
        | |- context [redash.ValidateProfileConfig pc ?sb] =>
            tryif constr_eq sa sb then fail
            else rewrite (ValidateProfileConfig_answer pc sa sb)
        end
    end.
    reflexivity.
  - unfold redash.NewClientWithProfile. rewrite !bind_apply. cbn [gets fst snd].
    change (world (snd (logger.Debug "Creating new Redash client"
                          [("profile", VStr profileName)] s))) with (world s).
    change (world (snd (logger.Debug "Creating new Redash client"
                          [("profile", VStr profileName)] s'))) with (world s').
    rewrite <- Hw, Hhome. reflexivity.
Qed.

(** The world [NewClientWithProfile] leaves depends on the world only. *)
Lemma NewClientWithProfile_leaves (profileName : string) (s s' : State W) :
  world s = world s' ->
  world (snd (redash.NewClientWithProfile profileName s))
  = world (snd (redash.NewClientWithProfile profileName s')).
Proof.
  intros Hw. destruct (os_UserHomeDir (world s)) as [homeDir|err] eqn:Hhome.
  - pose proof (NewClientWithProfile_run profileName homeDir s Hhome) as [[H1 _] _].
    rewrite Hw in Hhome.
    pose proof (NewClientWithProfile_run profileName homeDir s' Hhome) as [[H2 _] _].
    pose proof (LoadConfig_writes (userConfigPath homeDir) (clientStart profileName s))
      as L1.
    pose proof (LoadConfig_writes (userConfigPath homeDir) (clientStart profileName s'))
      as L2.
    cbv zeta in H1, H2, L1, L2.
    change (world (clientStart profileName s)) with (world s) in L1.
    change (world (clientStart profileName s')) with (world s') in L2.
    rewrite <- Hw in L2. rewrite H1, H2.
    destruct (file.Exists (world s) (userConfigPath homeDir));
      destruct L1 as [-> _]; destruct L2 as [-> _];
      first [reflexivity | exact Hw].
  - unfold redash.NewClientWithProfile. rewrite !bind_apply. cbn [gets fst snd].
    change (world (snd (logger.Debug "Creating new Redash client"
                          [("profile", VStr profileName)] s))) with (world s).
    change (world (snd (logger.Debug "Creating new Redash client"
                          [("profile", VStr profileName)] s'))) with (world s').
    rewrite <- Hw, Hhome. exact Hw.
Qed.

(** The directory [GetProfileSQLDir] returns depends on the world only. *)
Lemma GetProfileSQLDir_world (profileName : string) (s s' : State W) :
  world s = world s' ->
  fst (redash.GetProfileSQLDir profileName s)
  = fst (redash.GetProfileSQLDir profileName s').
Proof.
  intros Hw. destruct (os_UserHomeDir (world s)) as [homeDir|err] eqn:Hhome.
  - pose proof (GetProfileSQLDir_run profileName homeDir s Hhome) as H1.
    rewrite Hw in Hhome.
    pose proof (GetProfileSQLDir_run profileName homeDir s' Hhome) as H2.
    pose proof (LoadConfig_writes (userConfigPath homeDir)
                  (directoryStart profileName s)) as L1.
    pose proof (LoadConfig_writes (userConfigPath homeDir)
                  (directoryStart profileName s')) as L2.
    cbv zeta in H1, H2, L1, L2.
    change (world (directoryStart profileName s)) with (world s) in L1.
    change (world (directoryStart profileName s')) with (world s') in L2.
    rewrite <- Hw in L2.
    assert (Hl : world (snd (redash.LoadConfig (userConfigPath homeDir)
                               (directoryStart profileName s)))
                 = world (snd (redash.LoadConfig (userConfigPath homeDir)
                                 (directoryStart profileName s')))).
    { destruct (file.Exists (world s) (userConfigPath homeDir));
        [destruct L1 as [-> _]; destruct L2 as [-> _] |
         destruct L1 as [-> _]; destruct L2 as [-> _]];
        first [reflexivity | exact Hw]. }
    rewrite <- (LoadConfig_world (userConfigPath homeDir) (directoryStart profileName s)
                  (directoryStart profileName s') Hw) in H2.
    destruct (fst (redash.LoadConfig (userConfigPath homeDir)
                     (directoryStart profileName s))) as [config|err]; [|congruence].
    destruct H1 as [_ ->]. destruct H2 as [_ ->].
    destruct (GetProfileConfig_world config profileName _ _ Hl) as [<- _].
    pose proof (GetProfileConfig_run config profileName
                  (snd (redash.LoadConfig (userConfigPath homeDir)
                          (directoryStart profileName s)))) as [[G1 _] _].
    pose proof (GetProfileConfig_run config profileName
                  (snd (redash.LoadConfig (userConfigPath homeDir)
                          (directoryStart profileName s')))) as [[G2 _] _].
    congruence.
  - unfold redash.GetProfileSQLDir. rewrite !bind_apply. cbn [gets fst snd].
    change (world (snd (logger.Debug "Getting SQL directory from config"
                          [("profile", VStr profileName)] s))) with (world s).
    change (world (snd (logger.Debug "Getting SQL directory from config"
                          [("profile", VStr profileName)] s'))) with (world s').
    rewrite <- Hw, Hhome. reflexivity.
Qed.

(** With the config file of the user in place, the helpers leave the world
    as it is. *)
Lemma helpers_keep_world (profileName homeDir : string) (s : State W) :
  os_UserHomeDir (world s) = Ok homeDir ->
  file.Exists (world s) (userConfigPath homeDir) = true ->
  sameWorld s (snd (redash.NewClientWithProfile profileName s))
  /\ sameWorld s (snd (redash.GetProfileSQLDir profileName s)).
Proof.
  intros Hhome Hex.
  pose proof (NewClientWithProfile_run profileName homeDir s Hhome) as [H1 _].
  pose proof (GetProfileSQLDir_frame profileName s) as H2. rewrite Hhome in H2.
  pose proof (LoadConfig_writes (userConfigPath homeDir) (clientStart profileName s))
    as L1.
  pose proof (LoadConfig_writes (userConfigPath homeDir) (directoryStart profileName s))
    as L2.
  cbv zeta in L1, L2.
  change (world (clientStart profileName s)) with (world s) in L1.
  change (world (directoryStart profileName s)) with (world s) in L2.
  rewrite Hex in L1, L2. split.
  - refine (sameWorld_trans _ _ _ _ (sameWorld_trans _ _ _ L1 H1)).
    unfold clientStart. same_world.
  - refine (sameWorld_trans _ _ _ _ (sameWorld_trans _ _ _ L2 H2)).
    unfold directoryStart. same_world.
Qed.

(** The client names the current profile, and the current profile is
    the same after [GetProfileSQLDir] in a state of the same world. *)
Lemma helpers_current (profileName homeDir : string) (s sd : State W)
    (c : redash.Client) :
  os_UserHomeDir (world s) = Ok homeDir ->
  file.Exists (world s) (userConfigPath homeDir) = true ->
  world sd = world s ->
  fst (redash.NewClientWithProfile profileName s) = Ok c ->
  CurrentProfile (snd (redash.NewClientWithProfile profileName s)) = redash.profile c
  /\ CurrentProfile (snd (redash.GetProfileSQLDir profileName sd)) = redash.profile c.
Proof.
  intros Hhome Hex Hsd Hok.
  pose proof (NewClientWithProfile_run profileName homeDir s Hhome) as [_ Hr].
  pose proof (LoadConfig_writes (userConfigPath homeDir) (clientStart profileName s))
    as L1.
  cbv zeta in Hr, L1. change (world (clientStart profileName s)) with (world s) in L1.
  rewrite Hex in L1. destruct L1 as [L1 _].
  change (world (clientStart profileName s)) with (world s) in L1.
  destruct (fst (redash.LoadConfig (userConfigPath homeDir)
                   (clientStart profileName s))) as [config|err] eqn:Hl;
    [|rewrite Hok in Hr; discriminate].
  destruct Hr as [Hcur Hr]. rewrite Hok in Hr.
  set (l1 := snd (redash.LoadConfig (userConfigPath homeDir)
                    (clientStart profileName s))) in *.
  destruct (fst (redash.ValidateProfileConfig
                   (fst (redash.GetProfileConfig config profileName l1))
                   (snd (redash.GetProfileConfig config profileName l1))))
    as [err|]; [discriminate|].
  injection Hr as ->. cbn [redash.profile clientOf]. split; [exact Hcur|].
  assert (Hhomed : os_UserHomeDir (world sd) = Ok homeDir) by (rewrite Hsd; exact Hhome).
  pose proof (GetProfileSQLDir_run profileName homeDir sd Hhomed) as Hd.
  pose proof (LoadConfig_writes (userConfigPath homeDir) (directoryStart profileName sd))
    as L2.
  cbv zeta in Hd, L2. change (world (directoryStart profileName sd)) with (world sd) in L2.
  rewrite Hsd, Hex in L2. destruct L2 as [L2 _].
  change (world (directoryStart profileName sd)) with (world sd) in L2.
  assert (Hws : world (directoryStart profileName sd) = world (clientStart profileName s))
    by exact Hsd.
  rewrite (LoadConfig_world (userConfigPath homeDir) (directoryStart profileName sd)
             (clientStart profileName s) Hws), Hl in Hd.
  destruct Hd as [Hd _]. rewrite Hd.
  apply GetProfileConfig_world. fold l1. congruence.
Qed.

End WorldOnly.

(** ** The command [get] *)

Section Get.

Context {W : Type} `{!OS W} `{!DiffMatchPatch} `{!HTTP W} `{!JSON} `{!Quoting}.

(** [GetQuery] ends. *)
Lemma GetQuery_ended (c : redash.Client) (id : Z) (s : State W) :
  ended (fst (redash_http.GetQuery c id s)) = true.
Proof.
  unfold redash_http.GetQuery. rewrite !bind_apply.
  match goal with
  | |- context [redash_http.fetch ?u ?a ?s0] =>
      pose proof (fetch_inv u a s0) as Hf;
      destruct (redash_http.fetch u a s0) as [[[resp|err]| |] s1]
  end; cbn [fst snd] in *; try reflexivity; try contradiction.
  destruct (json_Unmarshal_Query (Body resp)); [reflexivity|].
  apply undecoded_ended.
Qed.

(** X17. A query that [get] has saved is found unchanged: when files that
    are written read back as written, a successful [get] has made the
    client of its profile flag, [GetQuery] has returned to that client a
    query for the ID of the argument, in the world the making of the
    client has left, and the SQL directory has been resolved after it;
    the last thing the command has written to the standard output names
    that query and its file, which is named after the ID of the query in
    that directory; in the world [get] leaves, the file holds the text of
    that query, and its comparison with the query is a MATCH. *)
Theorem get_then_compare (profile arg : string) (s : State W) :
  readsBackWrites ->
  fst (cmd_get.getCmd profile arg s) = Returned None ->
  exists (id : Z) (client : redash.Client) (sq : State W) (q : redash.Query)
         (sqlDir : string) (before : list string),
    let filePath := filepath_Join [sqlDir; queryFileName (redash.ID q)] in
    strconv.Atoi arg = Some id
    /\ fst (redash.NewClientWithProfile profile s) = Ok client
    /\ world sq = world (snd (redash.NewClientWithProfile profile s))
    /\ fst (redash_http.GetQuery client id sq) = Returned (Ok q)
    /\ fst (redash.GetProfileSQLDir profile (snd (redash_http.GetQuery client id sq)))
       = Ok sqlDir
    /\ stdout (snd (cmd_get.getCmd profile arg s)) = before ++ [savedMessage q filePath]
    /\ os_ReadFile (world (snd (cmd_get.getCmd profile arg s))) filePath
       = Ok (redash.QueryText q)
    /\ diff.CompareQueryWithLocal (world (snd (cmd_get.getCmd profile arg s)))
         (redash.ID q) (Some q) filePath
       = (matchResult q filePath, None).
Proof.
  intros Hrw. unfold cmd_get.getCmd. rewrite !bind_apply.
  destruct (strconv.Atoi arg) as [queryID|]; [|cbn; discriminate].
  rewrite !bind_apply.
  match goal with
  | |- context [redash.NewClientWithProfile profile ?s0] =>
      pose proof (NewClientWithProfile_world profile s s0 eq_refl) as Hc0;
      pose proof (NewClientWithProfile_leaves profile s s0 eq_refl) as Hw0;
      destruct (redash.NewClientWithProfile profile s0) as [[client|err] s1]
  end; cbn [fst snd] in *; [|cbn; discriminate].
  rewrite !bind_apply.
  match goal with
  | |- context [redash_http.GetQuery client queryID ?s0] =>
      set (sq := s0) in *;
      destruct (redash_http.GetQuery client queryID sq) as [[[q|err]| |] s2] eqn:Hget
  end; cbn [fst snd]; try (cbn; discriminate).
  2:{ rewrite !bind_apply. cbn. discriminate. }
  rewrite !bind_apply.
  match goal with
  | |- context [redash.GetProfileSQLDir profile ?s0] =>
      pose proof (GetProfileSQLDir_world profile s2 s0 eq_refl) as Hd0;
      destruct (redash.GetProfileSQLDir profile s0) as [[sqlDir|err] s3]
  end; cbn [fst snd] in *; [|cbn; discriminate].
  cbv zeta. rewrite !bind_apply.
  match goal with
  | |- context [file.WriteFile ?p ?d ?s0] =>
      rewrite (WriteFile_world p d s0);
      destruct (writeWorld (world s0) p d) as [w' [err|]] eqn:Hwrite
  end; cbn [fst snd]; [cbn; discriminate|].
  intros _. exists queryID, client, sq, q, sqlDir.
  destruct (Hrw _ _ _ _ Hwrite) as [Hstat Hread].
  eexists. cbv zeta. unfold queryFileName.
  split; [reflexivity|]. split; [exact Hc0|].
  split; [subst sq; symmetry; exact Hw0|].
  split; [rewrite Hget; reflexivity|]. split; [rewrite Hget; exact Hd0|].
  split; [|split].
  - rewrite !bind_apply. cbn. reflexivity.
  - rewrite !bind_apply.
    match goal with
    | |- os_ReadFile (world ?st) _ = _ => change (world st) with w'
    end.
    exact Hread.
  - rewrite !bind_apply.
    match goal with
    | |- diff.CompareQueryWithLocal (world ?st) _ _ _ = _ => change (world st) with w'
    end.
    unfold diff.CompareQueryWithLocal, file.Exists, file.IsFile.
    rewrite Hstat, Hread. cbn [negb orb]. rewrite String.eqb_refl. reflexivity.
Qed.

End Get.

(** In the world in memory a file that is written reads back as written. *)
Lemma memOS_readsBackWrites : readsBackWrites (W := MemOS.World).
Proof.
  intros w w' path data. unfold writeWorld, file.WriteFile, file.EnsureDirectory.
  munfold. cbn.
  destruct (MemOS.files w !! MemOS.Dir_ path) as [[| |]|]; cbn;
    intros [= <-]; cbn; rewrite lookup_insert_eq; auto.
Qed.

Lemma get_then_compare_witness :
  fst (cmd_get.getCmd "" "5" (MemOS.start worldSql)) = Returned None
  /\ exists (id : Z) (client : redash.Client) (sq : State MemOS.World)
            (q : redash.Query) (sqlDir : string) (before : list string),
       strconv.Atoi "5" = Some id
       /\ fst (redash.NewClientWithProfile "" (MemOS.start worldSql)) = Ok client
       /\ world sq = world (snd (redash.NewClientWithProfile "" (MemOS.start worldSql)))
       /\ fst (redash_http.GetQuery client id sq) = Returned (Ok q)
       /\ fst (redash.GetProfileSQLDir "" (snd (redash_http.GetQuery client id sq)))
          = Ok sqlDir
       /\ stdout (snd (cmd_get.getCmd "" "5" (MemOS.start worldSql)))
          = before ++ [savedMessage q (filepath_Join [sqlDir; queryFileName (redash.ID q)])]
       /\ os_ReadFile (world (snd (cmd_get.getCmd "" "5" (MemOS.start worldSql))))
            (filepath_Join [sqlDir; queryFileName (redash.ID q)])
          = Ok (redash.QueryText q)
       /\ diff.CompareQueryWithLocal
            (world (snd (cmd_get.getCmd "" "5" (MemOS.start worldSql))))
            (redash.ID q) (Some q)
            (filepath_Join [sqlDir; queryFileName (redash.ID q)])
          = (matchResult q (filepath_Join [sqlDir; queryFileName (redash.ID q)]), None).
Proof.
  assert (H : fst (cmd_get.getCmd "" "5" (MemOS.start worldSql)) = Returned None)
    by (vm_compute; reflexivity).
  split; [exact H|].
  exact (get_then_compare "" "5" (MemOS.start worldSql) memOS_readsBackWrites H).
Defined.

(** ** The command [diff query] *)

Section DiffQuery.

Context {W : Type} `{!OS W} `{!DiffMatchPatch} `{!HTTP W} `{!JSON} `{!Quoting}.

(** The comparison with a query that exists in Redash: a match or a
    difference with no error message, or an error that has a text. *)
Lemma compare_remote_cases (w : W) (id : Z) (q : redash.Query) (path : string) :
  let out := diff.CompareQueryWithLocal w id (Some q) path in
  diff.QueryID (fst out) = id
  /\ match snd out with
     | None => diff.ErrorMessage (fst out) = ""
               /\ (diff.Status (fst out) = "MATCH"
                   \/ diff.Status (fst out) = "DIFFERENT")
     | Some msg => msg <> ""
     end.
Proof.
  unfold diff.CompareQueryWithLocal.
  destruct (negb (file.Exists w path) || negb (file.IsFile w path)); cbn;
    [split; [reflexivity | discriminate]|].
  destruct (os_ReadFile w path) as [content|err]; cbn;
    [|split; [reflexivity | discriminate]].
  destruct (String.eqb (TrimSpace content) (TrimSpace (redash.QueryText q)));
    cbn; auto.
Qed.


End DiffQuery.

Section DiffQueryOffline.

Context {W : Type} `{!OS W} `{!DiffMatchPatch} `{!JSON} `{!Quoting}.


End DiffQueryOffline.


(** ** Errors of the API in the commands *)

Section HtmlResponse.

Context {W : Type} `{!OS W} `{!HTTP W} `{!JSON} `{!Quoting}.

(** X20. A page of HTML in place of the query: when the server answers
    the request of [get] with the status 200 and a body that starts with
    [<] and does not decode, the command returns the error that tells so,
    as it is, and the last thing it writes to the standard output, after
    what the logger has written there, is the suggestions of
    [PrintCommonErrorSuggestions], which recognises the text of that
    error. *)
Theorem getCmd_html_response (profile arg homeDir : string) (id : Z)
    (client : redash.Client) (s : State W) (w' : W) (resp : Response) (e : error) :
  strconv.Atoi arg = Some id ->
  os_UserHomeDir (world s) = Ok homeDir ->
  file.Exists (world s) (userConfigPath homeDir) = true ->
  fst (redash.NewClientWithProfile profile s) = Ok client ->
  http_NewRequest (redash_http.queryURL client id) = true ->
  http_Do (world s) (redash_http.queryURL client id) (redash_http.authorization client)
  = (w', Ok resp) ->
  StatusCode resp = 200%Z ->
  ReadErr resp = None ->
  json_Unmarshal_Query (Body resp) = Err e ->
  HasPrefix (Body resp) "<" = true ->
  let out := cmd_get.getCmd profile arg s in
  fst out = Returned (Some redash_http.htmlError)
  /\ world (snd out) = w'
  /\ exists before,
       stdout (snd out) = stdout s ++ before ++ suggestions redash_http.htmlError.
Proof.
  intros Hatoi Hhome Hex Hclient Hreq Hdo Hst Hre Hjs Hhtml out. subst out.
  unfold cmd_get.getCmd. rewrite !bind_apply. rewrite Hatoi. rewrite !bind_apply.
  set (s0 := snd (logger.Debug "Parsed query ID" [("id", VInt id)]
                    (snd (logger.Info "Starting get command"
                            [("queryID", VStr arg); ("profile", VStr profile)] s)))).
  destruct (helpers_keep_world profile homeDir s0 Hhome Hex) as [[Hw1 Ho1] _].
  rewrite (NewClientWithProfile_world profile s s0 eq_refl) in Hclient.
  destruct (redash.NewClientWithProfile profile s0) as [c1 s1].
  cbn [fst snd] in *. subst c1. rewrite !bind_apply.
  change (world s0) with (world s) in Hw1.
  assert (Hso : moreOutput s s1)
    by (refine (moreOutput_trans _ _ _ _ Ho1); subst s0; more_output).
  unfold redash_http.GetQuery. rewrite !bind_apply.
  match goal with
  | |- context [redash_http.fetch ?u ?a ?st] =>
      assert (Hd : http_Do (world st) u a = (w', Ok resp))
        by (change (world st) with (world s1); rewrite Hw1; exact Hdo);
      rewrite (fetch_ok u a st w' resp Hreq Hd Hst Hre)
  end.
  cbn [fst snd]. rewrite Hjs. unfold redash_http.undecoded. rewrite Hhtml.
  rewrite !bind_apply. cbn [ret fst snd].
  unfold redash_errors.PrintCommonErrorSuggestions.
  change (redash_errors.IsHTMLResponseError (Some redash_http.htmlError)) with true.
  cbv iota. rewrite !bind_apply.
  cbn [fst snd ret bind gets world stdout withWorld logger.Error logger.Debug
       logger.Info logger.Warn logger.emit fmt.Print gofmt.Println].
  split; [reflexivity|]. split; [reflexivity|].
  apply (output_lines (suggestions redash_http.htmlError)).
  repeat apply prefix_app_r. exact Hso.
Qed.

End HtmlResponse.

Lemma getCmd_html_response_witness :
  fst (cmd_get.getCmd "" "5" (MemOS.start worldBadKey))
  = Returned (Some redash_http.htmlError)
  /\ exists before,
       stdout (snd (cmd_get.getCmd "" "5" (MemOS.start worldBadKey)))
       = before ++ suggestions redash_http.htmlError.
Proof.
  assert (H1 : strconv.Atoi "5" = Some 5%Z) by reflexivity.
  assert (H2 : os_UserHomeDir (world (MemOS.start worldBadKey)) = Ok "/home/u")
    by reflexivity.
  assert (H3 : file.Exists (world (MemOS.start worldBadKey)) (userConfigPath "/home/u")
               = true) by (vm_compute; reflexivity).
  assert (H4 : fst (redash.NewClientWithProfile "" (MemOS.start worldBadKey))
               = Ok clientBadKey) by (vm_compute; reflexivity).
  assert (H5 : http_NewRequest (redash_http.queryURL clientBadKey 5) = true)
    by (vm_compute; reflexivity).
  assert (H6 : http_Do (world (MemOS.start worldBadKey))
                 (redash_http.queryURL clientBadKey 5)
                 (redash_http.authorization clientBadKey)
               = (worldBadKey, MemNet.ok "<html>login</html>"))
    by (vm_compute; reflexivity).
  assert (H7 : json_Unmarshal_Query "<html>login</html>" = Err "invalid character")
    by reflexivity.
  assert (H8 : HasPrefix "<html>login</html>" "<" = true) by reflexivity.
  destruct (getCmd_html_response "" "5" "/home/u" 5 clientBadKey
              (MemOS.start worldBadKey) worldBadKey
              {| StatusCode := 200; Body := "<html>login</html>"; ReadErr := None;
                 Spare := "" |}
              "invalid character" H1 H2 H3 H4 H5 H6 eq_refl eq_refl H7 H8)
    as (R1 & _ & R2).
  split; [exact R1 | exact R2].
Defined.

(** ** The API key on the wire *)

Section KeyOnTheWire.

Context {W : Type} `{!OS W} `{!HTTP W} `{!JSON}.

(** X21. The client uses its API key in the [Authorization] header of
    its requests and nowhere else: two clients of one URL whose headers
    the server answers alike get the same results from [GetQuery] and
    [ListQueries] and leave the same state, log included. *)
Theorem api_key_only_in_header (c1 c2 : redash.Client) (fuel : nat) (id : Z)
    (s : State W) :
  redash.baseURL c1 = redash.baseURL c2 ->
  (forall (w : W) (url : string),
     http_Do w url (redash_http.authorization c1)
     = http_Do w url (redash_http.authorization c2)) ->
  redash_http.GetQuery c1 id s = redash_http.GetQuery c2 id s
  /\ redash_http.ListQueries fuel c1 s = redash_http.ListQueries fuel c2 s.
Proof.
  intros Hurl Hdo.
  assert (Hfetch : forall url st,
             redash_http.fetch url (redash_http.authorization c1) st
             = redash_http.fetch url (redash_http.authorization c2) st).
  { intros url st. unfold redash_http.fetch.
    destruct (http_NewRequest url); [|reflexivity]. cbn [negb].
    rewrite !bind_apply. cbn [gets fst snd]. rewrite Hdo. reflexivity. }
  split.
  - unfold redash_http.GetQuery, redash_http.queryURL. rewrite !bind_apply.
    rewrite Hurl, Hfetch. reflexivity.
  - unfold redash_http.ListQueries. rewrite !bind_apply.
    generalize (snd (logger.Debug "Listing queries" [] s)) as st.
    generalize 1%Z as page. generalize (@nil redash.Query) as acc.
    induction fuel as [|fuel IH]; intros acc page st; [reflexivity|].
    cbn [redash_http.listPages]. rewrite !bind_apply.
    unfold redash_http.pageURL. rewrite Hurl, Hfetch.
    match goal with
    | |- context [redash_http.fetch ?u ?a ?s0] =>
        destruct (redash_http.fetch u a s0) as [[[resp|err]| |] s1]
    end; cbn [fst snd]; try reflexivity.
    destruct (json_Unmarshal_List (Body resp)) as [response|err]; [|reflexivity].
    rewrite !bind_apply.
    match goal with
    | |- context [if ?b then _ else _] => destruct b
    end; [reflexivity | apply IH].
Qed.

End KeyOnTheWire.

Lemma api_key_only_in_header_witness :
  redash_http.GetQuery clientBadKey 5 (MemOS.start worldBadKey)
  = redash_http.GetQuery clientOtherKey 5 (MemOS.start worldBadKey).
Proof.
  refine (proj1 (api_key_only_in_header clientBadKey clientOtherKey 0 5
                   (MemOS.start worldBadKey) eq_refl _)).
  intros w url. reflexivity.
Defined.

(** ** The command [dump] *)

Section Dump.

Context {W : Type} `{!OS W} `{!DiffMatchPatch} `{!HTTP W} `{!JSON} `{!Marshal}
  `{!Clock W}.

(** Two IDs of the range that have one file name are one ID. *)
Lemma queryFileName_inj (i j : Z) :
  (strconv.minInt <= i <= strconv.maxInt)%Z ->
  (strconv.minInt <= j <= strconv.maxInt)%Z ->
  queryFileName i = queryFileName j -> i = j.
Proof.
  intros Hi Hj Hn.
  assert (Hs : gofmt.Sprintd i = gofmt.Sprintd j).
  { rewrite <- (TrimSuffix_app (gofmt.Sprintd i) ".sql"),
      <- (TrimSuffix_app (gofmt.Sprintd j) ".sql").
    unfold queryFileName in Hn. rewrite Hn. reflexivity. }
  pose proof (Atoi_Sprintd i Hi) as Ai. pose proof (Atoi_Sprintd j Hj) as Aj.
  rewrite Hs in Ai. congruence.
Qed.

(** An entry of the map of the queries is a listed query of that ID. *)
Lemma buildQueryMap_Some (qs : list redash.Query) (id : Z) (q : redash.Query) :
  commands.buildQueryMap qs !! id = Some q -> redash.ID q = id /\ In q qs.
Proof.
  induction qs as [|x qs IH] using rev_ind.
  - cbn. rewrite lookup_empty. discriminate.
  - rewrite buildQueryMap_snoc. intros Hl. apply lookup_insert_Some in Hl.
    rewrite in_app_iff. destruct Hl as [[<- <-]|[_ Hl]]; cbn; [auto|].
    destruct (IH Hl); auto.
Qed.

(** Once the loop of [dump] has returned with an error, it does nothing. *)
Lemma dumpQuery_returned (sqlDir : string) (queries : list redash.Query)
    (err : error) (s : State W) :
  forEach (cmd_dump.dumpQuery sqlDir) queries (Some err) s = (Some err, s).
Proof.
  revert s. induction queries as [|q queries IH]; intros s; [reflexivity|].
  cbn [forEach]. rewrite bind_apply. cbn. apply IH.
Qed.

(** One step of the loop of [dump]: one file written. *)
Lemma dumpQuery_step (sqlDir : string) (q : redash.Query) (s : State W) :
  let out := cmd_dump.dumpQuery sqlDir q None s in
  let written :=
    os_WriteFile (world s) (filepath_Join [sqlDir; queryFileName (redash.ID q)])
      (redash.QueryText q) in
  world (snd out) = fst written /\ fst out = snd written.
Proof.
  unfold cmd_dump.dumpQuery, queryFileName. cbv zeta. rewrite !bind_apply.
  cbn [gets fst snd logger.Debug logger.emit world].
  destruct (os_WriteFile (world s)
              (filepath_Join [sqlDir; gofmt.Sprintd (redash.ID q) +:+ ".sql"])
              (redash.QueryText q)) as [w' [err|]]; rewrite !bind_apply; cbn; auto.
Qed.

(** The loop of [dump], when it ends without error, leaves the file of
    each ID with the text of the last query of that ID. *)
Lemma dump_filesHold (sqlDir : string) :
  keepsOtherFiles -> namesApart ->
  forall (rest done : list redash.Query) (s : State W),
    Forall inRange (done ++ rest) ->
    filesHold (world s) sqlDir (commands.buildQueryMap done) ->
    fst (forEach (cmd_dump.dumpQuery sqlDir) rest None s) = None ->
    filesHold (world (snd (forEach (cmd_dump.dumpQuery sqlDir) rest None s))) sqlDir
      (commands.buildQueryMap (done ++ rest)).
Proof.
  intros Hkeep Hapart. induction rest as [|q rest IH]; intros done s Hrange Hinv Hok.
  - rewrite app_nil_r. exact Hinv.
  - cbn [forEach] in *. rewrite bind_apply in *.
    pose proof (dumpQuery_step sqlDir q s) as [Hw He]. cbv zeta in Hw, He.
    destruct (os_WriteFile (world s)
                (filepath_Join [sqlDir; queryFileName (redash.ID q)])
                (redash.QueryText q)) as [w' e] eqn:Hwrite.
    cbn [fst snd] in Hw, He.
    destruct (cmd_dump.dumpQuery sqlDir q None s) as [e1 s1]. cbn [fst snd] in *.
    subst e1. destruct e as [err|];
      [rewrite dumpQuery_returned in Hok; discriminate|].
    replace (done ++ q :: rest) with ((done ++ [q]) ++ rest) in *
      by (rewrite <- app_assoc; reflexivity).
    apply IH; [assumption | | assumption].
    rewrite Hw. destruct (Hkeep _ _ _ _ Hwrite) as (Hstat & Hread & Hothers).
    intros id last Hl. rewrite buildQueryMap_snoc in Hl.
    apply lookup_insert_Some in Hl. destruct Hl as [[<- <-]|[Hne Hl]]; [auto|].
    destruct (Hinv id last Hl) as [Hs Hr].
    destruct (buildQueryMap_Some _ _ _ Hl) as [Hid Hin].
    assert (Hpath : filepath_Join [sqlDir; queryFileName id]
                    <> filepath_Join [sqlDir; queryFileName (redash.ID q)]).
    { intros Heq. apply Hapart in Heq. apply queryFileName_inj in Heq.
      - congruence.
      - rewrite <- Hid. rewrite List.Forall_forall in Hrange. apply Hrange.
        rewrite !in_app_iff. auto.
      - rewrite List.Forall_forall in Hrange. apply Hrange.
        rewrite !in_app_iff. cbn. auto. }
    destruct (Hothers _ Hpath) as [-> ->]. auto.
Qed.


End Dump.

(** The world in memory keeps the files that are not written, and gives
    the files of two names two paths. *)
Lemma memOS_keepsOtherFiles : keepsOtherFiles (W := MemOS.World).
Proof.
  intros w w' path data. cbn. intros [= <-]. cbn.
  rewrite lookup_insert_eq. repeat split.
  all: rewrite lookup_insert_ne by congruence; reflexivity.
Qed.

Lemma append_inj_l (a x y : string) : a +:+ x = a +:+ y -> x = y.
Proof.
  induction a as [|c a IH]; [auto|].
  change (String c a +:+ x) with (String c (a +:+ x)).
  change (String c a +:+ y) with (String c (a +:+ y)).
  intros [= Heq]. auto.
Qed.

Lemma queryFileName_not_empty (i : Z) : queryFileName i <> "".
Proof.
  unfold queryFileName. intros Heq.
  apply (f_equal String.length) in Heq. rewrite length_append in Heq.
  cbn in Heq. lia.
Qed.

Lemma memOS_namesApart : namesApart (W := MemOS.World).
Proof.
  intros sqlDir i j.
  change (MemOS.Join_ [sqlDir; queryFileName i] = MemOS.Join_ [sqlDir; queryFileName j]
          -> queryFileName i = queryFileName j).
  unfold MemOS.Join_.
  pose proof (queryFileName_not_empty i) as Hi.
  pose proof (queryFileName_not_empty j) as Hj.
  rewrite !filter_cons, filter_nil.
  destruct (decide (queryFileName i <> "")); [|contradiction].
  destruct (decide (queryFileName j <> "")); [|contradiction].
  destruct (decide (sqlDir <> "")); cbn [Join]; [|auto].
  intros Heq. apply append_inj_l in Heq. apply append_inj_l in Heq. exact Heq.
Qed.


(** ** The command [diff all], whole *)

Section DiffAll.

Context {W : Type} `{!OS W} `{!DiffMatchPatch} `{!HTTP W} `{!JSON} `{!ReadDir W}
  `{!Marshal}.

Lemma quiet_ret {A : Type} (a : A) : quiet (ret (W := W) a).
Proof. intros s. quiet_step. Qed.

Lemma quiet_emit (lvl : Level) (msg : string) (args : list (string * LogValue)) :
  quiet (logger.emit (W := W) lvl msg args).
Proof. intros s. quiet_step. Qed.

Lemma quiet_bind {A B : Type} (m : M W A) (k : A -> M W B) :
  quiet m -> (forall a, quiet (k a)) -> quiet (bind m k).
Proof.
  intros Hm Hk s. rewrite bind_apply.
  destruct (Hm s) as [Ea Eb]. destruct (Hk (fst (m s)) (snd (m s))) as [Ec Ed].
  split; [exact (moreOutput_trans _ _ _ Ea Ec) | congruence].
Qed.

Lemma quiet_fetch (url auth : string) : quiet (redash_http.fetch url auth).
Proof.
  unfold redash_http.fetch. destruct (http_NewRequest url); cbn [negb];
    [|apply quiet_ret].
  intros s. rewrite bind_apply. cbn [gets fst snd].
  destruct (http_Do (world s) url auth) as [w' [resp|err]]; rewrite bind_apply;
    cbn [setWorld fst snd]; [|quiet_step].
  destruct (negb (StatusCode resp =? 200)%Z); [quiet_step|].
  destruct (ReadErr resp); quiet_step.
Qed.

Lemma quiet_undecoded {A : Type} (resp : Response) (err : error) :
  quiet (redash_http.undecoded (W := W) (A := A) resp err).
Proof.
  unfold redash_http.undecoded. destruct (HasPrefix (Body resp) "<");
    intros s; quiet_step.
Qed.

Lemma quiet_listPages (c : redash.Client) (fuel : nat) :
  forall (page : Z) (acc : list redash.Query),
    quiet (redash_http.listPages fuel c page 100 acc).
Proof.
  induction fuel as [|fuel IH]; intros page acc; [apply quiet_ret|].
  cbn [redash_http.listPages].
  apply quiet_bind; [apply quiet_emit | intros _].
  apply quiet_bind; [apply quiet_fetch | intros [[resp|err]| |]];
    try apply quiet_ret.
  destruct (json_Unmarshal_List (Body resp)) as [response|err];
    [|apply quiet_undecoded].
  apply quiet_bind; [apply quiet_emit | intros _].
  match goal with
  | |- quiet (if ?b then _ else _) => destruct b
  end; [|apply IH].
  apply quiet_bind; [apply quiet_emit | intros _; apply quiet_ret].
Qed.

Lemma quiet_ListQueries (c : redash.Client) (fuel : nat) :
  quiet (redash_http.ListQueries fuel c).
Proof.
  unfold redash_http.ListQueries.
  apply quiet_bind; [apply quiet_emit | intros _; apply quiet_listPages].
Qed.

(** The loop of the bulk diff only logs. *)
Lemma diffAllEntry_quiet (sqlDir : string) (queryMap : gmap Z redash.Query)
    (e : DirEntry) (summary : diff.Summary) :
  quiet (commands.diffAllEntry (W := W) sqlDir queryMap e summary).
Proof.
  unfold commands.diffAllEntry.
  destruct (entryIsDir e || negb (HasSuffix (entryName e) ".sql"));
    [apply quiet_ret|].
  destruct (strconv.Atoi (TrimSuffix (entryName e) ".sql")) as [id|].
  2:{ apply quiet_bind; [apply quiet_emit | intros _; apply quiet_ret]. }
  intros s. rewrite bind_apply. cbn [gets fst snd].
  destruct (diff.CompareQueryWithLocal (world s) id (queryMap !! id)
              (filepath_Join [sqlDir; entryName e])) as [r [err|]].
  - rewrite !bind_apply. cbn [fst snd ret logger.Error logger.emit].
    destruct (String.eqb (diff.Status (diff.setErrorMessage
                                         (diff.setStatus r "ERROR") err)) "MATCH");
      [quiet_step|].
    destruct (String.eqb (diff.Status (diff.setErrorMessage
                                         (diff.setStatus r "ERROR") err)) "DIFFERENT");
      [quiet_step|].
    destruct (String.eqb (diff.Status (diff.setErrorMessage
                                         (diff.setStatus r "ERROR") err))
                "MISSING_IN_REDASH"); quiet_step.
  - rewrite !bind_apply. cbn [fst snd ret].
    destruct (String.eqb (diff.Status r) "MATCH"); [quiet_step|].
    destruct (String.eqb (diff.Status r) "DIFFERENT"); [quiet_step|].
    destruct (String.eqb (diff.Status r) "MISSING_IN_REDASH"); quiet_step.
Qed.

Lemma forEach_diffAllEntry_frame (sqlDir : string) (queryMap : gmap Z redash.Query)
    (entries : list DirEntry) :
  forall (summary : diff.Summary) (s : State W),
    sameWorld s (snd (forEach (commands.diffAllEntry sqlDir queryMap) entries summary s)).
Proof.
  induction entries as [|e entries IH]; intros summary s; [apply sameWorld_refl|].
  cbn [forEach]. rewrite bind_apply.
  pose proof (diffAllEntry_step sqlDir queryMap e summary s) as [_ Hw].
  destruct (diffAllEntry_quiet sqlDir queryMap e summary s) as [Ho _].
  refine (sameWorld_trans _ _ _ _ (IH _ _)). split; [exact Hw | exact Ho].
Qed.

(** X23. What a successful [diff all] prints: with the config file in
    place, a [diff all] that returns no error has resolved the client and
    the SQL directory of its profile flag, the directory is a directory,
    and the last thing it has written to the standard output, after what
    the logger has written there, is the JSON of the summary of that
    directory, built over the entries [os.ReadDir] gives for it and the
    queries listed; the profile the summary names is the profile of the
    client. *)
Theorem diffAllCmd_prints_summary (fuel : nat) (profile homeDir : string)
    (s : State W) :
  os_UserHomeDir (world s) = Ok homeDir ->
  file.Exists (world s) (userConfigPath homeDir) = true ->
  fst (cmd_diff_all.diffAllCmd fuel profile s) = Returned None ->
  let s' := snd (cmd_diff_all.diffAllCmd fuel profile s) in
  exists (client : redash.Client) (sqlDir : string) (sl : State W)
         (queries : list redash.Query) (entries : list DirEntry) (text : string),
    fst (redash.NewClientWithProfile profile s) = Ok client
    /\ fst (redash.GetProfileSQLDir profile s) = Ok sqlDir
    /\ file.IsDirectory (world s) sqlDir = true
    /\ world sl = world s
    /\ fst (redash_http.ListQueries fuel client sl) = Returned (Ok queries)
    /\ os_ReadDir (world s') sqlDir = Ok entries
    /\ json_MarshalIndent_Summary
         (foldl (entryStep (world s') sqlDir (commands.buildQueryMap queries))
            (emptySummary (redash.profile client) sqlDir) entries)
       = Ok text
    /\ exists before,
         stdout s' = stdout s ++ before ++ [text +:+ String bufio.newline ""].
Proof.
  intros Hhome Hex. unfold cmd_diff_all.diffAllCmd. rewrite !bind_apply.
  set (s0 := snd (logger.Info "Starting diff all command"
                    [("profile", VStr profile)] s)).
  destruct (helpers_keep_world profile homeDir s0 Hhome Hex) as [[Hw1 Ho1] _].
  change (world s0) with (world s) in Hw1.
  assert (Ho0 : moreOutput s s0) by (subst s0; more_output).
  pose proof (NewClientWithProfile_world profile s s0 eq_refl) as Hc0.
  destruct (fst (redash.NewClientWithProfile profile s0)) as [client|err] eqn:Hclient;
    [|cbn; discriminate].
  assert (Hw1' : world (snd (redash.NewClientWithProfile profile s0)) = world s0)
    by exact Hw1.
  destruct (helpers_current profile homeDir s0
              (snd (redash.NewClientWithProfile profile s0)) client Hhome Hex Hw1'
              Hclient) as [_ Hcur2].
  set (s1 := snd (redash.NewClientWithProfile profile s0)) in *.
  assert (Hhome1 : os_UserHomeDir (world s1) = Ok homeDir) by (rewrite Hw1; exact Hhome).
  assert (Hex1 : file.Exists (world s1) (userConfigPath homeDir) = true)
    by (rewrite Hw1; exact Hex).
  destruct (helpers_keep_world profile homeDir s1 Hhome1 Hex1) as [_ [Hw2 Ho2]].
  pose proof (GetProfileSQLDir_world profile s s1 (eq_sym Hw1)) as Hd0.
  rewrite ?bind_apply.
  destruct (fst (redash.GetProfileSQLDir profile s1)) as [sqlDir|err] eqn:Hdir;
    [|cbn; discriminate].
  set (s2 := snd (redash.GetProfileSQLDir profile s1)) in *.
  rewrite ?bind_apply. cbn [gets fst snd].
  change (world (snd (logger.Debug "Using SQL directory" [("dir", VStr sqlDir)] s2)))
    with (world s2).
  rewrite Hw2, Hw1.
  destruct (file.Exists (world s) sqlDir) eqn:Hexd; cbn [negb orb];
    [|cbn; discriminate].
  destruct (file.IsDirectory (world s) sqlDir) eqn:Hisd; cbn [negb];
    [|cbn; discriminate].
  rewrite ?bind_apply.
  match goal with
  | |- context [redash_http.ListQueries fuel client ?st] =>
      destruct (quiet_ListQueries client fuel st) as [Ho3 Hc3];
      destruct (redash_http.ListQueries fuel client st) as [[[queries|err]| |] s3]
        eqn:Hlist; set (sl := st) in *
  end; cbn [fst snd] in *; try (cbn; discriminate).
  2:{ rewrite ?bind_apply. cbn. discriminate. }
  rewrite ?bind_apply. cbn [gets fst snd].
  change (world (snd (logger.Info "Retrieved queries from Redash"
                        [("count", VInt (Z.of_nat (length queries)))] s3)))
    with (world s3).
  destruct (os_ReadDir (world s3) sqlDir) as [entries|err] eqn:Hread;
    [|cbn; discriminate].
  rewrite ?bind_apply.
  match goal with
  | |- context [forEach (commands.diffAllEntry sqlDir ?qm) entries ?sm ?st] =>
      pose proof (forEach_diffAllEntry sqlDir qm entries sm st) as Hfold;
      destruct (forEach_diffAllEntry_frame sqlDir qm entries sm st) as [Hw5 Ho5];
      destruct (forEach (commands.diffAllEntry sqlDir qm) entries sm st) as [summary s5]
  end.
  cbn [fst snd] in *.
  destruct (json_MarshalIndent_Summary summary) as [text|err] eqn:Hjson;
    [|cbn; discriminate].
  intros _. exists client, sqlDir, sl, queries, entries, text.
  rewrite Hlist. cbn [fst].
  change (world sl) with (world s2). rewrite Hw2, Hw1.
  change (CurrentProfile (snd (logger.Info "Retrieved queries from Redash"
                                 [("count", VInt (Z.of_nat (length queries)))] s3)))
    with (CurrentProfile s3) in Hfold.
  change (CurrentProfile sl) with (CurrentProfile s2) in Hc3.
  rewrite Hc3, Hcur2 in Hfold.
  change (world (snd (logger.Info "Retrieved queries from Redash"
                        [("count", VInt (Z.of_nat (length queries)))] s3)))
    with (world s3) in Hfold, Hw5.
  assert (Hso : moreOutput s s5).
  { refine (moreOutput_trans _ _ _ Ho0 _). refine (moreOutput_trans _ _ _ Ho1 _).
    refine (moreOutput_trans _ _ _ Ho2 _).
    refine (moreOutput_trans _ _ _ _ (moreOutput_trans _ _ _ Ho3
              (moreOutput_trans _ _ _ _ Ho5))); [subst sl|]; more_output. }
  rewrite ?bind_apply. cbn [fst snd ret gofmt.Println fmt.Print world stdout].
  rewrite Hw5, Hread.
  do 6 (split; [first [reflexivity | assumption | congruence]|]).
  split; [unfold emptySummary; rewrite <- Hfold; exact Hjson|].
  apply output_then. exact Hso.
Qed.

End DiffAll.

Lemma diffAllCmd_prints_summary_witness :
  fst (cmd_diff_all.diffAllCmd 2 "" (MemOS.start worldSql)) = Returned None
  /\ exists (client : redash.Client) (sqlDir : string) (sl : State MemOS.World)
            (queries : list redash.Query) (entries : list DirEntry) (text : string),
       fst (redash.NewClientWithProfile "" (MemOS.start worldSql)) = Ok client
       /\ fst (redash.GetProfileSQLDir "" (MemOS.start worldSql)) = Ok sqlDir
       /\ file.IsDirectory (world (MemOS.start worldSql)) sqlDir = true
       /\ world sl = world (MemOS.start worldSql)
       /\ fst (redash_http.ListQueries 2 client sl) = Returned (Ok queries)
       /\ os_ReadDir
            (world (snd (cmd_diff_all.diffAllCmd 2 "" (MemOS.start worldSql)))) sqlDir
          = Ok entries
       /\ json_MarshalIndent_Summary
            (foldl (entryStep
                      (world (snd (cmd_diff_all.diffAllCmd 2 "" (MemOS.start worldSql))))
                      sqlDir (commands.buildQueryMap queries))
               (emptySummary (redash.profile client) sqlDir) entries)
          = Ok text
       /\ exists before,
            stdout (snd (cmd_diff_all.diffAllCmd 2 "" (MemOS.start worldSql)))
            = stdout (MemOS.start worldSql) ++ before
              ++ [text +:+ String bufio.newline ""].
Proof.
  assert (H1 : os_UserHomeDir (world (MemOS.start worldSql)) = Ok "/home/u")
    by reflexivity.
  assert (H2 : file.Exists (world (MemOS.start worldSql)) (userConfigPath "/home/u")
               = true) by (vm_compute; reflexivity).
  assert (H3 : fst (cmd_diff_all.diffAllCmd 2 "" (MemOS.start worldSql))
               = Returned None) by (vm_compute; reflexivity).
  split; [exact H3|].
  exact (diffAllCmd_prints_summary 2 "" "/home/u" (MemOS.start worldSql) H1 H2 H3).
Defined.

(** ** What the client returns comes from the server *)

Section Sound.

Context {W : Type} `{!OS W} `{!HTTP W} `{!JSON}.

(** A response [fetch] returns was answered with the status 200 and read
    to its end, and the world is the one the request has left. *)
Lemma fetch_ok_inv (url auth : string) (s : State W) (resp : Response) :
  fst (redash_http.fetch url auth s) = Returned (Ok resp) ->
  http_NewRequest url = true
  /\ http_Do (world s) url auth = (world (snd (redash_http.fetch url auth s)), Ok resp)
  /\ StatusCode resp = 200%Z
  /\ ReadErr resp = None.
Proof.
  unfold redash_http.fetch. destruct (http_NewRequest url); cbn [negb];
    [|cbn; discriminate].
  rewrite bind_apply. cbn [gets fst snd].
  destruct (http_Do (world s) url auth) as [w' [r|err]]; rewrite bind_apply;
    cbn [setWorld fst snd]; [|cbn; discriminate].
  destruct (Z.eqb_spec (StatusCode r) 200) as [Hst|Hst]; cbn [negb];
    [|cbn; discriminate].
  destruct (ReadErr r) eqn:Hre; cbn; [discriminate|].
  intros [= <-]. auto.
Qed.

Lemma undecoded_no_value {A : Type} (resp : Response) (err : error) (s : State W)
    (a : A) :
  fst (redash_http.undecoded resp err s) <> Returned (Ok a).
Proof.
  unfold redash_http.undecoded. destruct (HasPrefix (Body resp) "<"); cbn; discriminate.
Qed.

(** X24. [GetQuery] returns a query only when the server has answered
    its one request with the status 200 and a body, read to its end, that
    decodes to that query; the world is then the one the request has
    left. No query comes out of a failed request, of another status or of
    a body that does not decode. *)
Theorem GetQuery_sound (c : redash.Client) (id : Z) (s : State W) (q : redash.Query) :
  fst (redash_http.GetQuery c id s) = Returned (Ok q) ->
  exists resp : Response,
    http_NewRequest (redash_http.queryURL c id) = true
    /\ http_Do (world s) (redash_http.queryURL c id) (redash_http.authorization c)
       = (world (snd (redash_http.GetQuery c id s)), Ok resp)
    /\ StatusCode resp = 200%Z
    /\ ReadErr resp = None
    /\ json_Unmarshal_Query (Body resp) = Ok q.
Proof.
  unfold redash_http.GetQuery. rewrite !bind_apply.
  set (s0 := snd (logger.Debug "Getting query" [("id", VInt id)] s)).
  pose proof (fetch_ok_inv (redash_http.queryURL c id) (redash_http.authorization c) s0)
    as Hf.
  destruct (redash_http.fetch (redash_http.queryURL c id)
              (redash_http.authorization c) s0) as [[[resp|err]| |] s1];
    cbn [fst snd] in *; try discriminate.
  destruct (Hf resp eq_refl) as (Hn & Hd & Hst & Hre).
  destruct (json_Unmarshal_Query (Body resp)) as [query|err] eqn:Hjs.
  - rewrite bind_apply. cbn. intros [= <-]. exists resp. auto.
  - intros Hu. exfalso. exact (undecoded_no_value resp err s1 q Hu).
Qed.

Lemma listPages_sound (c : redash.Client) (fuel : nat) :
  forall (page : Z) (acc queries : list redash.Query) (s : State W),
    Forall (sentByServer (W := W) c) acc ->
    fst (redash_http.listPages fuel c page 100 acc s) = Returned (Ok queries) ->
    Forall (sentByServer (W := W) c) queries.
Proof.
  induction fuel as [|fuel IH]; intros page acc queries s Hacc; [cbn; discriminate|].
  cbn [redash_http.listPages]. rewrite !bind_apply.
  set (s0 := snd (logger.Debug "Fetching page of queries"
                    [("page", VInt page); ("page_size", VInt 100)] s)).
  pose proof (fetch_ok_inv (redash_http.pageURL c page 100)
                (redash_http.authorization c) s0) as Hf.
  destruct (redash_http.fetch (redash_http.pageURL c page 100)
              (redash_http.authorization c) s0) as [[[resp|err]| |] s1];
    cbn [fst snd] in *; try discriminate.
  destruct (Hf resp eq_refl) as (Hn & Hd & Hst & Hre).
  destruct (json_Unmarshal_List (Body resp)) as [response|err] eqn:Hjs.
  2:{ intros Hu. exfalso. exact (undecoded_no_value resp err s1 queries Hu). }
  assert (Hall : Forall (sentByServer (W := W) c) (acc ++ Results_ response)).
  { apply Forall_app. split; [exact Hacc|]. apply List.Forall_forall. intros q Hq.
    exists (world s0), (world s1), page, resp, response. auto. }
  rewrite !bind_apply.
  match goal with
  | |- context [if ?b then _ else _] => destruct b
  end.
  - rewrite bind_apply. cbn. intros [= <-]. exact Hall.
  - apply IH. exact Hall.
Qed.

(** X25. [ListQueries] returns only queries the server has sent: each
    query of a listing it returns is in the decoded body of a response of
    status 200 to the request of a page. *)
Theorem ListQueries_sound (c : redash.Client) (fuel : nat) (s : State W)
    (queries : list redash.Query) :
  fst (redash_http.ListQueries fuel c s) = Returned (Ok queries) ->
  forall q : redash.Query, In q queries -> sentByServer (W := W) c q.
Proof.
  unfold redash_http.ListQueries. rewrite bind_apply. intros Hl.
  apply List.Forall_forall.
  apply (listPages_sound c fuel 1 [] queries _ (List.Forall_nil _) Hl).
Qed.

End Sound.

Lemma GetQuery_sound_witness :
  exists resp : Response,
    http_NewRequest (redash_http.queryURL clientSql 5) = true
    /\ http_Do (world (MemOS.start worldSql)) (redash_http.queryURL clientSql 5)
         (redash_http.authorization clientSql)
       = (world (snd (redash_http.GetQuery clientSql 5 (MemOS.start worldSql))), Ok resp)
    /\ StatusCode resp = 200%Z
    /\ ReadErr resp = None
    /\ json_Unmarshal_Query (Body resp) = Ok query5.
Proof.
  apply GetQuery_sound. vm_compute. reflexivity.
Defined.

Lemma ListQueries_sound_witness :
  Forall (sentByServer (W := MemOS.World) clientSql) MemNet.bulk.
Proof.
  apply List.Forall_forall.
  apply (ListQueries_sound clientSql 2 (MemOS.start worldSql) MemNet.bulk).
  vm_compute. reflexivity.
Defined.
